(** * RWA implementation server: identity / KYC orchestration

    A shallow embedding of the transaction-orchestration core of the server
    ([src/context/handleKyc.js], [src/context/handleKycV6.js],
    [src/context/invest.js], [src/context/sigVerify.js], the legacy
    [deployIdentity] module and the Express handlers of both entry points),
    together with the properties of its specification and further
    properties read off the code.

    - BigInt fee arithmetic is modelled on [Z] ([/] on BigInt is [Z.quot]).
    - Byte strings are [list byte]; [ethers.keccak256] is Keccak-256 itself,
      [AbiCoder.encode] and [solidityPacked] are the byte-level encoders.
    - ECDSA signing and on-chain recovery are parameters of the development.
    - Awaited remote calls thread an explicit world (the trace of submitted
      transactions) through a small exception/state monad. *)

From Stdlib Require Import List NArith ZArith Lia Bool String Ascii.
From Stdlib Require Import Init.Byte Strings.Byte DecimalString.
Import ListNotations.

(* ================================================================= *)
(** * Byte strings *)

Definition bytes := list byte.

Definition byte_of_N (n : N) : byte :=
  match Byte.of_N (n mod 256) with
  | Some b => b
  | None => x00
  end.

(** Big-endian, fixed-width rendering of an unsigned integer: the [len]
    low-order bytes of [n], most significant first (ethers [toBeArray] padded
    with [zeroPadValue]). *)
Fixpoint be_bytes (len : nat) (n : N) : bytes :=
  match len with
  | O => []
  | S k => be_bytes k (N.shiftr n 8) ++ [byte_of_N n]
  end.

(** Little-endian reading of at most eight bytes as a 64-bit lane. *)
Fixpoint le_lane (bs : bytes) : N :=
  match bs with
  | [] => 0
  | b :: rest => (Byte.to_N b + 256 * le_lane rest)%N
  end.

Fixpoint zeros (n : nat) : bytes :=
  match n with
  | O => []
  | S k => x00 :: zeros k
  end.

(** [ethers.toUtf8Bytes] on a string already held as its UTF-8 bytes. *)
Definition toUtf8Bytes (s : string) : bytes := list_byte_of_string s.

(* ================================================================= *)
(** * Keccak-256 ([ethers.keccak256])

    The Keccak-f[1600] permutation on 25 lanes of 64 bits, sponge rate 136
    bytes, original Keccak padding (domain byte 0x01), 32 bytes of output. *)

Module Keccak.

Local Open Scope N_scope.

Definition lane_mask : N := 0xFFFFFFFFFFFFFFFF.

Definition rotl64 (a : N) (n : N) : N :=
  N.land (N.lor (N.shiftl a n) (N.shiftr a (64 - n))) lane_mask.

Definition not64 (a : N) : N := N.lxor a lane_mask.

Definition state := list N.

Definition lane (st : state) (x y : nat) : N :=
  nth ((x mod 5) + 5 * (y mod 5))%nat st 0.

Definition round_constants : list N :=
  [ 0x0000000000000001; 0x0000000000008082; 0x800000000000808A;
    0x8000000080008000; 0x000000000000808B; 0x0000000080000001;
    0x8000000080008081; 0x8000000000008009; 0x000000000000008A;
    0x0000000000000088; 0x0000000080008009; 0x000000008000000A;
    0x000000008000808B; 0x800000000000008B; 0x8000000000008089;
    0x8000000000008003; 0x8000000000008002; 0x8000000000000080;
    0x000000000000800A; 0x800000008000000A; 0x8000000080008081;
    0x8000000000008080; 0x0000000080000001; 0x8000000080008008 ].

(** Rotation offsets, indexed by [x + 5 * y]. *)
Definition rho_offsets : list N :=
  [  0;  1; 62; 28; 27;
    36; 44;  6; 55; 20;
     3; 10; 43; 25; 39;
    41; 45; 15; 21;  8;
    18;  2; 61; 56; 14 ].

Definition positions : list nat := seq 0 25.

Definition column_parity (st : state) (x : nat) : N :=
  N.lxor (lane st x 0)
    (N.lxor (lane st x 1)
       (N.lxor (lane st x 2) (N.lxor (lane st x 3) (lane st x 4)))).

Definition theta (st : state) : state :=
  map (fun i =>
         let x := (i mod 5)%nat in
         let d := N.lxor (column_parity st (x + 4))
                         (rotl64 (column_parity st (x + 1)) 1) in
         N.lxor (nth i st 0) d)
      positions.

(** rho and pi together: the lane written at [(X, Y)] is the rotated lane
    read at [(x, y)] with [X = y] and [Y = 2x + 3y], that is [x = X + 3Y]
    and [y = X] modulo 5. *)
Definition rho_pi (st : state) : state :=
  map (fun i =>
         let X := (i mod 5)%nat in
         let Y := (i / 5)%nat in
         let x := ((X + 3 * Y) mod 5)%nat in
         let y := X in
         rotl64 (lane st x y) (nth (x + 5 * y)%nat rho_offsets 0))
      positions.

Definition chi (st : state) : state :=
  map (fun i =>
         let x := (i mod 5)%nat in
         let y := (i / 5)%nat in
         N.lxor (lane st x y)
                (N.land (not64 (lane st (x + 1) y)) (lane st (x + 2) y)))
      positions.

Definition iota (rc : N) (st : state) : state :=
  match st with
  | [] => []
  | a :: rest => N.lxor a rc :: rest
  end.

Definition round (st : state) (rc : N) : state :=
  iota rc (chi (rho_pi (theta st))).

Definition keccak_f (st : state) : state :=
  fold_left round round_constants st.

Definition rate : nat := 136.

(** The lanes of one rate-sized block (17 lanes), zero-extended to 25. *)
Fixpoint block_lanes (n : nat) (block : bytes) : list N :=
  match n with
  | O => []
  | S k => le_lane (firstn 8 block) :: block_lanes k (skipn 8 block)
  end.

Definition absorb_block (st : state) (block : bytes) : state :=
  keccak_f (map (fun i => N.lxor (nth i st 0) (nth i (block_lanes 17 block) 0))
                positions).

(** Padding of the last, incomplete block: 0x01, zeros, and 0x80 on the last
    byte of the block (the two coincide as 0x81 when one byte is free). *)
Definition pad_last (tail : bytes) : bytes :=
  let free := (rate - List.length tail)%nat in
  match free with
  | 1%nat => tail ++ [x81]
  | _ => tail ++ [x01] ++ zeros (free - 2) ++ [x80]
  end.

(** Absorb a message; [fuel] bounds the number of blocks. *)
Fixpoint absorb (fuel : nat) (st : state) (msg : bytes) : state :=
  match fuel with
  | O => st
  | S k =>
      if (List.length msg <? rate)%nat
      then absorb_block st (pad_last msg)
      else absorb k (absorb_block st (firstn rate msg)) (skipn rate msg)
  end.

Definition initial_state : state := map (fun _ => 0) positions.

Definition state_byte (st : state) (i : nat) : byte :=
  byte_of_N (N.shiftr (nth (i / 8)%nat st 0) (8 * N.of_nat (i mod 8))).

Definition keccak256 (msg : bytes) : bytes :=
  map (state_byte (absorb (S (List.length msg / rate)) initial_state msg))
      (seq 0 32).

End Keccak.

Definition keccak256 : bytes -> bytes := Keccak.keccak256.

(* ================================================================= *)
(** * JavaScript completions *)

(** [throw new Error(message)], and the errors ethers raises. *)
Inductive Exn := Error (message : string).

Inductive Completion (A : Type) : Type :=
| Return (a : A)
| Throw (e : Exn).

Arguments Return {A} a.
Arguments Throw {A} e.

(** The values a handler can place in a JSON body. *)
Inductive JsValue :=
| JsUndefined
| JsBool (b : bool)
| JsString (s : string).

(* ================================================================= *)
(** * Addresses and ABI encoding *)

(** A parsed chain address: the unsigned value of its 20 bytes. *)
Definition address := N.

(** A JavaScript value passed where an address is expected: ethers'
    [getAddress] either parses it to an address or rejects it. *)
Inductive AddressLike :=
| Addr (a : address)
| NotAddr (s : string).

Definition getAddress (v : AddressLike) : option address :=
  match v with
  | Addr a => Some a
  | NotAddr _ => None
  end.

(** [ethers.isAddress]: whether [getAddress] succeeds. *)
Definition isAddress (v : AddressLike) : bool :=
  match getAddress v with
  | Some _ => true
  | None => false
  end.

Inductive AbiValue :=
| abi_address (a : AddressLike)
| abi_uint256 (n : Z)
| abi_bytes (b : bytes).

Definition uint256_in_range (n : Z) : bool :=
  ((0 <=? n) && (n <? 2 ^ 256))%Z.

(** One 32-byte word. *)
Definition word (n : N) : bytes := be_bytes 32 n.

(** Zero padding on the right up to the next multiple of 32 bytes. *)
Definition pad_right32 (b : bytes) : bytes :=
  b ++ zeros ((32 - List.length b mod 32) mod 32).

(** A dynamic [bytes] value in the tail: its length, then its padded
    content. *)
Definition encode_bytes (b : bytes) : bytes :=
  word (N.of_nat (List.length b)) ++ pad_right32 b.

(** The tuple coder of [AbiCoder.encode]: static values are written in the
    head, a dynamic value leaves in the head its offset from the start of the
    encoding and is written in the tail.  [None] when a coder rejects its
    value (not an address, integer out of range). *)
Fixpoint pack (headSize : nat) (values : list AbiValue) (head tail : bytes)
  : option bytes :=
  match values with
  | [] => Some (head ++ tail)
  | abi_address a :: rest =>
      match getAddress a with
      | Some x => pack headSize rest (head ++ word x) tail
      | None => None
      end
  | abi_uint256 n :: rest =>
      if uint256_in_range n
      then pack headSize rest (head ++ word (Z.to_N n)) tail
      else None
  | abi_bytes b :: rest =>
      pack headSize rest
           (head ++ word (N.of_nat (headSize + List.length tail)))
           (tail ++ encode_bytes b)
  end.

(** [ethers.AbiCoder.defaultAbiCoder().encode(types, values)]. *)
Definition AbiCoder_encode (values : list AbiValue) : option bytes :=
  pack (32 * List.length values) values [] [].

(** [ethers.solidityPacked(types, values)]: the values back to back, an
    address on 20 bytes, a uint256 on 32, bytes as they are. *)
Fixpoint solidityPacked (values : list AbiValue) : option bytes :=
  match values with
  | [] => Some []
  | v :: rest =>
      match solidityPacked rest with
      | None => None
      | Some tl =>
          match v with
          | abi_address a =>
              match getAddress a with
              | Some x => Some (be_bytes 20 x ++ tl)
              | None => None
              end
          | abi_uint256 n =>
              if uint256_in_range n
              then Some (be_bytes 32 (Z.to_N n) ++ tl)
              else None
          | abi_bytes b => Some (b ++ tl)
          end
      end
  end.

(** [ethers.solidityPackedKeccak256(types, values)]. *)
Definition solidityPackedKeccak256 (values : list AbiValue) : option bytes :=
  match solidityPacked values with
  | Some packed => Some (keccak256 packed)
  | None => None
  end.

(** Decimal rendering of a length, [String(message.length)]. *)
Definition decimal (n : nat) : string :=
  DecimalString.NilEmpty.string_of_uint (Nat.to_uint n).

(** [ethers.MessagePrefix], "\x19Ethereum Signed Message:\n". *)
Definition MessagePrefix : bytes :=
  [x19] ++ toUtf8Bytes "Ethereum Signed Message:" ++ [x0a].

(** [ethers.hashMessage(message)] on a byte message (EIP-191 personal
    message): the hash of prefix, decimal length and message. *)
Definition hashMessage (message : bytes) : bytes :=
  keccak256 (MessagePrefix ++ toUtf8Bytes (decimal (List.length message))
                           ++ message).

(* ================================================================= *)
(** * Signing *)

(** The scalar held by an [ethers.Wallet]; [process.env.ADMIN_PRIVATE_KEY]
    read as that number. *)
Definition PrivateKey := N.

(** The order of the secp256k1 group. *)
Definition secp256k1_order : N :=
  0xFFFFFFFFFFFFFFFFFFFFFFFFFFFFFFFEBAAEDCE6AF48A03BBFD25E8CD0364141%N.

(** The keys [new ethers.Wallet(key)] accepts: the scalars from 1 to the
    group order minus 1.  On any other key the constructor throws.  The
    operations below are modelled for accepted keys: that failure of the
    constructor is not part of them, and a property that depends on it
    states the acceptance of the configured key as a hypothesis. *)
Definition valid_private_key (key : PrivateKey) : bool :=
  ((0 <? key) && (key <? secp256k1_order))%N.

(** An [ethers.Signature]: the components r, s and v. *)
Record Signature := {
  r : N;
  s : N;
  v : N
}.

(** [Signature.from({r, s, v}).serialized]: r and s on 32 bytes each, then
    the byte of v (27 or 28 for the signatures [signingKey.sign] returns). *)
Definition serialized (sig : Signature) : bytes :=
  be_bytes 32 (r sig) ++ be_bytes 32 (s sig) ++ be_bytes 1 (v sig).

(** secp256k1 signing as ethers exposes it: [signingKey.sign(digest)] and the
    address of a wallet. *)
Class Ecdsa := {
  sign : PrivateKey -> bytes -> Signature;
  computeAddress : PrivateKey -> address
}.

(** [wallet.signMessage(message)]: the serialized signature of the EIP-191
    hash of the message. *)
Definition signMessage `{Ecdsa} (key : PrivateKey) (message : bytes) : bytes :=
  serialized (sign key (hashMessage message)).

(* ================================================================= *)
(** * The chain gateway *)

(** [process.env]: a variable that is unset or empty is [None]. *)
Record Env := {
  ADMIN_PRIVATE_KEY : option PrivateKey;
  RPC_URL : option string
}.

(** [provider.getFeeData()]: each fee is a BigInt or null. *)
Record FeeData := {
  feeData_maxFeePerGas : option Z;
  feeData_maxPriorityFeePerGas : option Z
}.

(** The overrides object handed to a contract call. *)
Record GasOverrides := {
  maxFeePerGas : Z;
  maxPriorityFeePerGas : Z;
  gasLimit : option Z
}.

(** The state-changing contract calls the server submits. *)
Inductive Call :=
| createIdentityWithManagementKeys
    (target : address) (wallet : address) (salt : string)
    (managementKeys : list bytes) (overrides : GasOverrides)
| addKey
    (target : address) (key : bytes) (purpose keyType : Z)
    (overrides : GasOverrides)
| addClaim
    (target : address) (topic scheme : Z) (issuer : address)
    (signature data : bytes) (uri : string) (overrides : GasOverrides)
| registerIdentity
    (target : address) (user identity : address) (country : Z)
    (overrides : GasOverrides)
| mint (target : address) (to : address) (amount : Z).

Record Log := {
  log_address : address;
  log_topics : list bytes;
  log_data : bytes
}.

Record TransactionResponse := {
  tx_hash : string
}.

Record TransactionReceipt := {
  receipt_hash : string;
  receipt_status : Z;
  receipt_logs : list Log
}.

(** The result of [interface.parseLog(log)] that the server looks at: the
    event name and the [identity] argument (undefined when the event has no
    argument of that name). *)
Record LogDescription := {
  name : string;
  args_identity : option address
}.

(** [interface.parseLog(log)] either throws, returns null (no event of the
    interface matches the log) or returns the description.  ethers defers
    the errors of argument decoding: a description can be returned whose
    [identity] argument holds such an error, and reading [args.identity]
    then throws ([parsed_unreadable], with the name of the event). *)
Inductive ParsedLog :=
| parse_throws
| parse_null
| parsed (d : LogDescription)
| parsed_unreadable (event : string).

(** An [ethers.Interface] built from a contract ABI, as far as log parsing
    goes.  The ABI files are not part of the sources: the interfaces are
    parameters. *)
Definition Interface := Log -> ParsedLog.

(** What the RPC endpoint and the contracts answer.  The [n]-th fee query and
    the [n]-th submission may be answered differently.  [wait] is the whole
    of [tx.wait()]: the receipt it resolves with, or the error it throws
    (ethers v6 throws for a transaction that was mined with status 0, so
    that the receipts it resolves with have status 1). *)
Record Chain := {
  getFeeData : nat -> Completion FeeData;
  getGasPrice : nat -> Completion Z;
  sendTransaction : nat -> Call -> Completion TransactionResponse;
  wait : TransactionResponse -> Completion TransactionReceipt;
  getRecoveredAddress : address -> bytes -> bytes -> Completion address;
  isClaimValid : address -> address -> Z -> bytes -> bytes -> Completion bool
}.

(** What a run has done so far: the contract calls it has submitted, oldest
    first, and the number of fee queries it has made. *)
Record World := {
  submitted : list Call;
  feeQueries : nat
}.

Definition initial_world : World := {| submitted := []; feeQueries := 0 |}.

(** An asynchronous computation: it runs in a world, and either returns or
    throws (a rejected promise). *)
Definition M (A : Type) : Type := World -> Completion A * World.

Definition ret {A} (a : A) : M A := fun w => (Return a, w).

Definition throw {A} (e : Exn) : M A := fun w => (Throw e, w).

Definition bind {A B} (m : M A) (k : A -> M B) : M B :=
  fun w =>
    match m w with
    | (Return a, w') => k a w'
    | (Throw e, w') => (Throw e, w')
    end.

(** [try { body } catch (e) { handler(e) }]. *)
Definition try_catch {A} (body : M A) (handler : Exn -> M A) : M A :=
  fun w =>
    match body w with
    | (Return a, w') => (Return a, w')
    | (Throw e, w') => handler e w'
    end.

Definition lift {A} (c : Completion A) : M A := fun w => (c, w).

Declare Scope async_scope.
Delimit Scope async_scope with async.
Notation "x <- m ;; k" := (bind m (fun x => k))
  (at level 61, m at next level, right associativity) : async_scope.
Notation "m ;;; k" := (bind m (fun _ => k))
  (at level 61, right associativity) : async_scope.
Open Scope async_scope.

Definition provider_getFeeData (chain : Chain) : M FeeData :=
  fun w =>
    (getFeeData chain (feeQueries w),
     {| submitted := submitted w; feeQueries := S (feeQueries w) |}).

Definition provider_getGasPrice (chain : Chain) : M Z :=
  fun w =>
    (getGasPrice chain (feeQueries w),
     {| submitted := submitted w; feeQueries := S (feeQueries w) |}).

(** Submitting a contract call: the attempt is recorded whether or not the
    node accepts it. *)
Definition send (chain : Chain) (c : Call) : M TransactionResponse :=
  fun w =>
    (sendTransaction chain (List.length (submitted w)) c,
     {| submitted := submitted w ++ [c]; feeQueries := feeQueries w |}).

(** [tx.wait()]. *)
Definition tx_wait (chain : Chain) (tx : TransactionResponse)
  : M TransactionReceipt :=
  lift (wait chain tx).

(** [!x] on a value that is a BigInt or null: true on null and on [0n]. *)
Definition js_not (x : option Z) : bool :=
  match x with
  | None => true
  | Some n => (n =? 0)%Z
  end.

(** The BigInt held by a fee field once it is known not to be null. *)
Definition bigint (x : option Z) : Z :=
  match x with
  | Some n => n
  | None => 0%Z
  end.

(** [checkEnvVariables()]. *)
Definition checkEnvVariables (env : Env) : M unit :=
  match ADMIN_PRIVATE_KEY env, RPC_URL env with
  | Some _, Some _ => ret tt
  | _, _ =>
      throw (Error "Missing required environment variables (ADMIN_PRIVATE_KEY or RPC_URL).")
  end.

(** [ethers.parseUnits("32", "gwei")]. *)
Definition gwei : Z := 1000000000.

(** A coder that rejects its value throws. *)
Definition encoded_or_throw (e : option bytes) : Completion bytes :=
  match e with
  | Some b => Return b
  | None => Throw (Error "invalid argument")
  end.

(** [new ethers.Wallet(process.env.ADMIN_PRIVATE_KEY, provider)]. *)
Definition new_Wallet (env : Env) : M PrivateKey :=
  match ADMIN_PRIVATE_KEY env with
  | Some key => ret key
  | None => throw (Error "invalid private key")
  end.

(** The claim object exchanged between issuer and submitter. *)
Record Claim := {
  claim_topic : Z;
  claim_scheme : Z;
  claim_issuer : address;
  claim_signature : bytes;
  claim_data : bytes;
  claim_uri : string
}.

(* ================================================================= *)
(** * [src/context/handleKyc.js] *)

Module HandleKyc.

Definition ID_FACTORY : address :=
  0x39992CCEAEDB0fa8f4fd3f2FBC5134707635B371%N.
Definition IDENTITY_REGISTRY : address :=
  0xAa7bdF67038D0c8a8F14418eeDBFb965213732Da%N.
Definition CLAIM_ISSUER_ADDRESS : address :=
  0xd75849340fa68E19610791c398880D8a4a089096%N.

Definition amoyMinPriorityFee : Z := 32 * gwei.

(** The body of [getGasOverrides] once the fee data has arrived. *)
Definition computeGasOverrides (feeData : FeeData) : Completion GasOverrides :=
  if js_not (feeData_maxFeePerGas feeData)
     || js_not (feeData_maxPriorityFeePerGas feeData)
  then Throw (Error "Failed to fetch complete fee data from the provider.")
  else
    let priorityFee := bigint (feeData_maxPriorityFeePerGas feeData) in
    let priorityFee :=
      if (priorityFee <? amoyMinPriorityFee)%Z
      then amoyMinPriorityFee
      else priorityFee in
    let bufferedPriorityFee := Z.quot (priorityFee * 110) 100 in
    let estimatedBaseFee :=
      (bigint (feeData_maxFeePerGas feeData)
       - bigint (feeData_maxPriorityFeePerGas feeData))%Z in
    let newMaxFeePerGas := (estimatedBaseFee + bufferedPriorityFee)%Z in
    Return {| maxFeePerGas := newMaxFeePerGas;
              maxPriorityFeePerGas := bufferedPriorityFee;
              gasLimit := None |}.

(** The [for] loop of [createIdentity] over [receipt.logs]: the value left in
    [identityAddress]. *)
Fixpoint scanWalletLinked (factoryInterface : Interface) (logs : list Log)
  : option address :=
  match logs with
  | [] => None
  | log :: rest =>
      match factoryInterface log with
      | parsed parsedLog =>
          if String.eqb (name parsedLog) "WalletLinked"
          then args_identity parsedLog
          else scanWalletLinked factoryInterface rest
      | parse_null => scanWalletLinked factoryInterface rest
      | parse_throws => scanWalletLinked factoryInterface rest
      | parsed_unreadable _ =>
          (* on a WalletLinked event the read of [args.identity] throws
             inside the [try]: nothing is assigned and the loop goes on *)
          scanWalletLinked factoryInterface rest
      end
  end.

Section Operations.

Context {E : Ecdsa}.
Variable chain : Chain.
Variable env : Env.
Variable ID_FACTORY_ABI : Interface.

Definition getGasOverrides : M GasOverrides :=
  feeData <- provider_getFeeData chain ;;
  lift (computeGasOverrides feeData).

Definition KEY_PURPOSE_MANAGEMENT : Z := 1.
Definition KEY_PURPOSE_CLAIM : Z := 3.
Definition KEY_TYPE_ECDSA : Z := 1.

Definition configureAndTransferIdentity (identityAddress userAddress : address)
  : M unit :=
  try_catch
    (_ <- new_Wallet env ;;
     encoded <- lift (encoded_or_throw
                        (AbiCoder_encode [abi_address (Addr userAddress)])) ;;
     let userKey := keccak256 encoded in
     gasOverrides <- getGasOverrides ;;
     tx1 <- send chain (addKey identityAddress userKey KEY_PURPOSE_MANAGEMENT
                               KEY_TYPE_ECDSA gasOverrides) ;;
     _ <- tx_wait chain tx1 ;;
     gasOverrides <- getGasOverrides ;;
     tx2 <- send chain (addKey identityAddress userKey KEY_PURPOSE_CLAIM
                               KEY_TYPE_ECDSA gasOverrides) ;;
     _ <- tx_wait chain tx2 ;;
     ret tt)
    (fun error => throw error).

Definition createIdentity (userAddress : address) (salt : string) : M address :=
  try_catch
    (checkEnvVariables env ;;;
     _ <- new_Wallet env ;;
     gasOverrides <- getGasOverrides ;;
     encoded <- lift (encoded_or_throw
                        (AbiCoder_encode
                           [abi_address
                              (Addr 0x0af700A3026adFddC10f7Aa8Ba2419e8503592f7%N)])) ;;
     let managementKey := keccak256 encoded in
     tx <- send chain (createIdentityWithManagementKeys
                         ID_FACTORY userAddress salt [managementKey]
                         gasOverrides) ;;
     receipt <- tx_wait chain tx ;;
     match scanWalletLinked ID_FACTORY_ABI (receipt_logs receipt) with
     | None =>
         throw (Error "Could not find the WalletLinked event in the transaction receipt.")
     | Some identityAddress =>
         configureAndTransferIdentity identityAddress userAddress ;;;
         ret identityAddress
     end)
    (fun error => throw error).

(** The object [issueKycClaimSignature] returns. *)
Record KycClaimSignature := {
  kyc_signature : Signature;
  kyc_issuerAddress : address;
  kyc_dataHash : bytes;
  kyc_topic : Z
}.

Definition issueKycClaimSignature
    (userAddress onchainIDAddress : AddressLike) (claimData : string)
    (topic : Z) (countryCode : Z) : Completion KycClaimSignature :=
  if negb (isAddress userAddress)
  then Throw (Error "Invalid user address provided.")
  else if negb (isAddress onchainIDAddress)
  then Throw (Error "Invalid onchain ID address provided.")
  else
    match ADMIN_PRIVATE_KEY env with
    | None =>
        Throw (Error "Issuer private key (ADMIN_PRIVATE_KEY) not found in .env")
    | Some issuerPrivateKey =>
        let claimDataBytes := toUtf8Bytes claimData in
        match encoded_or_throw
                (AbiCoder_encode [abi_address onchainIDAddress;
                                  abi_uint256 topic;
                                  abi_bytes claimDataBytes]) with
        | Throw e => Throw e
        | Return encoded =>
            let dataHash := keccak256 encoded in
            let ethHash := hashMessage dataHash in
            let signature := sign issuerPrivateKey ethHash in
            Return {| kyc_signature := {| r := r signature;
                                          s := s signature;
                                          v := v signature |};
                      kyc_issuerAddress := CLAIM_ISSUER_ADDRESS;
                      kyc_dataHash := dataHash;
                      kyc_topic := topic |}
        end
    end.

Definition generateClaimSignature
    (userAddress identityAddress : AddressLike) (topic : Z)
  : Completion Claim :=
  let claimData := "KYC"%string in
  match issueKycClaimSignature userAddress identityAddress claimData topic 91 with
  | Throw e => Throw e
  | Return result =>
      let flatSignature := serialized (kyc_signature result) in
      let claimDataBytes := toUtf8Bytes claimData in
      Return {| claim_topic := kyc_topic result;
                claim_scheme := 1;
                claim_issuer := kyc_issuerAddress result;
                claim_signature := flatSignature;
                claim_data := claimDataBytes;
                claim_uri := "" |}
  end.

Definition checkIsClaimValid (identityAddress : address) (claim : Z)
    (sig dataHash : bytes) : M bool :=
  try_catch
    (lift (isClaimValid chain identityAddress identityAddress claim sig dataHash))
    (fun error => throw error).

Definition submitClaim (identityAddress : address) (userWallet : PrivateKey)
    (claimDetails : Claim) : M unit :=
  checkEnvVariables env ;;;
  _ <- checkIsClaimValid identityAddress (claim_topic claimDetails)
         (claim_signature claimDetails) (claim_data claimDetails) ;;
  try_catch
    (gasOverrides <- getGasOverrides ;;
     let gasOverrides :=
       {| maxFeePerGas := maxFeePerGas gasOverrides;
          maxPriorityFeePerGas := maxPriorityFeePerGas gasOverrides;
          gasLimit := Some 500000%Z |} in
     tx <- send chain (addClaim identityAddress
                         (claim_topic claimDetails) (claim_scheme claimDetails)
                         (claim_issuer claimDetails)
                         (claim_signature claimDetails)
                         (claim_data claimDetails) (claim_uri claimDetails)
                         gasOverrides) ;;
     receipt <- tx_wait chain tx ;;
     if (receipt_status receipt =? 1)%Z then ret tt else ret tt)
    (fun error => throw error).

Definition addToIdentityRegistry (userAddress identityAddress : address)
    (countryCode : Z) : M JsValue :=
  _ <- new_Wallet env ;;
  try_catch
    (gasOverrides <- getGasOverrides ;;
     tx <- send chain (registerIdentity IDENTITY_REGISTRY userAddress
                         identityAddress countryCode gasOverrides) ;;
     _ <- tx_wait chain tx ;;
     ret (JsBool true))
    (fun error => throw error).

End Operations.

End HandleKyc.

(* ================================================================= *)
(** * [src/context/handleKycV6.js] *)

Module HandleKycV6.

Definition ID_FACTORY : address :=
  0x39992CCEAEDB0fa8f4fd3f2FBC5134707635B371%N.
Definition IDENTITY_REGISTRY : address :=
  0x7Eb85534067f0E123c85e60aBD8AF00EF642c361%N.

Definition amoyMinPriorityFee : Z := 32 * gwei.

(** The body of [getGasOverrides] once the fee data has arrived. *)
Definition computeGasOverrides (feeData : FeeData) : Completion GasOverrides :=
  if js_not (feeData_maxFeePerGas feeData)
     || js_not (feeData_maxPriorityFeePerGas feeData)
  then Throw (Error "Failed to fetch complete fee data from the provider.")
  else
    let priorityFee := bigint (feeData_maxPriorityFeePerGas feeData) in
    let priorityFee :=
      if (priorityFee <? amoyMinPriorityFee)%Z
      then amoyMinPriorityFee
      else priorityFee in
    let bufferedPriorityFee := Z.quot (priorityFee * 110) 100 in
    let estimatedBaseFee :=
      (bigint (feeData_maxFeePerGas feeData)
       - bigint (feeData_maxPriorityFeePerGas feeData))%Z in
    let newMaxFeePerGas := (estimatedBaseFee + bufferedPriorityFee)%Z in
    Return {| maxFeePerGas := newMaxFeePerGas;
              maxPriorityFeePerGas := bufferedPriorityFee;
              gasLimit := None |}.

(** The predicate given to [receipt.logs.find]. *)
Definition isWalletLinked (idRegistryInterface : Interface) (log : Log) : bool :=
  match idRegistryInterface log with
  | parsed parsedLog => String.eqb (name parsedLog) "WalletLinked"
  | parse_null => false
  | parse_throws => false
  | parsed_unreadable event => String.eqb event "WalletLinked"
  end.

Section Operations.

Context {E : Ecdsa}.
Variable chain : Chain.
Variable env : Env.
Variable IDENTITY_REGISTRY_ABI : Interface.

Definition getGasOverrides : M GasOverrides :=
  feeData <- provider_getFeeData chain ;;
  lift (computeGasOverrides feeData).

Definition KEY_PURPOSE_MANAGEMENT : Z := 1.
Definition KEY_PURPOSE_CLAIM : Z := 3.
Definition KEY_TYPE_ECDSA : Z := 1.

(** [identityAddress] is undefined ([None]) when the parsed event has no
    [identity] argument; [new ethers.Contract(undefined, ...)] throws. *)
Definition configureAndTransferIdentity (identityAddress : option address)
    (userAddress : address) : M unit :=
  try_catch
    (_ <- new_Wallet env ;;
     match identityAddress with
     | None => throw (Error "invalid value for Contract target")
     | Some identityAddress =>
         encoded <- lift (encoded_or_throw
                            (AbiCoder_encode [abi_address (Addr userAddress)])) ;;
         let userKey := keccak256 encoded in
         gasOverrides <- getGasOverrides ;;
         tx1 <- send chain (addKey identityAddress userKey
                                   KEY_PURPOSE_MANAGEMENT KEY_TYPE_ECDSA
                                   gasOverrides) ;;
         _ <- tx_wait chain tx1 ;;
         gasOverrides2 <- getGasOverrides ;;
         tx2 <- send chain (addKey identityAddress userKey
                                   KEY_PURPOSE_CLAIM KEY_TYPE_ECDSA
                                   gasOverrides2) ;;
         _ <- tx_wait chain tx2 ;;
         ret tt
     end)
    (fun error => throw error).

Definition createIdentity (userAddress : address) (salt : string)
  : M (option address) :=
  try_catch
    (checkEnvVariables env ;;;
     _ <- new_Wallet env ;;
     gasOverrides <- getGasOverrides ;;
     encoded <- lift (encoded_or_throw
                        (AbiCoder_encode
                           [abi_address
                              (Addr 0x0af700A3026adFddC10f7Aa8Ba2419e8503592f7%N)])) ;;
     let managementKey := keccak256 encoded in
     tx <- send chain (createIdentityWithManagementKeys
                         ID_FACTORY userAddress salt [managementKey]
                         gasOverrides) ;;
     receipt <- tx_wait chain tx ;;
     match find (isWalletLinked IDENTITY_REGISTRY_ABI) (receipt_logs receipt) with
     | None =>
         throw (Error "Could not find the WalletLinked event in the transaction receipt.")
     | Some walletLinkedLog =>
         match IDENTITY_REGISTRY_ABI walletLinkedLog with
         | parsed parsedEvent =>
             let identityAddress := args_identity parsedEvent in
             configureAndTransferIdentity identityAddress userAddress ;;;
             ret identityAddress
         | parse_null => throw (Error "Cannot read properties of null")
         | parse_throws => throw (Error "invalid argument")
         | parsed_unreadable _ =>
             throw (Error "deferred error during ABI decoding triggered accessing property identity")
         end
     end)
    (fun error => throw error).

Definition generateClaimSignature (identityAddress : AddressLike) (topic : Z)
    (claimDataString : string) : Completion Claim :=
  match ADMIN_PRIVATE_KEY env with
  | None => Throw (Error "invalid private key")
  | Some issuerWallet =>
      let claimDataBytes := toUtf8Bytes claimDataString in
      match encoded_or_throw
              (AbiCoder_encode [abi_address identityAddress;
                                abi_uint256 topic;
                                abi_bytes claimDataBytes]) with
      | Throw error => Throw error
      | Return encoded =>
          let dataHash := keccak256 encoded in
          let signature := signMessage issuerWallet dataHash in
          Return {| claim_topic := topic;
                    claim_scheme := 1;
                    claim_issuer := computeAddress issuerWallet;
                    claim_signature := signature;
                    claim_data := claimDataBytes;
                    claim_uri := "" |}
      end
  end.

(** The hash [submitClaim] recomputes before asking the contract to recover
    the signer. *)
Definition submitClaim_dataHash (identityAddress : address)
    (claimDetails : Claim) : option bytes :=
  solidityPackedKeccak256 [abi_address (Addr identityAddress);
                           abi_uint256 (claim_topic claimDetails);
                           abi_bytes (claim_data claimDetails)].

(** The pre-flight [try] block of [submitClaim].  It returns [true] when the
    block completes; its [catch] logs the error and makes [submitClaim]
    return, which is the result [false]. *)
Definition preflightVerification (identityAddress : address)
    (claimDetails : Claim) : M bool :=
  try_catch
    (dataHash <- lift (encoded_or_throw
                         (submitClaim_dataHash identityAddress claimDetails)) ;;
     recoveredAddress <- lift (getRecoveredAddress chain identityAddress
                                 (claim_signature claimDetails) dataHash) ;;
     if negb (recoveredAddress =? claim_issuer claimDetails)%N
     then throw (Error "Signature verification failed! Recovered address does not match issuer.")
     else ret true)
    (fun e => ret false).

Definition submitClaim (identityAddress : address) (userWallet : PrivateKey)
    (claimDetails : Claim) : M unit :=
  checkEnvVariables env ;;;
  verified <- preflightVerification identityAddress claimDetails ;;
  if negb verified
  then ret tt
  else
    try_catch
      (gasOverrides <- getGasOverrides ;;
       tx <- send chain (addClaim identityAddress
                           (claim_topic claimDetails)
                           (claim_scheme claimDetails)
                           (claim_issuer claimDetails)
                           (claim_signature claimDetails)
                           (claim_data claimDetails) (claim_uri claimDetails)
                           gasOverrides) ;;
       _ <- tx_wait chain tx ;;
       ret tt)
      (fun error => throw error).

Definition whitelistAddress (user identityAddress : address) (country : Z)
  : M bool :=
  _ <- new_Wallet env ;;
  gasOverrides <- getGasOverrides ;;
  try_catch
    (tx <- send chain (registerIdentity IDENTITY_REGISTRY user identityAddress
                         country gasOverrides) ;;
     _ <- tx_wait chain tx ;;
     ret tt)
    (fun error => throw error) ;;;
  ret true.

End Operations.

End HandleKycV6.

(* ================================================================= *)
(** * [src/context/invest.js] *)

Module Invest.

Section Operations.

Variable chain : Chain.
Variable env : Env.

Definition mintTokens (to : address) (amount : Z) (tokenAddress : address)
  : M JsValue :=
  try_catch
    (checkEnvVariables env ;;;
     let tokenAddress := 0x3eaC25f463ed170fC79EfD629A0BD93f9336A016%N in
     _ <- new_Wallet env ;;
     tx <- send chain (mint tokenAddress to amount) ;;
     _ <- tx_wait chain tx ;;
     ret (JsString (tx_hash tx)))
    (fun error => throw error).

End Operations.

End Invest.

(* ================================================================= *)
(** * The legacy deployment module ([./context/deployIdentity] of
      [src/server.js]) *)

Module DeployIdentity.

Definition IDENTITY_REGISTRY : address :=
  0x7Eb85534067f0E123c85e60aBD8AF00EF642c361%N.

Section Operations.

Variable chain : Chain.
Variable env : Env.

Definition registerIdentity (identityAddress userAddress : address)
    (countryCode : Z) : M JsValue :=
  checkEnvVariables env ;;;
  try_catch
    (_ <- new_Wallet env ;;
     gasPrice <- provider_getGasPrice chain ;;
     let bufferedGasPrice := Z.quot (gasPrice * 150) 100 in
     let overrides := {| maxFeePerGas := bufferedGasPrice;
                         maxPriorityFeePerGas := bufferedGasPrice;
                         gasLimit := None |} in
     txResponse <- send chain (registerIdentity IDENTITY_REGISTRY userAddress
                                 identityAddress countryCode overrides) ;;
     txReceipt <- tx_wait chain txResponse ;;
     ret (JsString (receipt_hash txReceipt)))
    (fun error => throw error).

End Operations.

End DeployIdentity.

(* ================================================================= *)
(** * The Express handlers that call [handleKyc.js] and [invest.js] *)

Module Server.

(** [res.status(code).json(body)]. *)
Record Response := {
  status : nat;
  body : list (string * JsValue)
}.

Definition message (e : Exn) : string :=
  match e with Error m => m end.

Section Handlers.

Context {E : Ecdsa}.
Variable chain : Chain.
Variable env : Env.

(** [app.post('/register', ...)]; a field absent from the request body is
    [None], and [!countryCode] also holds for the number 0. *)
Definition post_register (userAddress identityAddress : option address)
    (countryCode : option Z) : M Response :=
  match userAddress, identityAddress with
  | Some userAddress, Some identityAddress =>
      if js_not countryCode
      then ret {| status := 400;
                  body := [("error"%string,
                            JsString "userAddress, identityAddress, and countryCode are required.")] |}
      else
        try_catch
          (txHash <- HandleKyc.addToIdentityRegistry chain env userAddress
                       identityAddress (bigint countryCode) ;;
           ret {| status := 200;
                  body := [("transactionHash"%string, txHash)] |})
          (fun error =>
             ret {| status := 500;
                    body := [("error"%string,
                              JsString "Failed to register identity.");
                             ("details"%string, JsString (message error))] |})
  | _, _ =>
      ret {| status := 400;
             body := [("error"%string,
                       JsString "userAddress, identityAddress, and countryCode are required.")] |}
  end.

(** [app.post('/invest', ...)]. *)
Definition post_invest (to : option address) (amount : option Z)
    (tokenAddress : option address) : M Response :=
  match to, tokenAddress with
  | Some to, Some tokenAddress =>
      if js_not amount
      then ret {| status := 400;
                  body := [("error"%string,
                            JsString "to, amount, and tokenAddress are required.")] |}
      else
        try_catch
          (txHash <- Invest.mintTokens chain env to (bigint amount)
                       tokenAddress ;;
           ret {| status := 200;
                  body := [("transactionHash"%string, txHash)] |})
          (fun error =>
             ret {| status := 500;
                    body := [("error"%string,
                              JsString "Failed to mint tokens.");
                             ("details"%string, JsString (message error))] |})
  | _, _ =>
      ret {| status := 400;
             body := [("error"%string,
                       JsString "to, amount, and tokenAddress are required.")] |}
  end.

End Handlers.

End Server.

(* ================================================================= *)
(** * The specification's reading of issuance *)

Module Spec.

(** The standard ABI encoding of the tuple (address, uint256, bytes), written
    out: the address and the integer each on one 32-byte word, the offset of
    the dynamic part (three words, 0x60), then the length of the payload and
    the payload padded with zeros to a whole number of words. *)
Definition abi_encoding (subjectIdentityAddress : address) (topic : Z)
    (payload : bytes) : bytes :=
  let len := List.length payload in
  be_bytes 32 subjectIdentityAddress
    ++ be_bytes 32 (Z.to_N topic)
    ++ be_bytes 32 0x60
    ++ be_bytes 32 (N.of_nat len)
    ++ payload
    ++ zeros (32 * ((len + 31) / 32) - len).

Definition dataHash (subjectIdentityAddress : address) (topic : Z)
    (payload : bytes) : bytes :=
  keccak256 (abi_encoding subjectIdentityAddress topic payload).

(** The EIP-191 personal-message transform of a 32-byte hash: the hash of
    "\x19Ethereum Signed Message:\n32" followed by the hash. *)
Definition personal_digest (hash : bytes) : bytes :=
  keccak256 ([x19] ++ toUtf8Bytes "Ethereum Signed Message:"
                   ++ [x0a; x33; x32] ++ hash).

(** What the issuer signs. *)
Definition signed_digest (subjectIdentityAddress : address) (topic : Z)
    (payload : bytes) : bytes :=
  personal_digest (dataHash subjectIdentityAddress topic payload).

(** A log entry decodes to a "wallet linked" event of an interface: the
    interface returns a description of that name for it, whether or not the
    [identity] argument of the description can be read. *)
Definition decodes_WalletLinked (iface : Interface) (log : Log) : Prop :=
  (exists d : LogDescription,
      iface log = parsed d /\ name d = "WalletLinked"%string)
  \/ iface log = parsed_unreadable "WalletLinked".

End Spec.

(* ================================================================= *)
(** * Worked inputs *)

Module Examples.

Definition hex_digit (c : ascii) : N :=
  let n := N_of_ascii c in
  if (48 <=? n)%N && (n <=? 57)%N then n - 48
  else if (97 <=? n)%N && (n <=? 102)%N then n - 87
  else if (65 <=? n)%N && (n <=? 70)%N then n - 55
  else 0.

(** [ethers.getBytes] of a hex string without its "0x". *)
Fixpoint hex_bytes (h : string) : bytes :=
  match h with
  | String hi (String lo rest) =>
      byte_of_N (16 * hex_digit hi + hex_digit lo) :: hex_bytes rest
  | _ => []
  end.

(** The unsigned integer a byte string spells, most significant byte first. *)
Definition be_to_N (bs : bytes) : N :=
  fold_left (fun acc b => (256 * acc + Byte.to_N b)%N) bs 0%N.

Fixpoint bytes_eqb (a b : bytes) : bool :=
  match a, b with
  | [], [] => true
  | x :: a', y :: b' => Byte.eqb x y && bytes_eqb a' b'
  | _, _ => false
  end.

(** A signature scheme for worked runs: the signature carries the key and
    the digest in the clear. *)
Definition toy_ecdsa : Ecdsa :=
  {| sign := fun key digest => {| r := key; s := be_to_N digest; v := 27 |};
     computeAddress := fun key => (key + 1)%N |}.

(** The recovery view that goes with [toy_ecdsa]: it gives the signer's
    address back when asked about the digest that was signed, and the zero
    address otherwise. *)
Definition toy_getRecoveredAddress (target : address) (sig dataHash : bytes)
  : Completion address :=
  if bytes_eqb (firstn 32 (skipn 32 sig)) dataHash
  then Return (be_to_N (firstn 32 sig) + 1)%N
  else Return 0%N.

(** An interface for worked runs.  It reads the first byte of the log data:
    1 is a WalletLinked event whose identity is the emitter of the log, 2 is
    another event of the interface, 3 is a log of no event of the interface,
    and anything else makes [parseLog] throw. *)
Definition toy_interface : Interface :=
  fun log =>
    match log_data log with
    | x01 :: _ =>
        parsed {| name := "WalletLinked";
                  args_identity := Some (log_address log) |}
    | x02 :: _ =>
        parsed {| name := "Deployed"; args_identity := None |}
    | x03 :: _ => parse_null
    | _ => parse_throws
    end.

Definition toy_log (emitter : address) (tag : byte) : Log :=
  {| log_address := emitter; log_topics := []; log_data := [tag] |}.


(** Logs in which two entries decode to WalletLinked, after two that do not. *)
Definition logs_with_event : list Log :=
  [toy_log 5%N x04; toy_log 5%N x02; toy_log 0x1234%N x01;
   toy_log 0x9999%N x01].

(** A node that accepts everything: the same fee data on every query, every
    submission answered with the hash "0xabc", every receipt successful and
    carrying the given logs. *)
Definition toy_chain (feeData : FeeData) (logs : list Log) (valid : bool)
  : Chain :=
  {| getFeeData := fun _ => Return feeData;
     getGasPrice := fun _ => Return (30 * gwei)%Z;
     sendTransaction := fun _ _ => Return {| tx_hash := "0xabc" |};
     wait := fun tx => Return {| receipt_hash := tx_hash tx;
                                 receipt_status := 1;
                                 receipt_logs := logs |};
     getRecoveredAddress := toy_getRecoveredAddress;
     isClaimValid := fun _ _ _ _ _ => Return valid |}.

Definition toy_env : Env :=
  {| ADMIN_PRIVATE_KEY := Some 7%N;
     RPC_URL := Some "https://rpc-amoy.polygon.technology"%string |}.

Definition toy_feeData : FeeData :=
  {| feeData_maxFeePerGas := Some (60 * gwei)%Z;
     feeData_maxPriorityFeePerGas := Some (30 * gwei)%Z |}.

(** The identity contract and the user of the sources' own test calls. *)
Definition identity_contract : address :=
  0xDe9Fda56D152aBe11Aa64aeb5eAbC1eA8049A2eb%N.
Definition user_address : address :=
  0x85EBD6dC97d56F62e371382b38EAe91f3bb4ecb2%N.

(** A claim whose signature was made over another payload than the one it
    carries. *)
Definition tampered_claim : Claim :=
  {| claim_topic := 42;
     claim_scheme := 1;
     claim_issuer := 8%N;
     claim_signature :=
       serialized (@sign toy_ecdsa 7%N (hex_bytes "00"));
     claim_data := toUtf8Bytes "KYC";
     claim_uri := "" |}.

End Examples.

(* ================================================================= *)
(** * The other Express handlers of the current server *)

Module ServerRoutes.

(** The JSON bodies of [/signature] and [/deploy]. *)
Inductive Body :=
| ClaimBody (claim : Claim)
| AddressBody (deployed : address)
| ErrorBody (error : string) (details : option string).

Record Response := {
  status : nat;
  body : Body
}.

(** [!value] on a request field that holds a string: true when the field is
    absent and on the empty string. *)
Definition js_not_string (value : option AddressLike) : bool :=
  match value with
  | None => true
  | Some (NotAddr EmptyString) => true
  | Some _ => false
  end.

(** The string a present field holds. *)
Definition field (value : option AddressLike) : AddressLike :=
  match value with
  | Some v => v
  | None => NotAddr ""
  end.

Section Handlers.

Context {E : Ecdsa}.
Variable chain : Chain.
Variable env : Env.
Variable ID_FACTORY_ABI : Interface.

(** [app.post('/signature', ...)]: [generateClaimSignature] is called with
    its default topic, 42. *)
Definition post_signature (userAddress identityAddress : option AddressLike)
  : Response :=
  if js_not_string userAddress || js_not_string identityAddress
  then {| status := 400;
          body := ErrorBody
                    "userAddress, identityAddress, and countryCode are required."
                    None |}
  else
    match HandleKyc.generateClaimSignature env (field userAddress)
            (field identityAddress) 42 with
    | Return signature => {| status := 200; body := ClaimBody signature |}
    | Throw error =>
        {| status := 500;
           body := ErrorBody "Failed to register identity."
                     (Some (Server.message error)) |}
    end.

(** [app.post('/deploy', ...)].  The salt is the first three characters of
    the address text followed by four random bytes; it is a parameter here,
    as is the address already parsed ([None] when the field is absent). *)
Definition post_deploy (userAddress : option address) (salt : string)
  : M Response :=
  match userAddress with
  | None =>
      ret {| status := 400;
             body := ErrorBody "userAddress is required in the request body."
                       None |}
  | Some userAddress =>
      try_catch
        (deployedAddress <- HandleKyc.createIdentity chain env ID_FACTORY_ABI
                              userAddress salt ;;
         ret {| status := 201; body := AddressBody deployedAddress |})
        (fun error =>
           ret {| status := 500;
                  body := ErrorBody "Failed to deploy identity proxy."
                            (Some (Server.message error)) |})
  end.

End Handlers.

End ServerRoutes.

(* ================================================================= *)
(** * The [/register] handler of [src/server.js] *)

Module LegacyServer.

Section Handlers.

Variable chain : Chain.
Variable env : Env.

(** [app.post('/register', ...)] of the legacy entry point, on
    [registerIdentity] of the deployment module. *)
Definition post_register (userAddress identityAddress : option address)
    (countryCode : option Z) : M Server.Response :=
  match userAddress, identityAddress with
  | Some userAddress, Some identityAddress =>
      if js_not countryCode
      then ret {| Server.status := 400;
                  Server.body :=
                    [("error"%string,
                      JsString "userAddress, identityAddress, and countryCode are required.")] |}
      else
        try_catch
          (txHash <- DeployIdentity.registerIdentity chain env identityAddress
                       userAddress (bigint countryCode) ;;
           ret {| Server.status := 200;
                  Server.body := [("transactionHash"%string, txHash)] |})
          (fun error =>
             ret {| Server.status := 500;
                    Server.body :=
                      [("error"%string,
                        JsString "Failed to register identity.");
                       ("details"%string,
                        JsString (Server.message error))] |})
  | _, _ =>
      ret {| Server.status := 400;
             Server.body :=
               [("error"%string,
                 JsString "userAddress, identityAddress, and countryCode are required.")] |}
  end.

End Handlers.

End LegacyServer.

(* ================================================================= *)
(** * [src/context/sigVerify.js] *)

Module SigVerify.

Definition IDENTITY_CONTRACT_ADDRESS : address :=
  0xDe9Fda56D152aBe11Aa64aeb5eAbC1eA8049A2eb%N.

(** What [main] prints last. *)
Inductive Verdict :=
| MissingConfiguration
| Success
| Failure
| ValidationError (message : string)
| UnexpectedError.

Section Script.

Context {E : Ecdsa}.
Variable chain : Chain.
Variable env : Env.

(** The hash the script signs: the packed encoding of the contract address,
    the topic 42 and the empty data "0x". *)
Definition rawDataHash : option bytes :=
  solidityPackedKeccak256 [abi_address (Addr IDENTITY_CONTRACT_ADDRESS);
                           abi_uint256 42;
                           abi_bytes []].

(** [main()]: the digest is signed as it is ([signDigest], no message
    prefix) and the contract is asked to recover the signer from it. *)
Definition main : Verdict :=
  match RPC_URL env, ADMIN_PRIVATE_KEY env with
  | Some _, Some issuerWallet =>
      match rawDataHash with
      | None => UnexpectedError
      | Some rawDataHash =>
          let signature := serialized (sign issuerWallet rawDataHash) in
          match getRecoveredAddress chain IDENTITY_CONTRACT_ADDRESS signature
                  rawDataHash with
          | Return recoveredAddress =>
              if (recoveredAddress =? computeAddress issuerWallet)%N
              then Success
              else Failure
          | Throw error => ValidationError (Server.message error)
          end
      end
  | _, _ => MissingConfiguration
  end.

End Script.

End SigVerify.

(* ================================================================= *)
(** * [addComplianceAgent] of [src/context/handleKyc.js] *)

Module Compliance.

(** [haystack.includes(needle)]. *)
Fixpoint includes (needle haystack : string) : bool :=
  String.prefix needle haystack
  || match haystack with
     | EmptyString => false
     | String _ rest => includes needle rest
     end.

(** The call on the compliance contract. *)
Inductive ComplianceCall :=
| addAgent (target agent : address) (overrides : GasOverrides).

(** The node, with its answer to a submitted addAgent call. *)
Record Gateway := {
  node : Chain;
  sendAgent : ComplianceCall -> Completion TransactionResponse
}.

(** The default arguments of [addComplianceAgent]. *)
Definition default_complianceAddress : address :=
  0x711ad193a98f0cef86da4ad5312092772f39a869%N.
Definition default_agentAddress : address :=
  0x0af700A3026adFddC10f7Aa8Ba2419e8503592f7%N.

(** The [try] block: the completion, the world (fee queries) and the
    addAgent calls attempted. *)
Definition grantAgentRole (gateway : Gateway) (env : Env)
    (complianceAddress agentAddress : address) (w : World)
  : Completion bool * World * list ComplianceCall :=
  match new_Wallet env w with
  | (Throw e, w1) => (Throw e, w1, [])
  | (Return _, w1) =>
      match HandleKyc.getGasOverrides (node gateway) w1 with
      | (Throw e, w2) => (Throw e, w2, [])
      | (Return gasOverrides, w2) =>
          let call := addAgent complianceAddress agentAddress gasOverrides in
          match sendAgent gateway call with
          | Throw e => (Throw e, w2, [call])
          | Return tx =>
              match wait (node gateway) tx with
              | Throw e => (Throw e, w2, [call])
              | Return _ => (Return true, w2, [call])
              end
          end
      end
  end.

Definition addComplianceAgent (gateway : Gateway) (env : Env)
    (complianceAddress agentAddress : address) (w : World)
  : Completion bool * World * list ComplianceCall :=
  match grantAgentRole gateway env complianceAddress agentAddress w with
  | (Return granted, w', calls) => (Return granted, w', calls)
  | (Throw error, w', calls) =>
      if includes "is already an agent" (Server.message error)
      then (Return true, w', calls)
      else (Throw error, w', calls)
  end.

End Compliance.

(** The identity argument of the entry [receipt.logs.find] selects. *)
Definition identity_of_found (iface : Interface) (found : option Log)
  : option address :=
  match found with
  | Some log =>
      match iface log with
      | parsed d => args_identity d
      | _ => None
      end
  | None => None
  end.


(* ================================================================= *)
(** * Further worked runs *)

Module Scenarios.

(** A node like [Examples.toy_chain] that rejects every addKey
    transaction. *)
Definition chain_rejecting_addKey (logs : list Log) : Chain :=
  {| getFeeData := fun _ => Return Examples.toy_feeData;
     getGasPrice := fun _ => Return (30 * gwei)%Z;
     sendTransaction :=
       fun _ call =>
         match call with
         | addKey _ _ _ _ _ => Throw (Error "insufficient funds")
         | _ => Return {| tx_hash := "0xabc" |}
         end;
     wait := fun tx => Return {| receipt_hash := tx_hash tx;
                                 receipt_status := 1;
                                 receipt_logs := logs |};
     getRecoveredAddress := Examples.toy_getRecoveredAddress;
     isClaimValid := fun _ _ _ _ _ => Return true |}.

(** A node whose contract calls all fail: the validity check reverts. *)
Definition chain_reverting_views : Chain :=
  {| getFeeData := fun _ => Return Examples.toy_feeData;
     getGasPrice := fun _ => Return (30 * gwei)%Z;
     sendTransaction := fun _ _ => Return {| tx_hash := "0xabc" |};
     wait := fun tx => Return {| receipt_hash := tx_hash tx;
                                 receipt_status := 1;
                                 receipt_logs := [] |};
     getRecoveredAddress := fun _ _ _ => Throw (Error "call revert exception");
     isClaimValid := fun _ _ _ _ _ => Throw (Error "call revert exception") |}.

(** A node that rejects every transaction. *)
Definition chain_rejecting_everything : Chain :=
  {| getFeeData := fun _ => Return Examples.toy_feeData;
     getGasPrice := fun _ => Return (30 * gwei)%Z;
     sendTransaction := fun _ _ => Throw (Error "insufficient funds");
     wait := fun tx => Return {| receipt_hash := tx_hash tx;
                                 receipt_status := 1;
                                 receipt_logs := [] |};
     getRecoveredAddress := Examples.toy_getRecoveredAddress;
     isClaimValid := fun _ _ _ _ _ => Return true |}.

(** A claim an issuer with key 7 signed, in the toy scheme, over the hash
    [submitClaim] of [handleKycV6.js] recomputes for it. *)
Definition packed_claim : Claim :=
  {| claim_topic := 42;
     claim_scheme := 1;
     claim_issuer := 8%N;
     claim_signature :=
       serialized
         (@sign Examples.toy_ecdsa 7%N
            (keccak256 (be_bytes 20 Examples.identity_contract
                          ++ be_bytes 32 (Z.to_N 42) ++ toUtf8Bytes "KYC")));
     claim_data := toUtf8Bytes "KYC";
     claim_uri := "" |}.

(** A compliance contract on which the agent is already registered. *)
Definition gateway_with_agent : Compliance.Gateway :=
  {| Compliance.node := Examples.toy_chain Examples.toy_feeData [] true;
     Compliance.sendAgent :=
       fun _ =>
         Throw (Error "execution reverted: 0x0af7 is already an agent") |}.

(** The quote every fee query of the worked nodes leads to. *)
Definition toy_quote : GasOverrides :=
  {| maxFeePerGas := 65200000000;
     maxPriorityFeePerGas := 35200000000;
     gasLimit := None |}.

Definition toy_tx : TransactionResponse := {| tx_hash := "0xabc" |}.

Definition toy_receipt (logs : list Log) : TransactionReceipt :=
  {| receipt_hash := "0xabc"; receipt_status := 1; receipt_logs := logs |}.

Definition toy_url : string := "https://rpc-amoy.polygon.technology".

(** An environment without the RPC endpoint. *)
Definition env_without_url : Env :=
  {| ADMIN_PRIVATE_KEY := Some 7%N; RPC_URL := None |}.

(** [Examples.toy_interface] with one more kind of log: on the first byte 5
    it returns a WalletLinked description whose identity cannot be read. *)
Definition interface_with_unreadable : Interface :=
  fun log =>
    match log_data log with
    | x05 :: _ => parsed_unreadable "WalletLinked"
    | _ => Examples.toy_interface log
    end.

(** Another event, then a WalletLinked event with an unreadable identity,
    then a readable one. *)
Definition logs_with_unreadable_event : list Log :=
  [Examples.toy_log 5%N x02; Examples.toy_log 5%N x05;
   Examples.toy_log 0x1234%N x01].

(** An interface that declares no WalletLinked event: it decodes every log
    as [Examples.toy_interface] does, except that the logs of that event
    match nothing. *)
Definition interface_without_event : Interface :=
  fun log =>
    match log_data log with
    | x01 :: _ => parse_null
    | _ => Examples.toy_interface log
    end.

End Scenarios.
(* ================================================================= *)
(** * Properties of the fee estimator *)

Section FeeEstimator.

Local Open Scope Z_scope.

Lemma computeGasOverrides_same (feeData : FeeData) :
  HandleKycV6.computeGasOverrides feeData = HandleKyc.computeGasOverrides feeData.
Proof. reflexivity. Qed.

Lemma getGasOverrides_same (chain : Chain) :
  HandleKycV6.getGasOverrides chain = HandleKyc.getGasOverrides chain.
Proof. reflexivity. Qed.

(** The quote of an accepted snapshot, in closed form. *)
Lemma computeGasOverrides_accepted (m p : Z) :
  m <> 0 -> p <> 0 ->
  HandleKyc.computeGasOverrides
    {| feeData_maxFeePerGas := Some m; feeData_maxPriorityFeePerGas := Some p |}
  = Return {| maxFeePerGas := (m - p) + Z.quot (Z.max p 32000000000 * 110) 100;
              maxPriorityFeePerGas := Z.quot (Z.max p 32000000000 * 110) 100;
              gasLimit := None |}.
Proof.
  intros Hm Hp.
  unfold HandleKyc.computeGasOverrides; cbn [feeData_maxFeePerGas feeData_maxPriorityFeePerGas js_not bigint].
  destruct (Z.eqb_spec m 0) as [|_]; [contradiction|].
  destruct (Z.eqb_spec p 0) as [|_]; [contradiction|].
  cbn [orb].
  change HandleKyc.amoyMinPriorityFee with 32000000000.
  destruct (Z.ltb_spec p 32000000000) as [Hlt|Hge].
  - rewrite Z.max_r by lia. reflexivity.
  - rewrite Z.max_l by lia. reflexivity.
Qed.

(** The guard of the estimator throws exactly on a null or zero field. *)
Lemma computeGasOverrides_throws_iff (feeData : FeeData) :
  (exists e, HandleKyc.computeGasOverrides feeData = Throw e)
  <-> js_not (feeData_maxFeePerGas feeData) = true
      \/ js_not (feeData_maxPriorityFeePerGas feeData) = true.
Proof.
  unfold HandleKyc.computeGasOverrides.
  destruct (js_not (feeData_maxFeePerGas feeData)) eqn:Hm;
    destruct (js_not (feeData_maxPriorityFeePerGas feeData)) eqn:Hp; cbn [orb];
    split; intros Hx; try (left; reflexivity); try (right; reflexivity);
    try (eexists; reflexivity).
  - destruct Hx as [e He]; discriminate He.
  - destruct Hx as [Hx|Hx]; discriminate Hx.
Qed.

(** The difference between the two quoted fees is the difference between
    the two fees of the snapshot. *)
Lemma computeGasOverrides_spread (feeData : FeeData) (quote : GasOverrides) :
  HandleKyc.computeGasOverrides feeData = Return quote ->
  maxFeePerGas quote - maxPriorityFeePerGas quote
  = bigint (feeData_maxFeePerGas feeData)
    - bigint (feeData_maxPriorityFeePerGas feeData).
Proof.
  unfold HandleKyc.computeGasOverrides.
  destruct (js_not (feeData_maxFeePerGas feeData) || js_not (feeData_maxPriorityFeePerGas feeData));
    [discriminate|].
  intros Hq; injection Hq as <-. cbn [maxFeePerGas maxPriorityFeePerGas]. lia.
Qed.

End FeeEstimator.

(** The quote of an accepted snapshot (both fees present and non-zero), as
    [getGasOverrides] of both handler files returns it: exact integer
    arithmetic with truncating division. *)
Lemma getGasOverrides_accepted
    (chain : Chain) (w : World) (m p : Z) :
  getFeeData chain (feeQueries w)
    = Return {| feeData_maxFeePerGas := Some m;
                feeData_maxPriorityFeePerGas := Some p |} ->
  m <> 0%Z -> p <> 0%Z ->
  let tip := Z.quot (Z.max p 32000000000 * 110) 100 in
  let quote := {| maxFeePerGas := ((m - p) + tip)%Z;
                  maxPriorityFeePerGas := tip;
                  gasLimit := None |} in
  fst (HandleKyc.getGasOverrides chain w) = Return quote
  /\ fst (HandleKycV6.getGasOverrides chain w) = Return quote
  /\ ((p < 32000000000)%Z -> tip = 35200000000%Z).
Proof.
  intros Hfee Hm Hp tip quote.
  assert (Hq : fst (HandleKyc.getGasOverrides chain w) = Return quote).
  { unfold HandleKyc.getGasOverrides, bind, provider_getFeeData, lift.
    rewrite Hfee. cbn [fst].
    apply computeGasOverrides_accepted; assumption. }
  split; [exact Hq|]. split; [exact Hq|].
  intros Hlt. unfold tip. rewrite Z.max_r by lia. reflexivity.
Qed.

(** C5.  The estimator at a snapshot that provides both fees, a max fee of
    30 Gwei and a priority fee of [0n].  The priority fee is below the
    32 Gwei floor, so the stated quote has the priority fee
    [32000000000 * 110 / 100 = 35200000000] and the max fee
    [(30000000000 - 0) + 35200000000 = 65200000000].  [getGasOverrides] of
    both handler files returns no quote there: the guard
    [!feeData.maxPriorityFeePerGas] holds for the BigInt zero and the
    estimator throws "Failed to fetch complete fee data from the provider."
    On every snapshot whose two fees are non-zero both files return exactly
    the stated quote, computed with truncating integer division. *)
Theorem fee_quote_missing_for_zero_priority_fee :
  let snapshot := {| feeData_maxFeePerGas := Some 30000000000%Z;
                     feeData_maxPriorityFeePerGas := Some 0%Z |} in
  let stated := {| maxFeePerGas := 65200000000%Z;
                   maxPriorityFeePerGas := 35200000000%Z;
                   gasLimit := None |} in
  let node := Examples.toy_chain snapshot [] true in
  (bigint (feeData_maxPriorityFeePerGas snapshot)
   < HandleKyc.amoyMinPriorityFee)%Z
  /\ Z.quot (Z.max 0 HandleKyc.amoyMinPriorityFee * 110) 100
     = maxPriorityFeePerGas stated
  /\ ((30000000000 - 0) + maxPriorityFeePerGas stated)%Z = maxFeePerGas stated
  /\ fst (HandleKyc.getGasOverrides node initial_world)
     = Throw (Error "Failed to fetch complete fee data from the provider.")
  /\ fst (HandleKycV6.getGasOverrides node initial_world)
     = Throw (Error "Failed to fetch complete fee data from the provider.")
  /\ fst (HandleKyc.getGasOverrides node initial_world) <> Return stated
  /\ fst (HandleKycV6.getGasOverrides node initial_world) <> Return stated
  /\ (forall (chain : Chain) (w : World) (m p : Z),
         getFeeData chain (feeQueries w)
         = Return {| feeData_maxFeePerGas := Some m;
                     feeData_maxPriorityFeePerGas := Some p |} ->
         m <> 0%Z -> p <> 0%Z ->
         let tip := Z.quot (Z.max p 32000000000 * 110) 100 in
         let quote := {| maxFeePerGas := ((m - p) + tip)%Z;
                         maxPriorityFeePerGas := tip;
                         gasLimit := None |} in
         fst (HandleKyc.getGasOverrides chain w) = Return quote
         /\ fst (HandleKycV6.getGasOverrides chain w) = Return quote
         /\ ((p < 32000000000)%Z -> tip = 35200000000%Z)).
Proof.
  cbv zeta.
  split; [reflexivity|].
  split; [reflexivity|].
  split; [reflexivity|].
  split; [reflexivity|].
  split; [reflexivity|].
  split; [discriminate|].
  split; [discriminate|].
  intros chain w m p Hfee Hm Hp.
  exact (getGasOverrides_accepted chain w m p Hfee Hm Hp).
Qed.

(** C6.  The estimator at a snapshot that has both fees, a max fee of 30 Gwei
    and a priority fee of [0n]: the guard [!feeData.maxPriorityFeePerGas]
    holds for the BigInt zero, so the estimator throws "Failed to fetch
    complete fee data from the provider." although nothing is missing, in
    both handler files. *)
Theorem fee_guard_rejects_zero_priority_fee :
  let snapshot := {| feeData_maxFeePerGas := Some 30000000000%Z;
                     feeData_maxPriorityFeePerGas := Some 0%Z |} in
  HandleKyc.computeGasOverrides snapshot
  = Throw (Error "Failed to fetch complete fee data from the provider.")
  /\ HandleKycV6.computeGasOverrides snapshot
     = Throw (Error "Failed to fetch complete fee data from the provider.")
  /\ fst (HandleKyc.getGasOverrides (Examples.toy_chain snapshot [] true)
            initial_world)
     = Throw (Error "Failed to fetch complete fee data from the provider.").
Proof. repeat split; reflexivity. Qed.

(** C7, as stated, fails: a snapshot whose max fee equals its priority fee
    (40 Gwei each) is accepted, and the quoted max fee equals the quoted
    priority fee, 44 Gwei. *)
Lemma fee_quote_max_can_equal_tip :
  ~ (forall (feeData : FeeData) (quote : GasOverrides),
        HandleKyc.computeGasOverrides feeData = Return quote ->
        (maxPriorityFeePerGas quote < maxFeePerGas quote)%Z).
Proof.
  intros Hclaim.
  specialize (Hclaim
    {| feeData_maxFeePerGas := Some 40000000000%Z;
       feeData_maxPriorityFeePerGas := Some 40000000000%Z |}
    {| maxFeePerGas := 44000000000%Z;
       maxPriorityFeePerGas := 44000000000%Z;
       gasLimit := None |}
    eq_refl).
  cbn in Hclaim. lia.
Qed.

(** C7, amended.  For every accepted snapshot the quoted max fee exceeds the
    quoted priority fee by exactly [maxFeePerGas - maxPriorityFeePerGas] of
    the snapshot; it is strictly greater exactly when the snapshot's max fee
    is strictly greater than its priority fee. *)
Theorem fee_quote_covers_tip_iff
    (feeData : FeeData) (quote : GasOverrides) :
  HandleKyc.computeGasOverrides feeData = Return quote ->
  (maxFeePerGas quote - maxPriorityFeePerGas quote
   = bigint (feeData_maxFeePerGas feeData)
     - bigint (feeData_maxPriorityFeePerGas feeData))%Z
  /\ ((maxPriorityFeePerGas quote < maxFeePerGas quote)%Z
      <-> (bigint (feeData_maxPriorityFeePerGas feeData)
           < bigint (feeData_maxFeePerGas feeData))%Z)
  /\ HandleKycV6.computeGasOverrides feeData = Return quote.
Proof.
  intros Hq. pose proof (computeGasOverrides_spread _ _ Hq) as Hs.
  split; [exact Hs|]. split; [lia|exact Hq].
Qed.

Lemma fee_quote_covers_tip_iff_witness :
  (maxPriorityFeePerGas
     {| maxFeePerGas := 65200000000%Z; maxPriorityFeePerGas := 35200000000%Z;
        gasLimit := None |}
   < maxFeePerGas
       {| maxFeePerGas := 65200000000%Z; maxPriorityFeePerGas := 35200000000%Z;
          gasLimit := None |})%Z
  <-> (30000000000 < 60000000000)%Z.
Proof.
  exact (proj1 (proj2 (@fee_quote_covers_tip_iff Examples.toy_feeData
           {| maxFeePerGas := 65200000000%Z;
              maxPriorityFeePerGas := 35200000000%Z;
              gasLimit := None |} eq_refl))).
Defined.

(* ================================================================= *)
(** * Properties of the encoders and of issuance *)

Section Encoding.

Lemma length_be_bytes (len : nat) (n : N) : List.length (be_bytes len n) = len.
Proof.
  revert n; induction len as [|k IH]; intros n; cbn [be_bytes].
  - reflexivity.
  - rewrite length_app, IH. cbn. lia.
Qed.

Lemma length_zeros (n : nat) : List.length (zeros n) = n.
Proof. induction n as [|k IH]; cbn; [reflexivity|now rewrite IH]. Qed.

Lemma length_keccak256 (msg : bytes) : List.length (keccak256 msg) = 32.
Proof.
  unfold keccak256, Keccak.keccak256. rewrite length_map, length_seq.
  reflexivity.
Qed.

(** The two ways of writing the amount of padding agree. *)
Lemma padding_amount (len : nat) :
  (32 - len mod 32) mod 32 = 32 * ((len + 31) / 32) - len.
Proof.
  pose proof (Nat.div_mod_eq len 32) as Hd.
  pose proof (Nat.mod_upper_bound len 32 ltac:(lia)) as Hb.
  remember (len / 32) as q. remember (len mod 32) as m.
  assert (Hcase : m = 0 \/ 0 < m) by lia.
  destruct Hcase as [-> | Hpos].
  - replace (len + 31) with (31 + q * 32) by lia.
    rewrite Nat.div_add by lia.
    cbn. lia.
  - replace (len + 31) with ((m - 1) + (q + 1) * 32) by lia.
    rewrite Nat.div_add by lia.
    rewrite (Nat.div_small (m - 1) 32) by lia.
    rewrite (Nat.mod_small (32 - m) 32) by lia.
    lia.
Qed.

(** [AbiCoder.encode(["address", "uint256", "bytes"], ...)] produces the
    layout the specification describes. *)
Lemma AbiCoder_encode_claim (subject : address) (topic : Z) (payload : bytes) :
  uint256_in_range topic = true ->
  AbiCoder_encode [abi_address (Addr subject); abi_uint256 topic;
                   abi_bytes payload]
  = Some (Spec.abi_encoding subject topic payload).
Proof.
  intros Hrange.
  unfold AbiCoder_encode. cbn [List.length pack getAddress].
  rewrite Hrange. cbn [pack].
  unfold Spec.abi_encoding, encode_bytes, pad_right32, word.
  rewrite padding_amount.
  cbn [List.length Nat.mul Nat.add app].
  change (N.of_nat 96) with 0x60%N.
  rewrite <- !app_assoc. reflexivity.
Qed.

(** On a 32-byte message [hashMessage] is the personal-message transform. *)
Lemma hashMessage_32 (hash : bytes) :
  List.length hash = 32 -> hashMessage hash = Spec.personal_digest hash.
Proof.
  intros Hlen. unfold hashMessage, Spec.personal_digest, MessagePrefix.
  rewrite Hlen. rewrite <- !app_assoc. reflexivity.
Qed.

Lemma signature_eta (sig : Signature) :
  {| r := r sig; s := s sig; v := v sig |} = sig.
Proof. destruct sig; reflexivity. Qed.

End Encoding.

Section Issuance.

Context {E : Ecdsa}.
Variables (env : Env) (key : PrivateKey).
Variables (subject : address) (topic : Z) (claimData : string).

Hypothesis env_key : ADMIN_PRIVATE_KEY env = Some key.
Hypothesis topic_fits : (0 <= topic < 2 ^ 256)%Z.

Lemma topic_in_range : uint256_in_range topic = true.
Proof.
  unfold uint256_in_range.
  apply andb_true_iff; split; [apply Z.leb_le|apply Z.ltb_lt]; lia.
Qed.

(** What [issueKycClaimSignature] returns on valid arguments. *)
Lemma issueKycClaimSignature_valid (user : address) (countryCode : Z) :
  HandleKyc.issueKycClaimSignature env (Addr user) (Addr subject) claimData
    topic countryCode
  = Return {| HandleKyc.kyc_signature :=
                sign key (Spec.signed_digest subject topic
                            (toUtf8Bytes claimData));
              HandleKyc.kyc_issuerAddress := HandleKyc.CLAIM_ISSUER_ADDRESS;
              HandleKyc.kyc_dataHash :=
                Spec.dataHash subject topic (toUtf8Bytes claimData);
              HandleKyc.kyc_topic := topic |}.
Proof.
  unfold HandleKyc.issueKycClaimSignature.
  cbn [isAddress getAddress negb]. rewrite env_key.
  rewrite (AbiCoder_encode_claim subject topic _ topic_in_range).
  cbn [encoded_or_throw].
  rewrite signature_eta.
  rewrite hashMessage_32 by apply length_keccak256.
  reflexivity.
Qed.

(** What [generateClaimSignature] of [handleKycV6.js] returns on valid
    arguments. *)
Lemma generateClaimSignature_V6_valid :
  HandleKycV6.generateClaimSignature env (Addr subject) topic claimData
  = Return {| claim_topic := topic;
              claim_scheme := 1;
              claim_issuer := computeAddress key;
              claim_signature :=
                serialized
                  (sign key (Spec.signed_digest subject topic
                               (toUtf8Bytes claimData)));
              claim_data := toUtf8Bytes claimData;
              claim_uri := "" |}.
Proof.
  unfold HandleKycV6.generateClaimSignature. rewrite env_key.
  rewrite (AbiCoder_encode_claim subject topic _ topic_in_range).
  cbn [encoded_or_throw]. unfold signMessage.
  rewrite hashMessage_32 by apply length_keccak256.
  reflexivity.
Qed.

End Issuance.

(** C2.  For a valid subject identity address, a topic that fits a uint256
    and any payload, with the issuer key configured, both issuance functions
    sign exactly the EIP-191 personal-message transform of [dataHash], where
    [dataHash] is the Keccak-256 hash of the standard ABI encoding of
    (subject as address, topic as uint256, payload as bytes): the signature
    they return is [sign] applied to that digest and to nothing else. *)
Theorem issuance_signs_personal_digest_of_abi_hash
    (E : Ecdsa) (env : Env) (key : PrivateKey)
    (user subject : address) (topic : Z) (claimData : string) (countryCode : Z) :
  ADMIN_PRIVATE_KEY env = Some key ->
  (0 <= topic < 2 ^ 256)%Z ->
  let payload := toUtf8Bytes claimData in
  let digest := Spec.signed_digest subject topic payload in
  HandleKyc.issueKycClaimSignature env (Addr user) (Addr subject) claimData
    topic countryCode
  = Return {| HandleKyc.kyc_signature := sign key digest;
              HandleKyc.kyc_issuerAddress := HandleKyc.CLAIM_ISSUER_ADDRESS;
              HandleKyc.kyc_dataHash := Spec.dataHash subject topic payload;
              HandleKyc.kyc_topic := topic |}
  /\ HandleKycV6.generateClaimSignature env (Addr subject) topic claimData
     = Return {| claim_topic := topic;
                 claim_scheme := 1;
                 claim_issuer := computeAddress key;
                 claim_signature := serialized (sign key digest);
                 claim_data := payload;
                 claim_uri := "" |}.
Proof.
  intros Hkey Htopic payload digest. split.
  - exact (issueKycClaimSignature_valid env key subject topic claimData Hkey
             Htopic user countryCode).
  - exact (generateClaimSignature_V6_valid env key subject topic claimData
             Hkey Htopic).
Qed.

Lemma issuance_signs_personal_digest_of_abi_hash_witness :
  HandleKycV6.generateClaimSignature (E := Examples.toy_ecdsa) Examples.toy_env
    (Addr Examples.identity_contract) 42 "KYC"
  = Return {| claim_topic := 42;
              claim_scheme := 1;
              claim_issuer := 8%N;
              claim_signature :=
                serialized
                  (@sign Examples.toy_ecdsa 7%N
                     (Spec.signed_digest Examples.identity_contract 42
                        (toUtf8Bytes "KYC")));
              claim_data := toUtf8Bytes "KYC";
              claim_uri := "" |}.
Proof.
  refine (proj2 (issuance_signs_personal_digest_of_abi_hash
                   Examples.toy_ecdsa Examples.toy_env 7%N
                   Examples.user_address Examples.identity_contract 42 "KYC"
                   91 _ _)).
  - reflexivity.
  - lia.
Defined.

(* ================================================================= *)
(** * The submitter's recomputed hash against the issuer's *)

Section Recomputation.

Lemma solidityPacked_claim (subject : address) (topic : Z) (payload : bytes) :
  uint256_in_range topic = true ->
  solidityPacked [abi_address (Addr subject); abi_uint256 topic;
                  abi_bytes payload]
  = Some (be_bytes 20 subject ++ be_bytes 32 (Z.to_N topic) ++ payload).
Proof.
  intros Hrange. cbn [solidityPacked getAddress]. rewrite Hrange.
  rewrite app_nil_r. reflexivity.
Qed.

(** Whatever the claim, the bytes the submitter hashes are not the bytes the
    issuer hashed: the packed form is shorter than the three head words of
    the standard encoding plus the payload. *)
Lemma packed_preimage_differs (subject : address) (topic : Z) (payload : bytes) :
  uint256_in_range topic = true ->
  solidityPacked [abi_address (Addr subject); abi_uint256 topic;
                  abi_bytes payload]
  <> AbiCoder_encode [abi_address (Addr subject); abi_uint256 topic;
                      abi_bytes payload].
Proof.
  intros Hrange. rewrite solidityPacked_claim, AbiCoder_encode_claim by assumption.
  intros Heq.
  apply (f_equal (fun o : option bytes =>
                    match o with Some b => List.length b | None => 0 end))
    in Heq.
  cbv beta iota in Heq.
  unfold Spec.abi_encoding in Heq.
  rewrite !length_app, !length_be_bytes, length_zeros in Heq.
  lia.
Qed.

Lemma bytes_eqb_eq (a b : bytes) : Examples.bytes_eqb a b = true <-> a = b.
Proof.
  revert b; induction a as [|x a IH]; intros [|y b]; cbn [Examples.bytes_eqb];
    split; intros Hx;
    try reflexivity; try discriminate.
  - apply andb_true_iff in Hx as [Hxy Hab].
    apply Byte.byte_dec_bl in Hxy. apply IH in Hab. now subst.
  - injection Hx as -> ->. apply andb_true_iff; split.
    + apply Byte.byte_dec_lb; reflexivity.
    + apply IH; reflexivity.
Qed.

End Recomputation.

(** C3.  The claim of the sources' own test call: identity contract
    0xDe9F...A2eb, topic 42, payload "KYC".  The issuer hashes the standard
    ABI encoding and gets 0x95e830d6...; [submitClaim] of [handleKycV6.js]
    recomputes the hash over the packed encoding of the same three values
    and gets 0x1d6eb66b...: the recomputed [dataHash] is not the issuer's. *)
Theorem submitClaim_recomputes_another_hash (E : Ecdsa) :
  let subject := Examples.identity_contract in
  let issuer_hash :=
    Examples.hex_bytes
      "95e830d626fad9c678a77e1873cdad7b3b66da3393c6613bcce5f76ee042549f" in
  let submitter_hash :=
    Examples.hex_bytes
      "1d6eb66b9db5e2fd635d0a37fb3c7dcb3a2d8dc1e5e877c396d661320dc918d5" in
  exists (issued : HandleKyc.KycClaimSignature) (claim : Claim),
    HandleKyc.issueKycClaimSignature Examples.toy_env
      (Addr Examples.user_address) (Addr subject) "KYC" 42 91 = Return issued
    /\ HandleKycV6.generateClaimSignature Examples.toy_env (Addr subject) 42
         "KYC" = Return claim
    /\ HandleKyc.kyc_dataHash issued = issuer_hash
    /\ HandleKycV6.submitClaim_dataHash subject claim = Some submitter_hash
    /\ submitter_hash <> issuer_hash.
Proof.
  intros subject issuer_hash submitter_hash.
  pose proof (issueKycClaimSignature_valid Examples.toy_env 7%N subject 42
                "KYC" eq_refl ltac:(lia) Examples.user_address 91) as Hissue.
  pose proof (generateClaimSignature_V6_valid Examples.toy_env 7%N subject 42
                "KYC" eq_refl ltac:(lia)) as Hclaim.
  eexists; eexists.
  split; [exact Hissue|]. split; [exact Hclaim|].
  split; [vm_compute; reflexivity|].
  split; [vm_compute; reflexivity|].
  vm_compute. discriminate.
Qed.

(* ================================================================= *)
(** * The round trip through the pre-flight verification *)

Section RoundTrip.

Lemma byte_of_N_snoc (x : N) (b : byte) :
  byte_of_N (256 * x + Byte.to_N b) = b.
Proof.
  unfold byte_of_N. pose proof (Byte.to_N_bounded b) as Hb.
  replace ((256 * x + Byte.to_N b) mod 256)%N with (Byte.to_N b).
  - now rewrite Byte.of_to_N.
  - rewrite N.add_comm, N.mul_comm, N.Div0.mod_add.
    symmetry; apply N.mod_small; lia.
Qed.

Lemma shiftr_snoc (x : N) (b : byte) :
  N.shiftr (256 * x + Byte.to_N b) 8 = x.
Proof.
  pose proof (Byte.to_N_bounded b) as Hb.
  rewrite N.shiftr_div_pow2. change (2 ^ 8)%N with 256%N.
  rewrite N.add_comm, N.mul_comm, N.div_add by lia.
  rewrite N.div_small by lia. reflexivity.
Qed.

Lemma be_to_N_snoc (d : bytes) (b : byte) :
  Examples.be_to_N (d ++ [b]) = (256 * Examples.be_to_N d + Byte.to_N b)%N.
Proof. unfold Examples.be_to_N. now rewrite fold_left_app. Qed.

(** Writing the number a byte string spells on as many bytes gives the
    string back. *)
Lemma be_bytes_be_to_N (d : bytes) :
  be_bytes (List.length d) (Examples.be_to_N d) = d.
Proof.
  induction d as [|b d IH] using rev_ind.
  - reflexivity.
  - rewrite length_app, Nat.add_1_r, be_to_N_snoc. cbn [List.length be_bytes].
    now rewrite shiftr_snoc, byte_of_N_snoc, IH.
Qed.

Lemma firstn_be_bytes_app (len : nat) (n : N) (rest : bytes) :
  firstn len (be_bytes len n ++ rest) = be_bytes len n.
Proof.
  rewrite firstn_app, length_be_bytes, Nat.sub_diag.
  rewrite firstn_all2 by (rewrite length_be_bytes; lia).
  cbn. apply app_nil_r.
Qed.

Lemma skipn_be_bytes_app (len : nat) (n : N) (rest : bytes) :
  skipn len (be_bytes len n ++ rest) = rest.
Proof.
  rewrite skipn_app, length_be_bytes, Nat.sub_diag.
  rewrite skipn_all2 by (rewrite length_be_bytes; lia).
  reflexivity.
Qed.

Lemma to_N_byte_of_N (n : N) : Byte.to_N (byte_of_N n) = (n mod 256)%N.
Proof.
  unfold byte_of_N. destruct (Byte.of_N (n mod 256)) as [b|] eqn:Hb.
  - now apply Byte.to_of_N.
  - apply Byte.of_N_None_iff in Hb.
    pose proof (N.mod_upper_bound n 256 ltac:(lia)). lia.
Qed.

(** Reading back the [len] bytes written for [n] gives [n] modulo
    [2 ^ (8 * len)]. *)
Lemma be_to_N_be_bytes (len : nat) (n : N) :
  Examples.be_to_N (be_bytes len n) = (n mod 2 ^ (8 * N.of_nat len))%N.
Proof.
  revert n; induction len as [|k IH]; intros n.
  - cbn. now rewrite N.mod_1_r.
  - cbn [be_bytes]. rewrite be_to_N_snoc, IH, to_N_byte_of_N.
    rewrite N.shiftr_div_pow2. change (2 ^ 8)%N with 256%N.
    replace (8 * N.of_nat (S k))%N with (8 + 8 * N.of_nat k)%N by lia.
    rewrite N.pow_add_r. change (2 ^ 8)%N with 256%N.
    rewrite N.Div0.mod_mul_r. lia.
Qed.

(** The toy recovery view recovers the signer of a toy signature exactly
    from the digest that was signed. *)
Lemma toy_recovery_binds (target : address) (key : PrivateKey) (d d' : bytes) :
  List.length d = 32 ->
  (Examples.toy_getRecoveredAddress target
     (serialized (@sign Examples.toy_ecdsa key d)) d'
   = Return ((key mod 2 ^ 256) + 1)%N
   <-> d' = d).
Proof.
  intros Hlen. unfold Examples.toy_getRecoveredAddress, serialized.
  cbn [sign computeAddress Examples.toy_ecdsa r s v].
  rewrite skipn_be_bytes_app, !firstn_be_bytes_app.
  rewrite <- Hlen at 1. rewrite be_bytes_be_to_N, be_to_N_be_bytes.
  change (8 * N.of_nat 32)%N with 256%N.
  destruct (Examples.bytes_eqb d d') eqn:Heq.
  - apply bytes_eqb_eq in Heq. subst d'. split; reflexivity.
  - split.
    + intros Hx. injection Hx as Hx. symmetry in Hx.
      rewrite N.add_1_r in Hx. now apply N.neq_succ_0 in Hx.
    + intros ->. rewrite (proj2 (bytes_eqb_eq d d) eq_refl) in Heq. discriminate.
Qed.

End RoundTrip.

Section Preflight.

Lemma checkEnvVariables_ok (env : Env) (key : PrivateKey) (url : string)
    (w : World) :
  ADMIN_PRIVATE_KEY env = Some key -> RPC_URL env = Some url ->
  checkEnvVariables env w = (Return tt, w).
Proof. intros Hk Hu. unfold checkEnvVariables. now rewrite Hk, Hu. Qed.

(** The pre-flight block never throws and never changes the world. *)
Lemma preflightVerification_total (chain : Chain) (subject : address)
    (claim : Claim) (w : World) :
  exists verified,
    HandleKycV6.preflightVerification chain subject claim w
    = (Return verified, w).
Proof.
  unfold HandleKycV6.preflightVerification, try_catch, bind, lift, throw, ret.
  destruct (encoded_or_throw (HandleKycV6.submitClaim_dataHash subject claim))
    as [dataHash|e]; [|now exists false].
  destruct (getRecoveredAddress chain subject (claim_signature claim) dataHash)
    as [recovered|e]; [|now exists false].
  destruct (negb (recovered =? claim_issuer claim)%N);
    [now exists false|now exists true].
Qed.

(** The pre-flight block passes exactly when the contract recovers the
    declared issuer from the recomputed hash. *)
Lemma preflightVerification_true_iff (chain : Chain) (subject : address)
    (claim : Claim) (w : World) :
  fst (HandleKycV6.preflightVerification chain subject claim w) = Return true
  <-> exists dataHash,
        HandleKycV6.submitClaim_dataHash subject claim = Some dataHash
        /\ getRecoveredAddress chain subject (claim_signature claim) dataHash
           = Return (claim_issuer claim).
Proof.
  unfold HandleKycV6.preflightVerification, try_catch, bind, lift, throw, ret.
  destruct (HandleKycV6.submitClaim_dataHash subject claim) as [dataHash|];
    cbn [encoded_or_throw].
  - destruct (getRecoveredAddress chain subject (claim_signature claim) dataHash)
      as [recovered|e] eqn:Hrec.
    + destruct (N.eqb_spec recovered (claim_issuer claim)) as [->|Hne];
        cbn [negb fst]; split.
      * intros _. exists dataHash. now split.
      * reflexivity.
      * discriminate.
      * intros (d & Hd & Hr). injection Hd as <-.
        rewrite Hrec in Hr. injection Hr as Hr. contradiction.
    + cbn [fst]; split; [discriminate|].
      intros (d & Hd & Hr). injection Hd as <-. rewrite Hrec in Hr. discriminate.
  - cbn [fst]; split; [discriminate|]. intros (d & Hd & _). discriminate.
Qed.

Lemma packed_digest_is_not_signed_digest :
  keccak256 (be_bytes 20 Examples.identity_contract
               ++ be_bytes 32 (Z.to_N 42) ++ toUtf8Bytes "KYC")
  <> Spec.signed_digest Examples.identity_contract 42 (toUtf8Bytes "KYC").
Proof. vm_compute. discriminate. Qed.

End Preflight.

(** C1.  The claim issued by [generateClaimSignature] of [handleKycV6.js]
    for the identity contract 0xDe9F...A2eb, topic 42 and payload "KYC" does
    not pass the pre-flight verification of [submitClaim] of the same file.
    Whatever the issuer key, when the contract's recovery view returns the
    signer of a signature exactly for the digest that was signed, the
    verification of the freshly issued claim fails, and [submitClaim] returns
    without submitting anything: the issuer signed the personal-message
    digest of the standard ABI hash, the verifier asks for recovery over the
    bare hash of the packed encoding. *)
Theorem issued_claim_fails_preflight
    (E : Ecdsa) (chain : Chain) (env : Env) (key : PrivateKey) (url : string)
    (userWallet : PrivateKey) (w : World) :
  ADMIN_PRIVATE_KEY env = Some key ->
  RPC_URL env = Some url ->
  (forall d d' : bytes,
      List.length d = 32 -> List.length d' = 32 ->
      (getRecoveredAddress chain Examples.identity_contract
         (serialized (sign key d)) d' = Return (computeAddress key)
       <-> d' = d)) ->
  exists claim : Claim,
    HandleKycV6.generateClaimSignature env (Addr Examples.identity_contract)
      42 "KYC" = Return claim
    /\ claim_issuer claim = computeAddress key
    /\ HandleKycV6.preflightVerification chain Examples.identity_contract
         claim w = (Return false, w)
    /\ HandleKycV6.submitClaim chain env Examples.identity_contract userWallet
         claim w = (Return tt, w).
Proof.
  intros Hkey Hurl Hbind.
  pose proof (generateClaimSignature_V6_valid env key
                Examples.identity_contract 42 "KYC" Hkey ltac:(lia))
    as Hclaim.
  eexists. split; [exact Hclaim|]. split; [reflexivity|].
  match goal with
  | |- ?P /\ _ => assert (Hpre : P)
  end.
  { destruct (preflightVerification_total chain Examples.identity_contract
                {| claim_topic := 42; claim_scheme := 1;
                   claim_issuer := computeAddress key;
                   claim_signature :=
                     serialized
                       (sign key
                          (Spec.signed_digest Examples.identity_contract 42
                             (toUtf8Bytes "KYC")));
                   claim_data := toUtf8Bytes "KYC"; claim_uri := "" |} w)
      as [[|] Hv]; [|exact Hv].
    exfalso.
    apply (f_equal fst) in Hv. cbn [fst] in Hv.
    apply preflightVerification_true_iff in Hv.
    destruct Hv as (dataHash & Hd & Hr).
    unfold HandleKycV6.submitClaim_dataHash, solidityPackedKeccak256 in Hd.
    cbn [claim_topic claim_data] in Hd.
    rewrite solidityPacked_claim in Hd by reflexivity.
    injection Hd as <-.
    cbn [claim_signature claim_issuer] in Hr.
    apply Hbind in Hr.
    - exact (packed_digest_is_not_signed_digest Hr).
    - apply length_keccak256.
    - apply length_keccak256. }
  split; [exact Hpre|].
  unfold HandleKycV6.submitClaim, bind.
  rewrite (checkEnvVariables_ok env key url w Hkey Hurl).
  rewrite Hpre. reflexivity.
Qed.

Lemma issued_claim_fails_preflight_witness :
  exists claim : Claim,
    HandleKycV6.generateClaimSignature (E := Examples.toy_ecdsa)
      Examples.toy_env (Addr Examples.identity_contract) 42 "KYC"
    = Return claim
    /\ claim_issuer claim = 8%N
    /\ HandleKycV6.preflightVerification
         (Examples.toy_chain Examples.toy_feeData [] true)
         Examples.identity_contract claim initial_world
       = (Return false, initial_world)
    /\ HandleKycV6.submitClaim
         (Examples.toy_chain Examples.toy_feeData [] true) Examples.toy_env
         Examples.identity_contract 9%N claim initial_world
       = (Return tt, initial_world).
Proof.
  refine (issued_claim_fails_preflight Examples.toy_ecdsa
            (Examples.toy_chain Examples.toy_feeData [] true)
            Examples.toy_env 7%N "https://rpc-amoy.polygon.technology"
            9%N initial_world _ _ _).
  - reflexivity.
  - reflexivity.
  - intros d d' Hd _.
    exact (toy_recovery_binds Examples.identity_contract 7%N d d' Hd).
Defined.

(* ================================================================= *)
(** * Submitting a claim *)

(** C4, as stated, fails.  The tampered claim declares the issuer 8 but the
    contract recovers the zero address from its signature.  [submitClaim] of
    [handleKycV6.js] then returns normally: its [catch] logs the mismatch and
    returns, no failure reaches the caller.  [submitClaim] of [handleKyc.js],
    told by [isClaimValid] that the claim is not valid, submits the addClaim
    transaction all the same. *)
Lemma submitClaim_mismatch_is_not_a_failure :
  let chain := Examples.toy_chain Examples.toy_feeData [] false in
  let claim := Examples.tampered_claim in
  let subject := Examples.identity_contract in
  (exists dataHash,
      HandleKycV6.submitClaim_dataHash subject claim = Some dataHash
      /\ getRecoveredAddress chain subject (claim_signature claim) dataHash
         = Return 0%N
      /\ claim_issuer claim = 8%N)
  /\ HandleKycV6.submitClaim chain Examples.toy_env subject 9%N claim
       initial_world
     = (Return tt, initial_world)
  /\ HandleKyc.checkIsClaimValid chain subject (claim_topic claim)
       (claim_signature claim) (claim_data claim) initial_world
     = (Return false, initial_world)
  /\ HandleKyc.submitClaim chain Examples.toy_env subject 9%N claim
       initial_world
     = (Return tt,
        {| submitted :=
             [addClaim subject 42 1 8%N (claim_signature claim)
                (toUtf8Bytes "KYC") ""
                {| maxFeePerGas := 65200000000;
                   maxPriorityFeePerGas := 35200000000;
                   gasLimit := Some 500000%Z |}];
           feeQueries := 1 |}).
Proof.
  cbv zeta. split; [|split; [|split]].
  - eexists. split; [reflexivity|]. split; vm_compute; reflexivity.
  - vm_compute; reflexivity.
  - reflexivity.
  - vm_compute; reflexivity.
Qed.

(** C4, amended.  With the environment configured, for every claim from
    whose signature the contract's recovery view, asked over the hash
    [submitClaim] of [handleKycV6.js] recomputes, does not return the
    declared issuer, that [submitClaim] submits no transaction at all and
    returns normally: the world is left as it was and the mismatch is not
    raised to the caller. *)
Theorem submitClaim_stops_before_sending_on_mismatch
    (chain : Chain) (env : Env) (key : PrivateKey) (url : string)
    (subject : address) (userWallet : PrivateKey) (claim : Claim) (w : World) :
  ADMIN_PRIVATE_KEY env = Some key ->
  RPC_URL env = Some url ->
  (forall dataHash,
      HandleKycV6.submitClaim_dataHash subject claim = Some dataHash ->
      getRecoveredAddress chain subject (claim_signature claim) dataHash
      <> Return (claim_issuer claim)) ->
  HandleKycV6.submitClaim chain env subject userWallet claim w = (Return tt, w).
Proof.
  intros Hkey Hurl Hmis.
  unfold HandleKycV6.submitClaim, bind.
  rewrite (checkEnvVariables_ok env key url w Hkey Hurl).
  destruct (preflightVerification_total chain subject claim w) as [[|] Hv];
    rewrite Hv; [|reflexivity].
  exfalso. apply (f_equal fst) in Hv. cbn [fst] in Hv.
  apply preflightVerification_true_iff in Hv.
  destruct Hv as (dataHash & Hd & Hr). exact (Hmis dataHash Hd Hr).
Qed.

Lemma submitClaim_stops_before_sending_on_mismatch_witness :
  HandleKycV6.submitClaim (Examples.toy_chain Examples.toy_feeData [] true)
    Examples.toy_env Examples.identity_contract 9%N Examples.tampered_claim
    initial_world
  = (Return tt, initial_world).
Proof.
  refine (submitClaim_stops_before_sending_on_mismatch
            (Examples.toy_chain Examples.toy_feeData [] true)
            Examples.toy_env 7%N "https://rpc-amoy.polygon.technology"
            Examples.identity_contract 9%N Examples.tampered_claim
            initial_world _ _ _).
  - reflexivity.
  - reflexivity.
  - intros dataHash Hd. vm_compute in Hd. injection Hd as <-.
    vm_compute. discriminate.
Defined.

(* ================================================================= *)
(** * Provisioning: extracting the identity address *)

Section EventScan.

Variable iface : Interface.

Lemma isWalletLinked_decodes (log : Log) :
  HandleKycV6.isWalletLinked iface log = true
  <-> Spec.decodes_WalletLinked iface log.
Proof.
  unfold HandleKycV6.isWalletLinked, Spec.decodes_WalletLinked.
  destruct (iface log) as [| |d|event]; split.
  - discriminate.
  - intros [(d & Hd & _)|Hd]; discriminate.
  - discriminate.
  - intros [(d & Hd & _)|Hd]; discriminate.
  - intros Hn. left. exists d. split; [reflexivity|now apply String.eqb_eq].
  - intros [(d' & Hd & Hn)|Hd]; [|discriminate].
    injection Hd as <-. now apply String.eqb_eq.
  - intros Hn. right. apply String.eqb_eq in Hn. now subst event.
  - intros [(d & Hd & _)|Hd]; [discriminate|].
    injection Hd as ->. reflexivity.
Qed.

(** Entries that do not decode to the event are passed over, whether
    [parseLog] throws on them, returns null or returns another event,
    readable or not. *)
Lemma scanWalletLinked_skip (pre rest : list Log) :
  (forall log, In log pre -> ~ Spec.decodes_WalletLinked iface log) ->
  HandleKyc.scanWalletLinked iface (pre ++ rest)
  = HandleKyc.scanWalletLinked iface rest.
Proof.
  induction pre as [|log pre IH]; intros Hpre; [reflexivity|].
  cbn [app HandleKyc.scanWalletLinked].
  assert (Hrest : forall l, In l pre -> ~ Spec.decodes_WalletLinked iface l)
    by (intros l Hl; apply Hpre; now right).
  specialize (Hpre log (or_introl eq_refl)).
  destruct (iface log) as [| |d|event] eqn:Hlog; try (now apply IH).
  destruct (String.eqb_spec (name d) "WalletLinked") as [Hn|Hn];
    [|now apply IH].
  exfalso. apply Hpre. left. exists d. now split.
Qed.



Lemma find_isWalletLinked_none (logs : list Log) :
  (forall log, In log logs -> ~ Spec.decodes_WalletLinked iface log) ->
  find (HandleKycV6.isWalletLinked iface) logs = None.
Proof.
  induction logs as [|log logs IH]; intros Hno; [reflexivity|].
  cbn [find].
  destruct (HandleKycV6.isWalletLinked iface log) eqn:Hw.
  - exfalso. apply (Hno log (or_introl eq_refl)).
    now apply isWalletLinked_decodes.
  - apply IH. intros l Hl. apply Hno. now right.
Qed.

Lemma find_isWalletLinked_first (pre post : list Log) (log : Log) :
  (forall l, In l pre -> ~ Spec.decodes_WalletLinked iface l) ->
  Spec.decodes_WalletLinked iface log ->
  find (HandleKycV6.isWalletLinked iface) (pre ++ log :: post) = Some log.
Proof.
  induction pre as [|l pre IH]; intros Hpre Hlog.
  - cbn [app find]. now rewrite (proj2 (isWalletLinked_decodes log) Hlog).
  - cbn [app find].
    destruct (HandleKycV6.isWalletLinked iface l) eqn:Hw.
    + exfalso. apply (Hpre l (or_introl eq_refl)).
      now apply isWalletLinked_decodes.
    + apply IH; [|assumption]. intros l' Hl'. apply Hpre. now right.
Qed.

End EventScan.

Section ProvisioningRun.

Variables (chain : Chain) (env : Env) (iface : Interface).
Variables (userAddress : address) (salt : string) (w : World).
Variables (key : PrivateKey) (url : string).
Variables (feeData : FeeData) (gasOverrides : GasOverrides).
Variables (tx : TransactionResponse) (receipt : TransactionReceipt).

(** The creation transaction of the run. *)
Let creation : Call :=
  createIdentityWithManagementKeys HandleKyc.ID_FACTORY userAddress salt
    [keccak256 (word 0x0af700A3026adFddC10f7Aa8Ba2419e8503592f7%N)]
    gasOverrides.

(** The world once the creation transaction has been submitted. *)
Let after_creation : World :=
  {| submitted := submitted w ++ [creation];
     feeQueries := S (feeQueries w) |}.

Hypothesis env_key : ADMIN_PRIVATE_KEY env = Some key.
Hypothesis env_url : RPC_URL env = Some url.
Hypothesis fee_answer : getFeeData chain (feeQueries w) = Return feeData.
Hypothesis fee_quote : HandleKyc.computeGasOverrides feeData = Return gasOverrides.
Hypothesis creation_sent :
  sendTransaction chain (List.length (submitted w)) creation = Return tx.
Hypothesis creation_mined : wait chain tx = Return receipt.

Lemma createIdentity_after_receipt :
  HandleKyc.createIdentity chain env iface userAddress salt w
  = try_catch
      (match HandleKyc.scanWalletLinked iface (receipt_logs receipt) with
       | None =>
           throw (Error "Could not find the WalletLinked event in the transaction receipt.")
       | Some identityAddress =>
           HandleKyc.configureAndTransferIdentity chain env identityAddress
             userAddress ;;;
           ret identityAddress
       end)
      (fun error => throw error) after_creation.
Proof.
  unfold HandleKyc.createIdentity, try_catch, bind.
  rewrite (checkEnvVariables_ok env key url w env_key env_url).
  unfold new_Wallet. rewrite env_key. unfold ret at 1.
  unfold HandleKyc.getGasOverrides, bind, provider_getFeeData, lift.
  rewrite fee_answer, fee_quote.
  change (AbiCoder_encode
            [abi_address (Addr 0x0af700A3026adFddC10f7Aa8Ba2419e8503592f7%N)])
    with (Some (word 0x0af700A3026adFddC10f7Aa8Ba2419e8503592f7%N)).
  cbn [encoded_or_throw].
  unfold send at 1. cbn [submitted feeQueries].
  fold creation. rewrite creation_sent.
  unfold tx_wait, lift. rewrite creation_mined.
  reflexivity.
Qed.

Lemma createIdentity_V6_after_receipt :
  HandleKycV6.createIdentity chain env iface userAddress salt w
  = try_catch
      (match find (HandleKycV6.isWalletLinked iface) (receipt_logs receipt) with
       | None =>
           throw (Error "Could not find the WalletLinked event in the transaction receipt.")
       | Some walletLinkedLog =>
           match iface walletLinkedLog with
           | parsed parsedEvent =>
               HandleKycV6.configureAndTransferIdentity chain env
                 (args_identity parsedEvent) userAddress ;;;
               ret (args_identity parsedEvent)
           | parse_null => throw (Error "Cannot read properties of null")
           | parse_throws => throw (Error "invalid argument")
           | parsed_unreadable _ =>
               throw (Error "deferred error during ABI decoding triggered accessing property identity")
           end
       end)
      (fun error => throw error) after_creation.
Proof.
  unfold HandleKycV6.createIdentity, try_catch, bind.
  rewrite (checkEnvVariables_ok env key url w env_key env_url).
  unfold new_Wallet. rewrite env_key. unfold ret at 1.
  unfold HandleKycV6.getGasOverrides, bind, provider_getFeeData, lift.
  rewrite fee_answer.
  change (HandleKycV6.computeGasOverrides feeData)
    with (HandleKyc.computeGasOverrides feeData).
  rewrite fee_quote.
  change (AbiCoder_encode
            [abi_address (Addr 0x0af700A3026adFddC10f7Aa8Ba2419e8503592f7%N)])
    with (Some (word 0x0af700A3026adFddC10f7Aa8Ba2419e8503592f7%N)).
  cbn [encoded_or_throw].
  unfold send at 1. cbn [submitted feeQueries].
  change HandleKycV6.ID_FACTORY with HandleKyc.ID_FACTORY.
  fold creation. rewrite creation_sent.
  unfold tx_wait, lift. rewrite creation_mined.
  reflexivity.
Qed.


End ProvisioningRun.


(* ================================================================= *)
(** * Registration and minting *)

(** C9.  A registration that succeeds: the issuer key is configured, the fee
    data arrives and is accepted, the node accepts the registerIdentity
    transaction and mines it.  [addToIdentityRegistry] of [handleKyc.js] has
    then submitted exactly that transaction, with the quote computed from the
    fee data fetched in this call, has waited for it, and returns the boolean
    [true], not the hash of the transaction; the [/register] handler reports
    [true] as [transactionHash]. *)
Theorem addToIdentityRegistry_returns_true_not_hash
    (chain : Chain) (env : Env) (key : PrivateKey)
    (userAddress identityAddress : address) (countryCode : Z) (w : World)
    (feeData : FeeData) (gasOverrides : GasOverrides)
    (tx : TransactionResponse) (receipt : TransactionReceipt) :
  ADMIN_PRIVATE_KEY env = Some key ->
  getFeeData chain (feeQueries w) = Return feeData ->
  HandleKyc.computeGasOverrides feeData = Return gasOverrides ->
  sendTransaction chain (List.length (submitted w))
    (registerIdentity HandleKyc.IDENTITY_REGISTRY userAddress identityAddress
       countryCode gasOverrides) = Return tx ->
  wait chain tx = Return receipt ->
  countryCode <> 0%Z ->
  let w' := {| submitted :=
                 submitted w
                 ++ [registerIdentity HandleKyc.IDENTITY_REGISTRY userAddress
                       identityAddress countryCode gasOverrides];
               feeQueries := S (feeQueries w) |} in
  HandleKyc.addToIdentityRegistry chain env userAddress identityAddress
    countryCode w
  = (Return (JsBool true), w')
  /\ Server.post_register chain env (Some userAddress) (Some identityAddress)
       (Some countryCode) w
     = (Return {| Server.status := 200;
                  Server.body := [("transactionHash"%string, JsBool true)] |},
        w')
  /\ JsBool true <> JsString (tx_hash tx).
Proof.
  intros Hkey Hfee Hquote Hsend Hwait Hcc w'.
  assert (Hrun : HandleKyc.addToIdentityRegistry chain env userAddress
                   identityAddress countryCode w = (Return (JsBool true), w')).
  { unfold HandleKyc.addToIdentityRegistry, bind, try_catch, new_Wallet.
    rewrite Hkey. unfold ret at 1.
    unfold HandleKyc.getGasOverrides, bind, provider_getFeeData, lift.
    rewrite Hfee, Hquote.
    unfold send. cbn [submitted feeQueries]. rewrite Hsend.
    unfold tx_wait, lift. rewrite Hwait. reflexivity. }
  split; [exact Hrun|]. split; [|discriminate].
  unfold Server.post_register. cbn [js_not bigint].
  destruct (Z.eqb_spec countryCode 0) as [|_]; [contradiction|].
  unfold try_catch, bind. rewrite Hrun. reflexivity.
Qed.

Lemma addToIdentityRegistry_returns_true_not_hash_witness :
  HandleKyc.addToIdentityRegistry
    (Examples.toy_chain Examples.toy_feeData [] true) Examples.toy_env
    Examples.user_address Examples.identity_contract 91 initial_world
  = (Return (JsBool true),
     {| submitted :=
          [registerIdentity HandleKyc.IDENTITY_REGISTRY Examples.user_address
             Examples.identity_contract 91
             {| maxFeePerGas := 65200000000;
                maxPriorityFeePerGas := 35200000000;
                gasLimit := None |}];
        feeQueries := 1 |}).
Proof.
  refine (proj1 (addToIdentityRegistry_returns_true_not_hash
            (Examples.toy_chain Examples.toy_feeData [] true) Examples.toy_env
            7%N Examples.user_address Examples.identity_contract 91
            initial_world Examples.toy_feeData
            {| maxFeePerGas := 65200000000;
               maxPriorityFeePerGas := 35200000000;
               gasLimit := None |}
            {| tx_hash := "0xabc" |}
            {| receipt_hash := "0xabc"; receipt_status := 1;
               receipt_logs := [] |}
            _ _ _ _ _ _)).
  - reflexivity.
  - reflexivity.
  - reflexivity.
  - reflexivity.
  - reflexivity.
  - lia.
Defined.

(** C10.  [mintTokens] overwrites its [tokenAddress] argument before using
    it: the run is the same whatever token address the caller supplies; the
    only transaction it can submit is a mint on the contract
    0x3eaC25f463ed170fC79EfD629A0BD93f9336A016; and when the environment is
    configured and the node accepts and mines that transaction, it returns
    the hash of that transaction. *)
Theorem mintTokens_ignores_tokenAddress
    (chain : Chain) (env : Env) (to : address) (amount : Z)
    (tokenAddress : address) (w : World) :
  let token := 0x3eaC25f463ed170fC79EfD629A0BD93f9336A016%N in
  let run := Invest.mintTokens chain env to amount tokenAddress w in
  (forall other : address,
      Invest.mintTokens chain env to amount other w = run)
  /\ (submitted (snd run) = submitted w
      \/ submitted (snd run) = submitted w ++ [mint token to amount])
  /\ (forall (key : PrivateKey) (url : string) (tx : TransactionResponse)
             (receipt : TransactionReceipt),
         ADMIN_PRIVATE_KEY env = Some key ->
         RPC_URL env = Some url ->
         sendTransaction chain (List.length (submitted w))
           (mint token to amount) = Return tx ->
         wait chain tx = Return receipt ->
         run = (Return (JsString (tx_hash tx)),
                {| submitted := submitted w ++ [mint token to amount];
                   feeQueries := feeQueries w |})).
Proof.
  intros token run. split; [reflexivity|]. split.
  - unfold run, Invest.mintTokens, try_catch, bind, checkEnvVariables,
      new_Wallet, ret, throw.
    destruct (ADMIN_PRIVATE_KEY env) as [key|]; [|now left].
    destruct (RPC_URL env) as [url|]; [|now left].
    unfold send. cbn [submitted feeQueries].
    fold token.
    destruct (sendTransaction chain (List.length (submitted w))
                (mint token to amount)) as [tx|e]; [|now right].
    unfold tx_wait, lift.
    destruct (wait chain tx) as [receipt|e]; now right.
  - intros key url tx receipt Hkey Hurl Hsend Hwait.
    unfold run, Invest.mintTokens, try_catch, bind.
    rewrite (checkEnvVariables_ok env key url w Hkey Hurl).
    unfold new_Wallet. rewrite Hkey. unfold ret at 1.
    unfold send. cbn [submitted feeQueries]. fold token. rewrite Hsend.
    unfold tx_wait, lift. rewrite Hwait. reflexivity.
Qed.

Lemma mintTokens_ignores_tokenAddress_witness :
  Invest.mintTokens (Examples.toy_chain Examples.toy_feeData [] true)
    Examples.toy_env Examples.user_address 1000 Examples.identity_contract
    initial_world
  = (Return (JsString "0xabc"),
     {| submitted := [mint 0x3eaC25f463ed170fC79EfD629A0BD93f9336A016%N
                        Examples.user_address 1000];
        feeQueries := 0 |}).
Proof.
  exact (proj2 (proj2 (mintTokens_ignores_tokenAddress
           (Examples.toy_chain Examples.toy_feeData [] true) Examples.toy_env
           Examples.user_address 1000 Examples.identity_contract
           initial_world))
           7%N "https://rpc-amoy.polygon.technology"%string
           {| tx_hash := "0xabc" |}
           {| receipt_hash := "0xabc"; receipt_status := 1;
              receipt_logs := [] |}
           eq_refl eq_refl eq_refl eq_refl).
Defined.

(* ================================================================= *)
(** * Further properties of the fee estimator *)

(** X1.  Every snapshot the estimator accepts gets a quote, and the quoted
    priority fee is never below 35.2 Gwei, never below the reported priority
    fee, and is the reported fee or the floor raised by ten percent rounded
    down; the quote carries no gas limit. *)
Theorem quoted_priority_fee_bounds (feeData : FeeData) :
  js_not (feeData_maxFeePerGas feeData) = false ->
  js_not (feeData_maxPriorityFeePerGas feeData) = false ->
  exists quote : GasOverrides,
    HandleKyc.computeGasOverrides feeData = Return quote
    /\ (35200000000 <= maxPriorityFeePerGas quote)%Z
    /\ (bigint (feeData_maxPriorityFeePerGas feeData)
        <= maxPriorityFeePerGas quote)%Z
    /\ (100 * maxPriorityFeePerGas quote
        <= 110 * Z.max (bigint (feeData_maxPriorityFeePerGas feeData))
                       32000000000
        < 100 * maxPriorityFeePerGas quote + 100)%Z
    /\ gasLimit quote = None.
Proof.
  intros Hm Hp. unfold HandleKyc.computeGasOverrides. rewrite Hm, Hp.
  cbn [orb]. eexists. split; [reflexivity|].
  cbn [maxPriorityFeePerGas gasLimit].
  change HandleKyc.amoyMinPriorityFee with 32000000000%Z.
  set (p := bigint (feeData_maxPriorityFeePerGas feeData)).
  assert (Hsel : (if (p <? 32000000000)%Z then 32000000000%Z else p)
                 = Z.max p 32000000000).
  { destruct (Z.ltb_spec p 32000000000); lia. }
  rewrite Hsel.
  assert (Hpos : (0 <= Z.max p 32000000000 * 110)%Z) by lia.
  rewrite Z.quot_div_nonneg by lia.
  pose proof (Z.div_mod (Z.max p 32000000000 * 110) 100 ltac:(lia)) as Hdm.
  pose proof (Z.mod_pos_bound (Z.max p 32000000000 * 110) 100 ltac:(lia)) as Hb.
  repeat split; lia.
Qed.

Lemma quoted_priority_fee_bounds_witness :
  exists quote : GasOverrides,
    HandleKyc.computeGasOverrides
      {| feeData_maxFeePerGas := Some 90000000001%Z;
         feeData_maxPriorityFeePerGas := Some 40000000001%Z |} = Return quote
    /\ (35200000000 <= maxPriorityFeePerGas quote)%Z
    /\ (40000000001 <= maxPriorityFeePerGas quote)%Z
    /\ (100 * maxPriorityFeePerGas quote
        <= 110 * Z.max 40000000001 32000000000
        < 100 * maxPriorityFeePerGas quote + 100)%Z
    /\ gasLimit quote = None.
Proof.
  exact (quoted_priority_fee_bounds
           {| feeData_maxFeePerGas := Some 90000000001%Z;
              feeData_maxPriorityFeePerGas := Some 40000000001%Z |}
           eq_refl eq_refl).
Defined.

(** X2.  Whatever the provider answers, [getGasOverrides] makes exactly one
    fee query and submits nothing; when the provider's [getFeeData] throws,
    that very error is what [getGasOverrides] throws. *)
Theorem getGasOverrides_one_query_no_transaction (chain : Chain) (w : World) :
  snd (HandleKyc.getGasOverrides chain w)
  = {| submitted := submitted w; feeQueries := S (feeQueries w) |}
  /\ snd (HandleKycV6.getGasOverrides chain w)
     = {| submitted := submitted w; feeQueries := S (feeQueries w) |}
  /\ (forall e : Exn,
         getFeeData chain (feeQueries w) = Throw e ->
         fst (HandleKyc.getGasOverrides chain w) = Throw e).
Proof.
  unfold HandleKycV6.getGasOverrides, HandleKyc.getGasOverrides, bind,
    provider_getFeeData, lift.
  destruct (getFeeData chain (feeQueries w)) as [fd|e].
  - change (HandleKycV6.computeGasOverrides fd)
      with (HandleKyc.computeGasOverrides fd).
    repeat split; try reflexivity. discriminate.
  - repeat split. intros e' He. now injection He as ->.
Qed.

(* ================================================================= *)
(** * Further properties of provisioning *)

Lemma AbiCoder_encode_address (a : address) :
  AbiCoder_encode [abi_address (Addr a)] = Some (word a).
Proof.
  unfold AbiCoder_encode. cbn [List.length pack getAddress app].
  now rewrite app_nil_r.
Qed.

Lemma configureAndTransferIdentity_same (chain : Chain) (env : Env)
    (identityAddress userAddress : address) :
  HandleKycV6.configureAndTransferIdentity chain env (Some identityAddress)
    userAddress
  = HandleKyc.configureAndTransferIdentity chain env identityAddress
      userAddress.
Proof. reflexivity. Qed.

Section KeyConfiguration.

Variables (chain : Chain) (env : Env) (key : PrivateKey).
Variables (identityAddress userAddress : address) (w : World).
Variables (feeData1 : FeeData) (gasOverrides1 : GasOverrides).

(** The key hash of the user: [keccak256(abi.encode(["address"], [user]))]. *)
Let userKey : bytes := keccak256 (word userAddress).

Let managementGrant : Call :=
  addKey identityAddress userKey 1 1 gasOverrides1.

Hypothesis env_key : ADMIN_PRIVATE_KEY env = Some key.
Hypothesis fee_answer1 : getFeeData chain (feeQueries w) = Return feeData1.
Hypothesis fee_quote1 :
  HandleKyc.computeGasOverrides feeData1 = Return gasOverrides1.

Lemma configure_until_first_submission :
  HandleKyc.configureAndTransferIdentity chain env identityAddress
    userAddress w
  = try_catch
      (tx1 <- send chain managementGrant ;;
       _ <- tx_wait chain tx1 ;;
       gasOverrides <- HandleKyc.getGasOverrides chain ;;
       tx2 <- send chain (addKey identityAddress userKey 3 1 gasOverrides) ;;
       _ <- tx_wait chain tx2 ;;
       ret tt)
      (fun error => throw error)
      {| submitted := submitted w; feeQueries := S (feeQueries w) |}.
Proof.
  unfold HandleKyc.configureAndTransferIdentity, try_catch.
  unfold bind at 1, new_Wallet. rewrite env_key. unfold ret at 1.
  unfold bind at 1, lift at 1. rewrite AbiCoder_encode_address.
  cbn [encoded_or_throw].
  unfold bind at 1. unfold HandleKyc.getGasOverrides at 1.
  unfold bind at 1, provider_getFeeData at 1, lift at 1.
  rewrite fee_answer1, fee_quote1.
  reflexivity.
Qed.

Lemma configure_first_grant_fails (e : Exn) :
  sendTransaction chain (List.length (submitted w)) managementGrant = Throw e
  \/ (exists tx1,
         sendTransaction chain (List.length (submitted w)) managementGrant
         = Return tx1
         /\ wait chain tx1 = Throw e) ->
  HandleKyc.configureAndTransferIdentity chain env identityAddress
    userAddress w
  = (Throw e,
     {| submitted := submitted w ++ [managementGrant];
        feeQueries := S (feeQueries w) |}).
Proof.
  intros Hfail. rewrite configure_until_first_submission.
  unfold try_catch, bind at 1, send at 1. cbn [submitted feeQueries].
  destruct Hfail as [Hsend|(tx1 & Hsend & Hwait)]; rewrite Hsend.
  - reflexivity.
  - unfold bind at 1, tx_wait at 1, lift at 1. rewrite Hwait. reflexivity.
Qed.

(** X3.  When the MANAGEMENT grant is rejected by the node, or is submitted
    but its confirmation fails, [configureAndTransferIdentity] throws that
    error and has attempted nothing else: the CLAIM_SIGNER grant is never
    submitted, no second fee quote is fetched, and nothing is undone. *)
Theorem configure_stops_after_failed_management_grant (e : Exn) :
  sendTransaction chain (List.length (submitted w)) managementGrant = Throw e
  \/ (exists tx1,
         sendTransaction chain (List.length (submitted w)) managementGrant
         = Return tx1
         /\ wait chain tx1 = Throw e) ->
  HandleKyc.configureAndTransferIdentity chain env identityAddress
    userAddress w
  = (Throw e,
     {| submitted := submitted w ++ [managementGrant];
        feeQueries := S (feeQueries w) |})
  /\ HandleKycV6.configureAndTransferIdentity chain env (Some identityAddress)
       userAddress w
     = (Throw e,
        {| submitted := submitted w ++ [managementGrant];
           feeQueries := S (feeQueries w) |}).
Proof.
  intros Hfail. rewrite configureAndTransferIdentity_same.
  split; exact (configure_first_grant_fails e Hfail).
Qed.

Variables (tx1 tx2 : TransactionResponse).
Variables (receipt1 receipt2 : TransactionReceipt).
Variables (feeData2 : FeeData) (gasOverrides2 : GasOverrides).

Let claimGrant : Call :=
  addKey identityAddress userKey 3 1 gasOverrides2.

Hypothesis grant1_sent :
  sendTransaction chain (List.length (submitted w)) managementGrant
  = Return tx1.
Hypothesis grant1_mined : wait chain tx1 = Return receipt1.
Hypothesis fee_answer2 :
  getFeeData chain (S (feeQueries w)) = Return feeData2.
Hypothesis fee_quote2 :
  HandleKyc.computeGasOverrides feeData2 = Return gasOverrides2.
Hypothesis grant2_sent :
  sendTransaction chain (S (List.length (submitted w))) claimGrant
  = Return tx2.
Hypothesis grant2_mined : wait chain tx2 = Return receipt2.

Lemma configure_succeeds :
  HandleKyc.configureAndTransferIdentity chain env identityAddress
    userAddress w
  = (Return tt,
     {| submitted := submitted w ++ [managementGrant; claimGrant];
        feeQueries := S (S (feeQueries w)) |}).
Proof.
  rewrite configure_until_first_submission.
  unfold try_catch, bind at 1, send at 1. cbn [submitted feeQueries].
  rewrite grant1_sent.
  unfold bind at 1, tx_wait at 1, lift at 1. rewrite grant1_mined.
  unfold bind at 1, HandleKyc.getGasOverrides at 1.
  unfold bind at 1, provider_getFeeData at 1, lift at 1.
  cbn [submitted feeQueries].
  rewrite fee_answer2, fee_quote2.
  unfold bind at 1, send at 1. cbn [submitted feeQueries].
  rewrite length_app. cbn [List.length]. rewrite Nat.add_1_r.
  fold claimGrant. rewrite grant2_sent.
  unfold bind at 1, tx_wait at 1, lift at 1. rewrite grant2_mined.
  unfold ret. rewrite <- app_assoc. reflexivity.
Qed.

(** X4.  When both grants go through, [configureAndTransferIdentity] has
    submitted exactly two addKey transactions on the identity contract, in
    this order: the user's key hash with purpose MANAGEMENT (1), then the
    same key hash with purpose CLAIM_SIGNER (3), both of type ECDSA (1), the
    first with the quote of the first fee query and the second with the
    quote of a second, later fee query. *)
Theorem configure_grants_management_then_claim_key :
  HandleKyc.configureAndTransferIdentity chain env identityAddress
    userAddress w
  = (Return tt,
     {| submitted :=
          submitted w
          ++ [addKey identityAddress (keccak256 (word userAddress)) 1 1
                gasOverrides1;
              addKey identityAddress (keccak256 (word userAddress)) 3 1
                gasOverrides2];
        feeQueries := S (S (feeQueries w)) |})
  /\ HandleKycV6.configureAndTransferIdentity chain env (Some identityAddress)
       userAddress w
     = HandleKyc.configureAndTransferIdentity chain env identityAddress
         userAddress w.
Proof. split; [exact configure_succeeds|reflexivity]. Qed.

End KeyConfiguration.

Lemma configure_stops_after_failed_management_grant_witness :
  HandleKyc.configureAndTransferIdentity
    (Scenarios.chain_rejecting_addKey []) Examples.toy_env 0x1234%N
    Examples.user_address initial_world
  = (Throw (Error "insufficient funds"),
     {| submitted :=
          [addKey 0x1234%N (keccak256 (word Examples.user_address)) 1 1
             Scenarios.toy_quote];
        feeQueries := 1 |}).
Proof.
  refine (proj1 (configure_stops_after_failed_management_grant
            (Scenarios.chain_rejecting_addKey []) Examples.toy_env 7%N
            0x1234%N Examples.user_address initial_world Examples.toy_feeData
            Scenarios.toy_quote eq_refl eq_refl eq_refl
            (Error "insufficient funds") _)).
  left. reflexivity.
Defined.

Lemma configure_grants_management_then_claim_key_witness :
  HandleKyc.configureAndTransferIdentity
    (Examples.toy_chain Examples.toy_feeData [] true) Examples.toy_env
    0x1234%N Examples.user_address initial_world
  = (Return tt,
     {| submitted :=
          [addKey 0x1234%N (keccak256 (word Examples.user_address)) 1 1
             Scenarios.toy_quote;
           addKey 0x1234%N (keccak256 (word Examples.user_address)) 3 1
             Scenarios.toy_quote];
        feeQueries := 2 |}).
Proof.
  exact (proj1 (configure_grants_management_then_claim_key
           (Examples.toy_chain Examples.toy_feeData [] true) Examples.toy_env
           7%N 0x1234%N Examples.user_address initial_world
           Examples.toy_feeData Scenarios.toy_quote
           eq_refl eq_refl eq_refl
           Scenarios.toy_tx Scenarios.toy_tx
           (Scenarios.toy_receipt []) (Scenarios.toy_receipt [])
           Examples.toy_feeData Scenarios.toy_quote
           eq_refl eq_refl eq_refl eq_refl eq_refl eq_refl)).
Defined.

Section LoopAndFind.

Variable iface : Interface.

(** Where no WalletLinked event has an unreadable identity, the loop leaves
    the identity of the entry [find] selects. *)
Lemma scanWalletLinked_find_identity (logs : list Log) :
  (forall (log : Log) (event : string),
      In log logs -> iface log = parsed_unreadable event ->
      event <> "WalletLinked"%string) ->
  HandleKyc.scanWalletLinked iface logs
  = identity_of_found iface (find (HandleKycV6.isWalletLinked iface) logs).
Proof.
  induction logs as [|log logs IH]; intros Hread; [reflexivity|].
  assert (IH' := IH (fun l ev Hl => Hread l ev (or_intror Hl))).
  cbn [HandleKyc.scanWalletLinked find].
  unfold HandleKycV6.isWalletLinked at 1.
  destruct (iface log) as [| |d|event] eqn:Hlog; try exact IH'.
  - destruct (String.eqb (name d) "WalletLinked"); [|exact IH'].
    cbn [identity_of_found]. now rewrite Hlog.
  - destruct (String.eqb_spec event "WalletLinked") as [Hn|Hn]; [|exact IH'].
    exfalso. exact (Hread log event (or_introl eq_refl) Hlog Hn).
Qed.

(** At a WalletLinked event whose identity cannot be read, [find] stops and
    the loop goes on. *)
Lemma scanWalletLinked_past_unreadable (pre post : list Log) (log : Log) :
  (forall l, In l pre -> ~ Spec.decodes_WalletLinked iface l) ->
  iface log = parsed_unreadable "WalletLinked" ->
  find (HandleKycV6.isWalletLinked iface) (pre ++ log :: post) = Some log
  /\ HandleKyc.scanWalletLinked iface (pre ++ log :: post)
     = HandleKyc.scanWalletLinked iface post.
Proof.
  intros Hpre Hlog. split.
  - apply find_isWalletLinked_first; [assumption|]. now right.
  - rewrite scanWalletLinked_skip by assumption.
    cbn [HandleKyc.scanWalletLinked]. now rewrite Hlog.
Qed.

End LoopAndFind.

(** X5.  The [for] loop of [handleKyc.js] and the [find] of
    [handleKycV6.js] compared, on every interface and every list of logs.
    Where no entry is a WalletLinked event whose [identity] argument cannot
    be read, they agree: the value the loop leaves in [identityAddress] is
    the [identity] argument of the entry that [find] selects, and it is
    undefined when [find] selects nothing.  They part at a first
    WalletLinked event whose [identity] cannot be read: [find] selects that
    entry, while the loop, whose read throws inside its [try], goes on with
    the entries after it. *)
Theorem scanWalletLinked_and_find (iface : Interface) (logs : list Log) :
  ((forall (log : Log) (event : string),
       In log logs -> iface log = parsed_unreadable event ->
       event <> "WalletLinked"%string) ->
   HandleKyc.scanWalletLinked iface logs
   = identity_of_found iface (find (HandleKycV6.isWalletLinked iface) logs))
  /\ (forall (pre post : list Log) (log : Log),
         logs = pre ++ log :: post ->
         (forall l, In l pre -> ~ Spec.decodes_WalletLinked iface l) ->
         iface log = parsed_unreadable "WalletLinked" ->
         find (HandleKycV6.isWalletLinked iface) logs = Some log
         /\ HandleKyc.scanWalletLinked iface logs
            = HandleKyc.scanWalletLinked iface post).
Proof.
  split.
  - exact (scanWalletLinked_find_identity iface logs).
  - intros pre post log -> Hpre Hlog.
    exact (scanWalletLinked_past_unreadable iface pre post log Hpre Hlog).
Qed.

(** The two at work on a receipt whose first WalletLinked event has an
    unreadable identity and whose second one is readable: [find] selects
    the first, the loop returns the identity of the second. *)
Lemma scanWalletLinked_and_find_witness :
  find (HandleKycV6.isWalletLinked Scenarios.interface_with_unreadable)
    Scenarios.logs_with_unreadable_event
  = Some (Examples.toy_log 5%N x05)
  /\ HandleKyc.scanWalletLinked Scenarios.interface_with_unreadable
       Scenarios.logs_with_unreadable_event
     = Some 0x1234%N.
Proof.
  refine (proj2 (scanWalletLinked_and_find
                   Scenarios.interface_with_unreadable
                   Scenarios.logs_with_unreadable_event)
            [Examples.toy_log 5%N x02] [Examples.toy_log 0x1234%N x01]
            (Examples.toy_log 5%N x05) eq_refl _ eq_refl).
  intros l Hin Hdec. cbn in Hin.
  destruct Hin as [<-|[]].
  destruct Hdec as [(d & Hd & Hn)|Hd]; cbn in Hd; [|discriminate].
  injection Hd as <-. discriminate.
Defined.

Section EndToEnd.

Variables (chain : Chain) (env : Env) (iface : Interface).
Variables (userAddress : address) (salt : string) (w : World).
Variables (key : PrivateKey) (url : string).
Variables (feeData0 feeData1 : FeeData).
Variables (gasOverrides0 gasOverrides1 : GasOverrides).
Variables (tx : TransactionResponse) (receipt : TransactionReceipt).
Variable identityAddress : address.

Let creation : Call :=
  createIdentityWithManagementKeys HandleKyc.ID_FACTORY userAddress salt
    [keccak256 (word 0x0af700A3026adFddC10f7Aa8Ba2419e8503592f7%N)]
    gasOverrides0.

Let managementGrant : Call :=
  addKey identityAddress (keccak256 (word userAddress)) 1 1 gasOverrides1.

Hypothesis env_key : ADMIN_PRIVATE_KEY env = Some key.
Hypothesis env_url : RPC_URL env = Some url.
Hypothesis fee_answer0 : getFeeData chain (feeQueries w) = Return feeData0.
Hypothesis fee_quote0 :
  HandleKyc.computeGasOverrides feeData0 = Return gasOverrides0.
Hypothesis creation_sent :
  sendTransaction chain (List.length (submitted w)) creation = Return tx.
Hypothesis creation_mined : wait chain tx = Return receipt.
Hypothesis event_found :
  HandleKyc.scanWalletLinked iface (receipt_logs receipt)
  = Some identityAddress.
Hypothesis fee_answer1 :
  getFeeData chain (S (feeQueries w)) = Return feeData1.
Hypothesis fee_quote1 :
  HandleKyc.computeGasOverrides feeData1 = Return gasOverrides1.

Lemma createIdentity_until_configuration :
  HandleKyc.createIdentity chain env iface userAddress salt w
  = (let (configured, w') :=
       HandleKyc.configureAndTransferIdentity chain env identityAddress
         userAddress
         {| submitted := submitted w ++ [creation];
            feeQueries := S (feeQueries w) |} in
     match configured with
     | Return _ => (Return identityAddress, w')
     | Throw e => (Throw e, w')
     end).
Proof.
  rewrite (createIdentity_after_receipt chain env iface userAddress salt w
             key url feeData0 gasOverrides0 tx receipt env_key env_url
             fee_answer0 fee_quote0 creation_sent creation_mined).
  rewrite event_found. unfold try_catch, bind, ret, throw.
  fold creation.
  destruct (HandleKyc.configureAndTransferIdentity chain env identityAddress
              userAddress
              {| submitted := submitted w ++ [creation];
                 feeQueries := S (feeQueries w) |}) as [[[]|e] w'];
    reflexivity.
Qed.

Lemma length_after_creation :
  List.length (submitted w ++ [creation]) = S (List.length (submitted w)).
Proof. rewrite length_app. cbn. lia. Qed.

(** X6.  No rollback.  When the identity has been created and its address
    extracted but the node rejects the MANAGEMENT grant, [createIdentity]
    throws the node's error; the creation transaction stays submitted, the
    CLAIM_SIGNER grant is never attempted and no compensating transaction is
    sent: the identity exists and is left unconfigured. *)
Theorem createIdentity_leaves_identity_unconfigured (e : Exn) :
  sendTransaction chain (S (List.length (submitted w))) managementGrant
  = Throw e ->
  HandleKyc.createIdentity chain env iface userAddress salt w
  = (Throw e,
     {| submitted := submitted w ++ [creation; managementGrant];
        feeQueries := S (S (feeQueries w)) |}).
Proof.
  intros Hrej. rewrite createIdentity_until_configuration.
  rewrite (configure_first_grant_fails chain env key
             identityAddress userAddress
             {| submitted := submitted w ++ [creation];
                feeQueries := S (feeQueries w) |}
             feeData1 gasOverrides1 env_key fee_answer1 fee_quote1 e
             (or_introl
                (eq_trans
                   (f_equal (fun n => sendTransaction chain n managementGrant)
                      length_after_creation) Hrej))).
  cbn [submitted feeQueries]. rewrite <- app_assoc. reflexivity.
Qed.

Variables (feeData2 : FeeData) (gasOverrides2 : GasOverrides).
Variables (tx1 tx2 : TransactionResponse).
Variables (receipt1 receipt2 : TransactionReceipt).

Let claimGrant : Call :=
  addKey identityAddress (keccak256 (word userAddress)) 3 1 gasOverrides2.

Hypothesis grant1_sent :
  sendTransaction chain (S (List.length (submitted w))) managementGrant
  = Return tx1.
Hypothesis grant1_mined : wait chain tx1 = Return receipt1.
Hypothesis fee_answer2 :
  getFeeData chain (S (S (feeQueries w))) = Return feeData2.
Hypothesis fee_quote2 :
  HandleKyc.computeGasOverrides feeData2 = Return gasOverrides2.
Hypothesis grant2_sent :
  sendTransaction chain (S (S (List.length (submitted w)))) claimGrant
  = Return tx2.
Hypothesis grant2_mined : wait chain tx2 = Return receipt2.

(** X7.  A provisioning run in which every step succeeds returns the
    extracted identity address after exactly three transactions, in order:
    the creation on the factory, the MANAGEMENT grant and the CLAIM_SIGNER
    grant on the new identity; it has made three fee queries, one before
    each transaction, and each transaction carries the quote of its own
    query. *)
Theorem createIdentity_runs_three_transactions :
  HandleKyc.createIdentity chain env iface userAddress salt w
  = (Return identityAddress,
     {| submitted :=
          submitted w
          ++ [createIdentityWithManagementKeys HandleKyc.ID_FACTORY
                userAddress salt
                [keccak256 (word 0x0af700A3026adFddC10f7Aa8Ba2419e8503592f7%N)]
                gasOverrides0;
              addKey identityAddress (keccak256 (word userAddress)) 1 1
                gasOverrides1;
              addKey identityAddress (keccak256 (word userAddress)) 3 1
                gasOverrides2];
        feeQueries := S (S (S (feeQueries w))) |}).
Proof.
  rewrite createIdentity_until_configuration.
  rewrite (configure_succeeds chain env key identityAddress userAddress
             {| submitted := submitted w ++ [creation];
                feeQueries := S (feeQueries w) |}
             feeData1 gasOverrides1 env_key fee_answer1 fee_quote1
             tx1 tx2 receipt1 receipt2 feeData2 gasOverrides2
             (eq_trans
                (f_equal (fun n => sendTransaction chain n managementGrant)
                   length_after_creation) grant1_sent)
             grant1_mined fee_answer2 fee_quote2
             (eq_trans
                (f_equal (fun n => sendTransaction chain (S n) claimGrant)
                   length_after_creation) grant2_sent)
             grant2_mined).
  cbn [submitted feeQueries]. rewrite <- app_assoc. reflexivity.
Qed.

End EndToEnd.

Lemma createIdentity_leaves_identity_unconfigured_witness :
  HandleKyc.createIdentity
    (Scenarios.chain_rejecting_addKey Examples.logs_with_event)
    Examples.toy_env Examples.toy_interface Examples.user_address "yash11"
    initial_world
  = (Throw (Error "insufficient funds"),
     {| submitted :=
          [createIdentityWithManagementKeys HandleKyc.ID_FACTORY
             Examples.user_address "yash11"
             [keccak256 (word 0x0af700A3026adFddC10f7Aa8Ba2419e8503592f7%N)]
             Scenarios.toy_quote;
           addKey 0x1234%N (keccak256 (word Examples.user_address)) 1 1
             Scenarios.toy_quote];
        feeQueries := 2 |}).
Proof.
  exact (createIdentity_leaves_identity_unconfigured
           (Scenarios.chain_rejecting_addKey Examples.logs_with_event)
           Examples.toy_env Examples.toy_interface Examples.user_address
           "yash11" initial_world 7%N Scenarios.toy_url
           Examples.toy_feeData Examples.toy_feeData
           Scenarios.toy_quote Scenarios.toy_quote
           Scenarios.toy_tx (Scenarios.toy_receipt Examples.logs_with_event)
           0x1234%N
           eq_refl eq_refl eq_refl eq_refl eq_refl eq_refl eq_refl eq_refl
           eq_refl (Error "insufficient funds") eq_refl).
Defined.

Lemma createIdentity_runs_three_transactions_witness :
  HandleKyc.createIdentity
    (Examples.toy_chain Examples.toy_feeData Examples.logs_with_event true)
    Examples.toy_env Examples.toy_interface Examples.user_address "yash11"
    initial_world
  = (Return 0x1234%N,
     {| submitted :=
          [createIdentityWithManagementKeys HandleKyc.ID_FACTORY
             Examples.user_address "yash11"
             [keccak256 (word 0x0af700A3026adFddC10f7Aa8Ba2419e8503592f7%N)]
             Scenarios.toy_quote;
           addKey 0x1234%N (keccak256 (word Examples.user_address)) 1 1
             Scenarios.toy_quote;
           addKey 0x1234%N (keccak256 (word Examples.user_address)) 3 1
             Scenarios.toy_quote];
        feeQueries := 3 |}).
Proof.
  exact (createIdentity_runs_three_transactions
           (Examples.toy_chain Examples.toy_feeData Examples.logs_with_event
              true)
           Examples.toy_env Examples.toy_interface Examples.user_address
           "yash11" initial_world 7%N Scenarios.toy_url
           Examples.toy_feeData Examples.toy_feeData
           Scenarios.toy_quote Scenarios.toy_quote
           Scenarios.toy_tx (Scenarios.toy_receipt Examples.logs_with_event)
           0x1234%N
           eq_refl eq_refl eq_refl eq_refl eq_refl eq_refl eq_refl eq_refl
           eq_refl
           Examples.toy_feeData Scenarios.toy_quote
           Scenarios.toy_tx Scenarios.toy_tx
           (Scenarios.toy_receipt Examples.logs_with_event)
           (Scenarios.toy_receipt Examples.logs_with_event)
           eq_refl eq_refl eq_refl eq_refl eq_refl eq_refl).
Defined.

(* ================================================================= *)
(** * The environment check *)

(** X8.  When the issuer key or the RPC endpoint is missing from the
    environment, every operation that starts with [checkEnvVariables]
    ([createIdentity] and [submitClaim] of both handler files, [mintTokens]
    and the legacy [registerIdentity]) throws "Missing required environment
    variables (ADMIN_PRIVATE_KEY or RPC_URL)." and has touched nothing: no
    fee query, no contract call, no transaction. *)
Theorem operations_refuse_incomplete_environment
    (chain : Chain) (env : Env) (iface : Interface) (w : World)
    (userAddress identityAddress : address) (salt : string)
    (userWallet : PrivateKey) (claim : Claim) (amount countryCode : Z) :
  ADMIN_PRIVATE_KEY env = None \/ RPC_URL env = None ->
  let refused : Exn :=
    Error "Missing required environment variables (ADMIN_PRIVATE_KEY or RPC_URL)." in
  HandleKyc.createIdentity chain env iface userAddress salt w
  = (Throw refused, w)
  /\ HandleKycV6.createIdentity chain env iface userAddress salt w
     = (Throw refused, w)
  /\ HandleKyc.submitClaim chain env identityAddress userWallet claim w
     = (Throw refused, w)
  /\ HandleKycV6.submitClaim chain env identityAddress userWallet claim w
     = (Throw refused, w)
  /\ Invest.mintTokens chain env userAddress amount identityAddress w
     = (Throw refused, w)
  /\ DeployIdentity.registerIdentity chain env identityAddress userAddress
       countryCode w
     = (Throw refused, w).
Proof.
  intros Hmissing refused.
  assert (Hcheck : checkEnvVariables env w = (Throw refused, w)).
  { unfold checkEnvVariables.
    destruct Hmissing as [Hk|Hu].
    - now rewrite Hk.
    - rewrite Hu. now destruct (ADMIN_PRIVATE_KEY env). }
  unfold HandleKyc.createIdentity, HandleKycV6.createIdentity,
    HandleKyc.submitClaim, HandleKycV6.submitClaim, Invest.mintTokens,
    DeployIdentity.registerIdentity, try_catch.
  unfold bind at 1. rewrite Hcheck.
  unfold bind at 1. rewrite Hcheck.
  unfold bind at 1. rewrite Hcheck.
  unfold bind at 1. rewrite Hcheck.
  unfold bind at 1. rewrite Hcheck.
  unfold bind at 1. rewrite Hcheck.
  repeat split.
Qed.

Lemma operations_refuse_incomplete_environment_witness :
  HandleKyc.createIdentity (Examples.toy_chain Examples.toy_feeData [] true)
    Scenarios.env_without_url Examples.toy_interface Examples.user_address
    "yash11" initial_world
  = (Throw (Error "Missing required environment variables (ADMIN_PRIVATE_KEY or RPC_URL)."),
     initial_world).
Proof.
  refine (proj1 (operations_refuse_incomplete_environment
            (Examples.toy_chain Examples.toy_feeData [] true)
            Scenarios.env_without_url Examples.toy_interface initial_world
            Examples.user_address Examples.identity_contract "yash11" 9%N
            Examples.tampered_claim 1000 91 _)).
  right. reflexivity.
Defined.

(* ================================================================= *)
(** * The two provisioning implementations *)

Section TwoImplementations.

Variables (chain : Chain) (env : Env).

(** [ID_FACTORY_ABI] of [handleKyc.js] and [IDENTITY_REGISTRY_ABI] of
    [handleKycV6.js]: the two files parse the receipt of the same factory
    transaction with different interfaces. *)
Variables (factoryInterface registryInterface : Interface).

Lemma find_isWalletLinked_ext (logs : list Log) :
  (forall log, registryInterface log = factoryInterface log) ->
  find (HandleKycV6.isWalletLinked registryInterface) logs
  = find (HandleKycV6.isWalletLinked factoryInterface) logs.
Proof.
  intros Hsame. induction logs as [|log logs IH]; [reflexivity|].
  cbn [find]. unfold HandleKycV6.isWalletLinked at 1 3.
  rewrite Hsame, IH. reflexivity.
Qed.

Lemma find_isWalletLinked_parsed (logs : list Log) (log : Log) :
  (forall (log : Log) (d : LogDescription),
      factoryInterface log = parsed d -> name d = "WalletLinked"%string ->
      args_identity d <> None) ->
  (forall (log : Log) (event : string),
      factoryInterface log = parsed_unreadable event ->
      event <> "WalletLinked"%string) ->
  find (HandleKycV6.isWalletLinked factoryInterface) logs = Some log ->
  exists (d : LogDescription) (a : address),
    factoryInterface log = parsed d /\ name d = "WalletLinked"%string
    /\ args_identity d = Some a.
Proof.
  intros Hidentity Hread Hfind. apply find_some in Hfind as [_ Hw].
  apply isWalletLinked_decodes in Hw as [(d & Hd & Hn)|Hd].
  - pose proof (Hidentity log d Hd Hn) as Hid.
    destruct (args_identity d) as [a|] eqn:Ha; [|contradiction].
    exists d, a. repeat split; assumption.
  - exfalso. exact (Hread log _ Hd eq_refl).
Qed.

(** X9.  [createIdentity] of [handleKyc.js] parses the receipt with the
    factory interface, [createIdentity] of [handleKycV6.js] with the
    registry interface.
    - If the registry interface decodes every log as the factory interface
      does, and each WalletLinked event it decodes carries an [identity]
      argument that can be read, the two are the same operation: on every
      node, environment, user, salt and starting world they submit the same
      transactions, make the same fee queries and end the same way, with
      the same address or the same error.
    - If the registry interface decodes no log to a WalletLinked event,
      [createIdentity] of [handleKycV6.js] returns no address, whatever the
      node answers; where the creation transaction is mined it ends with
      "Could not find the WalletLinked event in the transaction receipt."
      after submitting that transaction alone. *)
Theorem createIdentity_implementations_compared
    (userAddress : address) (salt : string) (w : World) :
  ((forall log, registryInterface log = factoryInterface log) ->
   (forall (log : Log) (d : LogDescription),
       factoryInterface log = parsed d -> name d = "WalletLinked"%string ->
       args_identity d <> None) ->
   (forall (log : Log) (event : string),
       factoryInterface log = parsed_unreadable event ->
       event <> "WalletLinked"%string) ->
   HandleKycV6.createIdentity chain env registryInterface userAddress salt w
   = (let (outcome, w') :=
        HandleKyc.createIdentity chain env factoryInterface userAddress salt
          w in
      match outcome with
      | Return identityAddress => (Return (Some identityAddress), w')
      | Throw e => (Throw e, w')
      end))
  /\ ((forall log, ~ Spec.decodes_WalletLinked registryInterface log) ->
      (exists e : Exn,
          fst (HandleKycV6.createIdentity chain env registryInterface
                 userAddress salt w) = Throw e)
      /\ (forall (key : PrivateKey) (url : string) (feeData : FeeData)
                 (gasOverrides : GasOverrides) (tx : TransactionResponse)
                 (receipt : TransactionReceipt),
             ADMIN_PRIVATE_KEY env = Some key ->
             RPC_URL env = Some url ->
             getFeeData chain (feeQueries w) = Return feeData ->
             HandleKyc.computeGasOverrides feeData = Return gasOverrides ->
             let creation :=
               createIdentityWithManagementKeys HandleKyc.ID_FACTORY
                 userAddress salt
                 [keccak256 (word 0x0af700A3026adFddC10f7Aa8Ba2419e8503592f7%N)]
                 gasOverrides in
             sendTransaction chain (List.length (submitted w)) creation
             = Return tx ->
             wait chain tx = Return receipt ->
             HandleKycV6.createIdentity chain env registryInterface
               userAddress salt w
             = (Throw (Error "Could not find the WalletLinked event in the transaction receipt."),
                {| submitted := submitted w ++ [creation];
                   feeQueries := S (feeQueries w) |}))).
Proof.
  split.
  - intros Hsame Hidentity Hread.
    unfold HandleKycV6.createIdentity, HandleKyc.createIdentity, try_catch,
      bind.
    destruct (checkEnvVariables env w) as [[[]|e] w0]; [|reflexivity].
    destruct (new_Wallet env w0) as [[key|e] w1]; [|reflexivity].
    change (HandleKycV6.getGasOverrides chain)
      with (HandleKyc.getGasOverrides chain).
    destruct (HandleKyc.getGasOverrides chain w1) as [[g|e] w2];
      [|reflexivity].
    match goal with
    | |- context [lift ?c w2] => destruct (lift c w2) as [[enc|e] w3]
    end; [|reflexivity].
    change HandleKycV6.ID_FACTORY with HandleKyc.ID_FACTORY.
    match goal with
    | |- context [send chain ?c w3] =>
        destruct (send chain c w3) as [[tx|e] w4]
    end; [|reflexivity].
    destruct (tx_wait chain tx w4) as [[receipt|e] w5]; [|reflexivity].
    rewrite (find_isWalletLinked_ext (receipt_logs receipt) Hsame).
    rewrite (scanWalletLinked_find_identity factoryInterface
               (receipt_logs receipt)
               (fun log event _ Hlog => Hread log event Hlog)).
    destruct (find (HandleKycV6.isWalletLinked factoryInterface)
                (receipt_logs receipt)) as [log|] eqn:Hfind; [|reflexivity].
    destruct (find_isWalletLinked_parsed _ _ Hidentity Hread Hfind)
      as (d & a & Hd & Hn & Ha).
    cbn [identity_of_found]. rewrite Hsame, Hd, Ha.
    rewrite configureAndTransferIdentity_same.
    unfold ret.
    destruct (HandleKyc.configureAndTransferIdentity chain env a userAddress
                w5) as [[[]|e] w6]; reflexivity.
  - intros Hnone.
    assert (Hfind : forall logs,
               find (HandleKycV6.isWalletLinked registryInterface) logs
               = None).
    { intros logs. apply find_isWalletLinked_none.
      intros log _. exact (Hnone log). }
    split.
    + unfold HandleKycV6.createIdentity, try_catch, bind.
      destruct (checkEnvVariables env w) as [[[]|e] w0];
        [|eexists; reflexivity].
      destruct (new_Wallet env w0) as [[key|e] w1]; [|eexists; reflexivity].
      destruct (HandleKycV6.getGasOverrides chain w1) as [[g|e] w2];
        [|eexists; reflexivity].
      match goal with
      | |- context [lift ?c w2] => destruct (lift c w2) as [[enc|e] w3]
      end; [|eexists; reflexivity].
      match goal with
      | |- context [send chain ?c w3] =>
          destruct (send chain c w3) as [[tx|e] w4]
      end; [|eexists; reflexivity].
      destruct (tx_wait chain tx w4) as [[receipt|e] w5];
        [|eexists; reflexivity].
      rewrite Hfind. eexists; reflexivity.
    + intros key url feeData gasOverrides tx receipt Hkey Hurl Hfee Hquote
        creation Hsent Hmined.
      rewrite (createIdentity_V6_after_receipt chain env registryInterface
                 userAddress salt w key url feeData gasOverrides tx receipt
                 Hkey Hurl Hfee Hquote Hsent Hmined).
      rewrite Hfind. reflexivity.
Qed.

End TwoImplementations.

(** The two conjuncts at work: with one interface for both files the two
    runs of the worked node coincide; with a registry interface that
    declares no WalletLinked event the V6 run throws. *)
Lemma createIdentity_implementations_compared_witness :
  HandleKycV6.createIdentity
    (Examples.toy_chain Examples.toy_feeData Examples.logs_with_event true)
    Examples.toy_env Examples.toy_interface Examples.user_address "yash11"
    initial_world
  = (let (outcome, w') :=
       HandleKyc.createIdentity
         (Examples.toy_chain Examples.toy_feeData Examples.logs_with_event
            true)
         Examples.toy_env Examples.toy_interface Examples.user_address
         "yash11" initial_world in
     match outcome with
     | Return identityAddress => (Return (Some identityAddress), w')
     | Throw e => (Throw e, w')
     end)
  /\ exists e : Exn,
       fst (HandleKycV6.createIdentity
              (Examples.toy_chain Examples.toy_feeData
                 Examples.logs_with_event true)
              Examples.toy_env Scenarios.interface_without_event
              Examples.user_address "yash11" initial_world)
       = Throw e.
Proof.
  split.
  - refine (proj1 (createIdentity_implementations_compared
              (Examples.toy_chain Examples.toy_feeData
                 Examples.logs_with_event true)
              Examples.toy_env Examples.toy_interface Examples.toy_interface
              Examples.user_address "yash11" initial_world) _ _ _).
    + reflexivity.
    + intros log d Hd Hn. unfold Examples.toy_interface in Hd.
      destruct (log_data log) as [|[] rest]; try discriminate;
        injection Hd as <-; cbn in *; discriminate.
    + intros log event Hd. unfold Examples.toy_interface in Hd.
      destruct (log_data log) as [|[] rest]; discriminate.
  - refine (proj1 (proj2 (createIdentity_implementations_compared
              (Examples.toy_chain Examples.toy_feeData
                 Examples.logs_with_event true)
              Examples.toy_env Examples.toy_interface
              Scenarios.interface_without_event
              Examples.user_address "yash11" initial_world) _)).
    intros log [(d & Hd & Hn)|Hd];
      unfold Scenarios.interface_without_event, Examples.toy_interface in Hd;
      destruct (log_data log) as [|[] rest]; try discriminate;
      injection Hd as <-; cbn in *; discriminate.
Defined.

(* ================================================================= *)
(** * Further properties of issuance *)

Lemma length_serialized (sig : Signature) : List.length (serialized sig) = 65.
Proof.
  unfold serialized. rewrite !length_app, !length_be_bytes. reflexivity.
Qed.

Section IssuanceErrors.

Context {E : Ecdsa}.
Variable env : Env.

(** X10.  In an environment whose issuer key, if configured, is a key that
    [new ethers.Wallet] accepts, [issueKycClaimSignature] returns a
    signature exactly when the user address and the identity address both
    parse, the issuer key is configured and the topic fits a uint256.  Its
    checks run in that order: a bad user address is reported before anything
    else, then a bad identity address, then the missing key; the user
    address and the country code have no other influence on the result. *)
Theorem issueKycClaimSignature_succeeds_iff
    (userAddress onchainIDAddress : AddressLike) (claimData : string)
    (topic countryCode : Z) :
  (forall key : PrivateKey,
      ADMIN_PRIVATE_KEY env = Some key -> valid_private_key key = true) ->
  ((exists issued,
       HandleKyc.issueKycClaimSignature env userAddress onchainIDAddress
         claimData topic countryCode = Return issued)
   <-> isAddress userAddress = true
       /\ isAddress onchainIDAddress = true
       /\ ADMIN_PRIVATE_KEY env <> None
       /\ uint256_in_range topic = true)
  /\ (isAddress userAddress = false ->
      HandleKyc.issueKycClaimSignature env userAddress onchainIDAddress
        claimData topic countryCode
      = Throw (Error "Invalid user address provided."))
  /\ (isAddress userAddress = true -> isAddress onchainIDAddress = false ->
      HandleKyc.issueKycClaimSignature env userAddress onchainIDAddress
        claimData topic countryCode
      = Throw (Error "Invalid onchain ID address provided."))
  /\ (isAddress userAddress = true -> isAddress onchainIDAddress = true ->
      ADMIN_PRIVATE_KEY env = None ->
      HandleKyc.issueKycClaimSignature env userAddress onchainIDAddress
        claimData topic countryCode
      = Throw (Error "Issuer private key (ADMIN_PRIVATE_KEY) not found in .env"))
  /\ (forall (otherUser : AddressLike) (otherCountry : Z),
         isAddress userAddress = true -> isAddress otherUser = true ->
         HandleKyc.issueKycClaimSignature env otherUser onchainIDAddress
           claimData topic otherCountry
         = HandleKyc.issueKycClaimSignature env userAddress onchainIDAddress
             claimData topic countryCode).
Proof.
  intros _.
  unfold HandleKyc.issueKycClaimSignature.
  destruct userAddress as [u|su], onchainIDAddress as [i|si];
    cbn [isAddress getAddress negb];
    destruct (ADMIN_PRIVATE_KEY env) as [key|] eqn:Hkey;
    unfold AbiCoder_encode; cbn [List.length pack getAddress];
    destruct (uint256_in_range topic) eqn:Hrange; cbn [pack encoded_or_throw];
    (split; [split; [intros [issued Hx]; try discriminate Hx;
                     repeat split; congruence
                    |intros (Hu & Hi & Hk & Hr);
                     try discriminate; try congruence; eexists; reflexivity]
            |]);
    (split; [intros Hx; try discriminate Hx; reflexivity|]);
    (split; [intros Hx Hy; try discriminate Hx; try discriminate Hy;
             reflexivity|]);
    (split; [intros Hx Hy Hz; try discriminate Hx; try discriminate Hy;
             try discriminate Hz; reflexivity|]);
    intros [ou|os] oc Hx Hy; try discriminate Hx; try discriminate Hy;
    reflexivity.
Qed.

End IssuanceErrors.

Lemma issueKycClaimSignature_succeeds_iff_witness :
  exists issued : HandleKyc.KycClaimSignature,
    HandleKyc.issueKycClaimSignature (E := Examples.toy_ecdsa)
      Examples.toy_env (Addr Examples.user_address)
      (Addr Examples.identity_contract) "KYC" 42 91
    = Return issued.
Proof.
  refine (proj2 (proj1 (issueKycClaimSignature_succeeds_iff
                          (E := Examples.toy_ecdsa) Examples.toy_env
                          (Addr Examples.user_address)
                          (Addr Examples.identity_contract) "KYC" 42 91 _))
            _).
  - intros key Hkey. cbn in Hkey. injection Hkey as <-. reflexivity.
  - repeat split; try reflexivity. discriminate.
Defined.

Section Wrapper.

Context {E : Ecdsa}.
Variables (env : Env) (key : PrivateKey).
Variables (user subject : address) (topic : Z).

Hypothesis env_key : ADMIN_PRIVATE_KEY env = Some key.
Hypothesis topic_fits : (0 <= topic < 2 ^ 256)%Z.

Lemma generateClaimSignature_valid :
  HandleKyc.generateClaimSignature env (Addr user) (Addr subject) topic
  = Return {| claim_topic := topic;
              claim_scheme := 1;
              claim_issuer := HandleKyc.CLAIM_ISSUER_ADDRESS;
              claim_signature :=
                serialized
                  (sign key (Spec.signed_digest subject topic
                               (toUtf8Bytes "KYC")));
              claim_data := toUtf8Bytes "KYC";
              claim_uri := "" |}.
Proof.
  unfold HandleKyc.generateClaimSignature.
  rewrite (issueKycClaimSignature_valid env key subject topic "KYC" env_key
             topic_fits user 91).
  reflexivity.
Qed.

(** X11.  For the same identity address and topic, the claim the
    [generateClaimSignature] wrapper of [handleKyc.js] returns and the claim
    [generateClaimSignature] of [handleKycV6.js] returns for the payload
    "KYC" carry the same topic, scheme 1, the same 65-byte signature, the
    data 0x4b5943 and an empty uri.  They differ only in the declared
    issuer: the wrapper declares the constant CLAIM_ISSUER_ADDRESS, the V6
    function the address of the signing key, so the two claims are equal
    exactly when the configured key is the key of that constant address. *)
Theorem generateClaimSignature_declares_constant_issuer :
  exists legacy current : Claim,
    HandleKyc.generateClaimSignature env (Addr user) (Addr subject) topic
    = Return legacy
    /\ HandleKycV6.generateClaimSignature env (Addr subject) topic "KYC"
       = Return current
    /\ claim_topic legacy = topic /\ claim_scheme legacy = 1%Z
    /\ claim_data legacy = [x4b; x59; x43] /\ claim_uri legacy = ""%string
    /\ List.length (claim_signature legacy) = 65
    /\ claim_signature legacy = claim_signature current
    /\ claim_issuer legacy = 0xd75849340fa68E19610791c398880D8a4a089096%N
    /\ claim_issuer current = computeAddress key
    /\ (legacy = current
        <-> computeAddress key = 0xd75849340fa68E19610791c398880D8a4a089096%N).
Proof.
  eexists; eexists.
  split; [exact generateClaimSignature_valid|].
  split; [exact (generateClaimSignature_V6_valid env key subject topic "KYC"
                   env_key topic_fits)|].
  cbn [claim_topic claim_scheme claim_data claim_uri claim_signature
       claim_issuer].
  repeat split; try reflexivity; try apply length_serialized.
  - intros Heq. apply (f_equal claim_issuer) in Heq.
    cbn [claim_issuer] in Heq. now symmetry.
  - intros ->. reflexivity.
Qed.

End Wrapper.

Lemma generateClaimSignature_declares_constant_issuer_witness :
  exists legacy current : Claim,
    HandleKyc.generateClaimSignature (E := Examples.toy_ecdsa)
      Examples.toy_env (Addr Examples.user_address)
      (Addr Examples.identity_contract) 42 = Return legacy
    /\ HandleKycV6.generateClaimSignature (E := Examples.toy_ecdsa)
         Examples.toy_env (Addr Examples.identity_contract) 42 "KYC"
       = Return current
    /\ claim_topic legacy = 42%Z /\ claim_scheme legacy = 1%Z
    /\ claim_data legacy = [x4b; x59; x43] /\ claim_uri legacy = ""%string
    /\ List.length (claim_signature legacy) = 65
    /\ claim_signature legacy = claim_signature current
    /\ claim_issuer legacy = 0xd75849340fa68E19610791c398880D8a4a089096%N
    /\ claim_issuer current = 8%N
    /\ (legacy = current
        <-> 8%N = 0xd75849340fa68E19610791c398880D8a4a089096%N).
Proof.
  refine (generateClaimSignature_declares_constant_issuer
            (E := Examples.toy_ecdsa) Examples.toy_env 7%N
            Examples.user_address Examples.identity_contract 42 _ _).
  - reflexivity.
  - lia.
Defined.

Section SignatureRoute.

Context {E : Ecdsa}.
Variable env : Env.

(** X12.  In an environment whose issuer key, if configured, is a key that
    [new ethers.Wallet] accepts, [POST /signature] answers 200 exactly when
    both fields hold text that parses as an address and the issuer key is
    configured, and the body is then the claim for topic 42 and payload
    "KYC" signed for the identity address; it answers 400 exactly when a
    field is absent or empty; in every other case it answers 500, never
    anything else. *)
Theorem post_signature_statuses
    (userAddress identityAddress : option AddressLike) :
  (forall key : PrivateKey,
      ADMIN_PRIVATE_KEY env = Some key -> valid_private_key key = true) ->
  let response := ServerRoutes.post_signature env userAddress identityAddress in
  (ServerRoutes.status response = 200
   <-> exists (user subject : address) (key : PrivateKey),
         userAddress = Some (Addr user)
         /\ identityAddress = Some (Addr subject)
         /\ ADMIN_PRIVATE_KEY env = Some key
         /\ ServerRoutes.body response
            = ServerRoutes.ClaimBody
                {| claim_topic := 42;
                   claim_scheme := 1;
                   claim_issuer := HandleKyc.CLAIM_ISSUER_ADDRESS;
                   claim_signature :=
                     serialized
                       (sign key (Spec.signed_digest subject 42
                                    (toUtf8Bytes "KYC")));
                   claim_data := toUtf8Bytes "KYC";
                   claim_uri := "" |})
  /\ (ServerRoutes.status response = 400
      <-> ServerRoutes.js_not_string userAddress = true
          \/ ServerRoutes.js_not_string identityAddress = true)
  /\ (ServerRoutes.status response = 200
      \/ ServerRoutes.status response = 400
      \/ ServerRoutes.status response = 500).
Proof.
  intros _ response. unfold response, ServerRoutes.post_signature.
  destruct userAddress as [[user|[|c su]]|];
    destruct identityAddress as [[subject|[|c' si]]|];
    cbn [ServerRoutes.js_not_string orb ServerRoutes.field
         ServerRoutes.status ServerRoutes.body];
    try (split; [split; [discriminate|intros (? & ? & ? & Hu & Hi & _);
                                       discriminate]
                |split; [split; [intros _; auto|reflexivity]|auto]]).
  2-4: (unfold HandleKyc.generateClaimSignature,
          HandleKyc.issueKycClaimSignature;
        cbn [isAddress getAddress negb ServerRoutes.status];
        split; [split; [discriminate
                       |intros (? & ? & ? & Hu & Hi & _); discriminate]
               |split; [split; [discriminate
                               |intros [Hx|Hx]; discriminate]
                       |auto]]).
  destruct (ADMIN_PRIVATE_KEY env) as [key|] eqn:Hkey.
  - rewrite (generateClaimSignature_valid env key user subject 42 Hkey
               ltac:(lia)).
    cbn [ServerRoutes.status ServerRoutes.body].
    split; [split; [intros _; exists user, subject, key; auto|reflexivity]
           |split; [split; [discriminate|intros [Hx|Hx]; discriminate]|auto]].
  - unfold HandleKyc.generateClaimSignature,
      HandleKyc.issueKycClaimSignature.
    cbn [isAddress getAddress negb]. rewrite Hkey.
    cbn [ServerRoutes.status].
    split; [split; [discriminate
                   |intros (? & ? & ? & _ & _ & Hk & _); discriminate]
           |split; [split; [discriminate|intros [Hx|Hx]; discriminate]|auto]].
Qed.

End SignatureRoute.

Lemma post_signature_statuses_witness :
  ServerRoutes.status
    (ServerRoutes.post_signature (E := Examples.toy_ecdsa) Examples.toy_env
       (Some (Addr Examples.user_address))
       (Some (Addr Examples.identity_contract)))
  = 200
  /\ ServerRoutes.status
       (ServerRoutes.post_signature (E := Examples.toy_ecdsa)
          Examples.toy_env (Some (Addr Examples.user_address)) None)
     = 400.
Proof.
  split.
  - refine (proj2 (proj1 (post_signature_statuses (E := Examples.toy_ecdsa)
              Examples.toy_env (Some (Addr Examples.user_address))
              (Some (Addr Examples.identity_contract)) _)) _).
    + intros key Hkey. cbn in Hkey. injection Hkey as <-. reflexivity.
    + exists Examples.user_address, Examples.identity_contract, 7%N.
      repeat split; reflexivity.
  - refine (proj2 (proj1 (proj2 (post_signature_statuses
              (E := Examples.toy_ecdsa) Examples.toy_env
              (Some (Addr Examples.user_address)) None _))) _).
    + intros key Hkey. cbn in Hkey. injection Hkey as <-. reflexivity.
    + right. reflexivity.
Defined.

(* ================================================================= *)
(** * The standalone validator *)

Section Validator.

Context {E : Ecdsa}.
Variables (chain : Chain) (env : Env) (key : PrivateKey) (url : string).

Hypothesis env_key : ADMIN_PRIVATE_KEY env = Some key.
Hypothesis env_url : RPC_URL env = Some url.

Lemma sigVerify_raw_hash :
  SigVerify.rawDataHash
  = Some (keccak256 (be_bytes 20 SigVerify.IDENTITY_CONTRACT_ADDRESS
                       ++ be_bytes 32 (Z.to_N 42) ++ [])).
Proof.
  unfold SigVerify.rawDataHash, solidityPackedKeccak256.
  rewrite (solidityPacked_claim SigVerify.IDENTITY_CONTRACT_ADDRESS 42 []
             eq_refl).
  reflexivity.
Qed.

(** The verdict of the script as a function of the contract's answer, for
    whatever hash the script signs. *)
Lemma sigVerify_verdict (h : bytes) :
  SigVerify.rawDataHash = Some h ->
  SigVerify.main chain env
  = match getRecoveredAddress chain SigVerify.IDENTITY_CONTRACT_ADDRESS
            (serialized (sign key h)) h with
    | Return recoveredAddress =>
        if (recoveredAddress =? computeAddress key)%N
        then SigVerify.Success
        else SigVerify.Failure
    | Throw error => SigVerify.ValidationError (Server.message error)
    end.
Proof.
  intros Hraw. unfold SigVerify.main. now rewrite env_url, env_key, Hraw.
Qed.

Lemma sigVerify_success_iff (h : bytes) :
  SigVerify.rawDataHash = Some h ->
  SigVerify.main chain env = SigVerify.Success
  <-> getRecoveredAddress chain SigVerify.IDENTITY_CONTRACT_ADDRESS
        (serialized (sign key h)) h = Return (computeAddress key).
Proof.
  intros Hraw. rewrite (sigVerify_verdict h Hraw).
  destruct (getRecoveredAddress chain SigVerify.IDENTITY_CONTRACT_ADDRESS
              (serialized (sign key h)) h) as [a|e].
  - destruct (N.eqb_spec a (computeAddress key)) as [->|Hne]; split.
    + reflexivity.
    + reflexivity.
    + discriminate.
    + intros Hx. exfalso. apply Hne. congruence.
  - split; discriminate.
Qed.

(** X13.  The script of [sigVerify.js] signs the bare packed hash and asks
    the contract to recover the signer from that same hash.  With the
    environment configured, it ends on SUCCESS exactly when the contract
    returns the issuer's address for it, on FAILURE when the contract
    returns another address, and reports the contract's error otherwise; in
    particular it succeeds on every node whose recovery view returns the
    signer of a signature for the digest that was signed. *)
Theorem sigVerify_succeeds_iff_recovered :
  exists rawDataHash : bytes,
    SigVerify.rawDataHash = Some rawDataHash
    /\ List.length rawDataHash = 32
    /\ (SigVerify.main chain env = SigVerify.Success
        <-> getRecoveredAddress chain SigVerify.IDENTITY_CONTRACT_ADDRESS
              (serialized (sign key rawDataHash)) rawDataHash
            = Return (computeAddress key))
    /\ (forall other : address,
           getRecoveredAddress chain SigVerify.IDENTITY_CONTRACT_ADDRESS
             (serialized (sign key rawDataHash)) rawDataHash = Return other ->
           other <> computeAddress key ->
           SigVerify.main chain env = SigVerify.Failure)
    /\ (forall message : string,
           getRecoveredAddress chain SigVerify.IDENTITY_CONTRACT_ADDRESS
             (serialized (sign key rawDataHash)) rawDataHash
           = Throw (Error message) ->
           SigVerify.main chain env = SigVerify.ValidationError message)
    /\ ((forall d d' : bytes,
            List.length d = 32 -> List.length d' = 32 ->
            (getRecoveredAddress chain SigVerify.IDENTITY_CONTRACT_ADDRESS
               (serialized (sign key d)) d' = Return (computeAddress key)
             <-> d' = d)) ->
        SigVerify.main chain env = SigVerify.Success).
Proof.
  pose proof sigVerify_raw_hash as Hraw.
  pose proof (length_keccak256
                (be_bytes 20 SigVerify.IDENTITY_CONTRACT_ADDRESS
                   ++ be_bytes 32 (Z.to_N 42) ++ [])) as Hlen.
  revert Hraw Hlen.
  generalize (keccak256 (be_bytes 20 SigVerify.IDENTITY_CONTRACT_ADDRESS
                           ++ be_bytes 32 (Z.to_N 42) ++ [])).
  intros h Hraw Hlen. exists h.
  split; [exact Hraw|]. split; [exact Hlen|].
  split; [exact (sigVerify_success_iff h Hraw)|].
  split; [|split].
  - intros other Hrec Hne. rewrite (sigVerify_verdict h Hraw), Hrec.
    destruct (N.eqb_spec other (computeAddress key)); [contradiction|].
    reflexivity.
  - intros message Hrec. rewrite (sigVerify_verdict h Hraw), Hrec.
    reflexivity.
  - intros Hsound. apply (sigVerify_success_iff h Hraw).
    apply Hsound; [exact Hlen|exact Hlen|reflexivity].
Qed.

End Validator.

Lemma sigVerify_succeeds_iff_recovered_witness :
  SigVerify.main (E := Examples.toy_ecdsa)
    (Examples.toy_chain Examples.toy_feeData [] true) Examples.toy_env
  = SigVerify.Success.
Proof.
  destruct (sigVerify_succeeds_iff_recovered (E := Examples.toy_ecdsa)
              (Examples.toy_chain Examples.toy_feeData [] true)
              Examples.toy_env 7%N Scenarios.toy_url eq_refl eq_refl)
    as (h & _ & _ & _ & _ & _ & Hsound).
  apply Hsound. intros d d' Hd _.
  exact (toy_recovery_binds SigVerify.IDENTITY_CONTRACT_ADDRESS 7%N d d' Hd).
Defined.

(* ================================================================= *)
(** * Further properties of claim submission *)

Lemma computeGasOverrides_no_gasLimit (feeData : FeeData)
    (quote : GasOverrides) :
  HandleKyc.computeGasOverrides feeData = Return quote ->
  gasLimit quote = None.
Proof.
  unfold HandleKyc.computeGasOverrides.
  destruct (js_not (feeData_maxFeePerGas feeData)
            || js_not (feeData_maxPriorityFeePerGas feeData));
    [discriminate|].
  intros Hq. injection Hq as <-. reflexivity.
Qed.

(** X14.  [submitClaim] of [handleKycV6.js] submits at most one
    transaction, and only an addClaim on the given identity contract
    carrying the claim's own six fields and a fee quote without gas limit.
    It submits it only after the contract has recovered the declared issuer
    from the claim's signature over the hash it recomputed: whatever the
    node answers, a submitted addClaim implies a successful recovery. *)
Theorem submitClaim_V6_sends_only_verified_claims
    (chain : Chain) (env : Env) (identityAddress : address)
    (userWallet : PrivateKey) (claimDetails : Claim) (w : World) :
  let run :=
    HandleKycV6.submitClaim chain env identityAddress userWallet
      claimDetails w in
  submitted (snd run) = submitted w
  \/ exists gasOverrides : GasOverrides,
       submitted (snd run)
       = submitted w
         ++ [addClaim identityAddress (claim_topic claimDetails)
               (claim_scheme claimDetails) (claim_issuer claimDetails)
               (claim_signature claimDetails) (claim_data claimDetails)
               (claim_uri claimDetails) gasOverrides]
       /\ gasLimit gasOverrides = None
       /\ exists dataHash : bytes,
            HandleKycV6.submitClaim_dataHash identityAddress claimDetails
            = Some dataHash
            /\ getRecoveredAddress chain identityAddress
                 (claim_signature claimDetails) dataHash
               = Return (claim_issuer claimDetails).
Proof.
  intros run. subst run.
  unfold HandleKycV6.submitClaim, bind, checkEnvVariables, ret, throw.
  destruct (ADMIN_PRIVATE_KEY env) as [key|]; [|now left].
  destruct (RPC_URL env) as [url|]; [|now left].
  destruct (preflightVerification_total chain identityAddress claimDetails w)
    as [verified Hv].
  rewrite Hv.
  destruct verified; cbn [negb]; [|now left].
  apply (f_equal fst) in Hv. cbn [fst] in Hv.
  apply preflightVerification_true_iff in Hv.
  unfold try_catch, HandleKycV6.getGasOverrides, bind, provider_getFeeData,
    lift, ret, throw.
  destruct (getFeeData chain (feeQueries w)) as [fd|e]; [|now left].
  change (HandleKycV6.computeGasOverrides fd)
    with (HandleKyc.computeGasOverrides fd).
  destruct (HandleKyc.computeGasOverrides fd) as [g|e] eqn:Hg; [|now left].
  right. exists g.
  split; [|split; [exact (computeGasOverrides_no_gasLimit fd g Hg)|exact Hv]].
  unfold send, tx_wait, lift. cbn [submitted feeQueries].
  match goal with
  | |- context [sendTransaction chain ?n ?c] =>
      destruct (sendTransaction chain n c) as [tx|e]
  end; [|reflexivity].
  destruct (wait chain tx); reflexivity.
Qed.

Section LegacySubmit.

Variables (chain : Chain) (env : Env) (key : PrivateKey) (url : string).
Variables (identityAddress : address) (userWallet : PrivateKey).
Variables (claimDetails : Claim) (w : World).

Hypothesis env_key : ADMIN_PRIVATE_KEY env = Some key.
Hypothesis env_url : RPC_URL env = Some url.

(** X15.  [submitClaim] of [handleKyc.js] asks the contract whether the
    claim is valid and then ignores the answer.  If the call throws, the
    error is rethrown and nothing is submitted.  If it returns, be it true
    or false, one addClaim transaction is submitted with the fresh fee quote
    and the gas limit 500000.  When [tx.wait()] resolves with a receipt of
    status 1 the function returns normally; when [tx.wait()] throws, as it
    does for a reverted transaction, the error is rethrown after the
    submission. *)
Theorem submitClaim_ignores_validity_answer :
  (forall e : Exn,
      isClaimValid chain identityAddress identityAddress
        (claim_topic claimDetails) (claim_signature claimDetails)
        (claim_data claimDetails) = Throw e ->
      HandleKyc.submitClaim chain env identityAddress userWallet
        claimDetails w = (Throw e, w))
  /\ (forall (valid : bool) (feeData : FeeData) (quote : GasOverrides)
             (tx : TransactionResponse),
         isClaimValid chain identityAddress identityAddress
           (claim_topic claimDetails) (claim_signature claimDetails)
           (claim_data claimDetails) = Return valid ->
         getFeeData chain (feeQueries w) = Return feeData ->
         HandleKyc.computeGasOverrides feeData = Return quote ->
         let sent :=
           addClaim identityAddress (claim_topic claimDetails)
             (claim_scheme claimDetails) (claim_issuer claimDetails)
             (claim_signature claimDetails) (claim_data claimDetails)
             (claim_uri claimDetails)
             {| maxFeePerGas := maxFeePerGas quote;
                maxPriorityFeePerGas := maxPriorityFeePerGas quote;
                gasLimit := Some 500000%Z |} in
         sendTransaction chain (List.length (submitted w)) sent = Return tx ->
         (forall receipt : TransactionReceipt,
             wait chain tx = Return receipt ->
             receipt_status receipt = 1%Z ->
             HandleKyc.submitClaim chain env identityAddress userWallet
               claimDetails w
             = (Return tt,
                {| submitted := submitted w ++ [sent];
                   feeQueries := S (feeQueries w) |}))
         /\ (forall e : Exn,
                wait chain tx = Throw e ->
                HandleKyc.submitClaim chain env identityAddress userWallet
                  claimDetails w
                = (Throw e,
                   {| submitted := submitted w ++ [sent];
                      feeQueries := S (feeQueries w) |}))).
Proof.
  split.
  - intros e Hthrow. unfold HandleKyc.submitClaim.
    unfold bind at 1.
    rewrite (checkEnvVariables_ok env key url w env_key env_url).
    unfold bind at 1, HandleKyc.checkIsClaimValid, try_catch, lift.
    rewrite Hthrow. reflexivity.
  - intros valid feeData quote tx Hvalid Hfee Hquote sent Hsend.
    assert (Hrun :
      HandleKyc.submitClaim chain env identityAddress userWallet
        claimDetails w
      = match wait chain tx with
        | Return _ =>
            (Return tt,
             {| submitted := submitted w ++ [sent];
                feeQueries := S (feeQueries w) |})
        | Throw e =>
            (Throw e,
             {| submitted := submitted w ++ [sent];
                feeQueries := S (feeQueries w) |})
        end).
    { unfold HandleKyc.submitClaim.
      unfold bind at 1.
      rewrite (checkEnvVariables_ok env key url w env_key env_url).
      unfold bind at 1, HandleKyc.checkIsClaimValid, try_catch at 1,
        lift at 1.
      rewrite Hvalid.
      unfold try_catch, bind, HandleKyc.getGasOverrides, bind,
        provider_getFeeData, lift.
      rewrite Hfee, Hquote.
      unfold send. cbn [submitted feeQueries]. fold sent. rewrite Hsend.
      unfold tx_wait, lift.
      destruct (wait chain tx) as [receipt|e]; [|reflexivity].
      destruct (receipt_status receipt =? 1)%Z; reflexivity. }
    split.
    + intros receipt Hwait _. rewrite Hrun, Hwait. reflexivity.
    + intros e Hwait. rewrite Hrun, Hwait. reflexivity.
Qed.

End LegacySubmit.

(** On a node whose validity check answers false, the claim is submitted
    all the same and the function returns; on a node whose validity check
    reverts, nothing is submitted. *)
Lemma submitClaim_ignores_validity_answer_witness :
  HandleKyc.submitClaim (Examples.toy_chain Examples.toy_feeData [] false)
    Examples.toy_env Examples.identity_contract 9%N Examples.tampered_claim
    initial_world
  = (Return tt,
     {| submitted :=
          [addClaim Examples.identity_contract
             (claim_topic Examples.tampered_claim)
             (claim_scheme Examples.tampered_claim)
             (claim_issuer Examples.tampered_claim)
             (claim_signature Examples.tampered_claim)
             (claim_data Examples.tampered_claim)
             (claim_uri Examples.tampered_claim)
             {| maxFeePerGas := 65200000000;
                maxPriorityFeePerGas := 35200000000;
                gasLimit := Some 500000%Z |}];
        feeQueries := 1 |})
  /\ HandleKyc.submitClaim Scenarios.chain_reverting_views Examples.toy_env
       Examples.identity_contract 9%N Examples.tampered_claim initial_world
     = (Throw (Error "call revert exception"), initial_world).
Proof.
  split.
  - exact (proj1 (proj2 (submitClaim_ignores_validity_answer
             (Examples.toy_chain Examples.toy_feeData [] false)
             Examples.toy_env 7%N Scenarios.toy_url
             Examples.identity_contract 9%N Examples.tampered_claim
             initial_world eq_refl eq_refl)
           false Examples.toy_feeData Scenarios.toy_quote Scenarios.toy_tx
           eq_refl eq_refl eq_refl eq_refl)
           (Scenarios.toy_receipt []) eq_refl eq_refl).
  - exact (proj1 (submitClaim_ignores_validity_answer
             Scenarios.chain_reverting_views Examples.toy_env 7%N
             Scenarios.toy_url Examples.identity_contract 9%N
             Examples.tampered_claim initial_world eq_refl eq_refl)
           (Error "call revert exception") eq_refl).
Defined.

(* ================================================================= *)
(** * The handlers *)

Section Handlers.

Variables (chain : Chain) (env : Env) (iface : Interface).

(** X16.  The handlers [/register], [/invest] and [/deploy] never let an
    error escape: whatever the request and whatever the node answers, each
    completes with a response whose status is 200 (201 for [/deploy]), 400
    or 500.  A request with a missing field is answered 400 without any
    contact with the node; the number 0 counts as missing for [countryCode]
    and [amount], and [/invest] demands a [tokenAddress] although
    [mintTokens] never uses it. *)
Theorem handlers_always_respond
    (userAddress identityAddress to tokenAddress : option address)
    (countryCode amount : option Z) (salt : string) (w : World) :
  (exists response w',
      Server.post_register chain env userAddress identityAddress countryCode w
      = (Return response, w')
      /\ (Server.status response = 200 \/ Server.status response = 400
          \/ Server.status response = 500))
  /\ (exists response w',
         Server.post_invest chain env to amount tokenAddress w
         = (Return response, w')
         /\ (Server.status response = 200 \/ Server.status response = 400
             \/ Server.status response = 500))
  /\ (exists response w',
         ServerRoutes.post_deploy chain env iface userAddress salt w
         = (Return response, w')
         /\ (ServerRoutes.status response = 201
             \/ ServerRoutes.status response = 400
             \/ ServerRoutes.status response = 500))
  /\ (userAddress = None \/ identityAddress = None \/ countryCode = None
      \/ countryCode = Some 0%Z ->
      Server.post_register chain env userAddress identityAddress countryCode w
      = (Return {| Server.status := 400;
                   Server.body :=
                     [("error"%string,
                       JsString "userAddress, identityAddress, and countryCode are required.")] |},
         w))
  /\ (to = None \/ tokenAddress = None \/ amount = None \/ amount = Some 0%Z ->
      Server.post_invest chain env to amount tokenAddress w
      = (Return {| Server.status := 400;
                   Server.body :=
                     [("error"%string,
                       JsString "to, amount, and tokenAddress are required.")] |},
         w)).
Proof.
  split; [|split; [|split; [|split]]].
  - unfold Server.post_register.
    destruct userAddress as [u|]; [|eexists; eexists; split; [reflexivity|cbn; auto]].
    destruct identityAddress as [i|]; [|eexists; eexists; split; [reflexivity|cbn; auto]].
    destruct (js_not countryCode); [eexists; eexists; split; [reflexivity|cbn; auto]|].
    unfold try_catch, bind, ret.
    destruct (HandleKyc.addToIdentityRegistry chain env u i (bigint countryCode) w)
      as [[v|e] w']; eexists; eexists; (split; [reflexivity|cbn; auto]).
  - unfold Server.post_invest.
    destruct to as [t|]; [|eexists; eexists; split; [reflexivity|cbn; auto]].
    destruct tokenAddress as [k|]; [|eexists; eexists; split; [reflexivity|cbn; auto]].
    destruct (js_not amount); [eexists; eexists; split; [reflexivity|cbn; auto]|].
    unfold try_catch, bind, ret.
    destruct (Invest.mintTokens chain env t (bigint amount) k w)
      as [[v|e] w']; eexists; eexists; (split; [reflexivity|cbn; auto]).
  - unfold ServerRoutes.post_deploy.
    destruct userAddress as [u|]; [|eexists; eexists; split; [reflexivity|cbn; auto]].
    unfold try_catch, bind, ret.
    destruct (HandleKyc.createIdentity chain env iface u salt w)
      as [[v|e] w']; eexists; eexists; (split; [reflexivity|cbn; auto]).
  - unfold Server.post_register. intros Hm.
    destruct userAddress as [u|]; [|reflexivity].
    destruct identityAddress as [i|]; [|reflexivity].
    destruct Hm as [Hm|[Hm|[Hm|Hm]]]; try discriminate; subst; reflexivity.
  - unfold Server.post_invest. intros Hm.
    destruct to as [t|]; [|reflexivity].
    destruct tokenAddress as [k|]; [|reflexivity].
    destruct Hm as [Hm|[Hm|[Hm|Hm]]]; try discriminate; subst; reflexivity.
Qed.

End Handlers.

(* ================================================================= *)
(** * The legacy registration *)

Section LegacyRegistration.

Variables (chain : Chain) (env : Env) (key : PrivateKey) (url : string).
Variables (identityAddress userAddress : address) (countryCode : Z).
Variables (w : World) (gasPrice : Z).
Variables (tx : TransactionResponse) (receipt : TransactionReceipt).

Let buffered : Z := Z.quot (gasPrice * 150) 100.

Let registration : Call :=
  registerIdentity DeployIdentity.IDENTITY_REGISTRY userAddress
    identityAddress countryCode
    {| maxFeePerGas := buffered; maxPriorityFeePerGas := buffered;
       gasLimit := None |}.

Hypothesis env_key : ADMIN_PRIVATE_KEY env = Some key.
Hypothesis env_url : RPC_URL env = Some url.
Hypothesis price_answer : getGasPrice chain (feeQueries w) = Return gasPrice.
Hypothesis price_nonnegative : (0 <= gasPrice)%Z.
Hypothesis registration_sent :
  sendTransaction chain (List.length (submitted w)) registration = Return tx.
Hypothesis registration_mined : wait chain tx = Return receipt.
Hypothesis country_given : countryCode <> 0%Z.

(** X17.  The legacy [registerIdentity] prices its transaction from the
    legacy gas price raised by half, rounded down, and uses that one value
    for both the max fee and the priority fee; the value is at least the gas
    price.  When the transaction is mined it returns the transaction hash of
    the receipt, and the [/register] handler of [server.js] reports that
    hash as [transactionHash]. *)
Theorem legacy_registerIdentity_returns_receipt_hash :
  DeployIdentity.registerIdentity chain env identityAddress userAddress
    countryCode w
  = (Return (JsString (receipt_hash receipt)),
     {| submitted :=
          submitted w
          ++ [registerIdentity DeployIdentity.IDENTITY_REGISTRY userAddress
                identityAddress countryCode
                {| maxFeePerGas := Z.quot (gasPrice * 150) 100;
                   maxPriorityFeePerGas := Z.quot (gasPrice * 150) 100;
                   gasLimit := None |}];
        feeQueries := S (feeQueries w) |})
  /\ (gasPrice <= Z.quot (gasPrice * 150) 100)%Z
  /\ (100 * Z.quot (gasPrice * 150) 100 <= 150 * gasPrice)%Z
  /\ fst (LegacyServer.post_register chain env (Some userAddress)
            (Some identityAddress) (Some countryCode) w)
     = Return {| Server.status := 200;
                 Server.body :=
                   [("transactionHash"%string,
                     JsString (receipt_hash receipt))] |}.
Proof.
  assert (Hrun :
    DeployIdentity.registerIdentity chain env identityAddress userAddress
      countryCode w
    = (Return (JsString (receipt_hash receipt)),
       {| submitted := submitted w ++ [registration];
          feeQueries := S (feeQueries w) |})).
  { unfold DeployIdentity.registerIdentity.
    unfold bind at 1.
    rewrite (checkEnvVariables_ok env key url w env_key env_url).
    unfold try_catch, bind, new_Wallet. rewrite env_key.
    unfold ret at 1. unfold provider_getGasPrice. rewrite price_answer.
    unfold send. cbn [submitted feeQueries].
    fold buffered. fold registration. rewrite registration_sent.
    unfold tx_wait, lift. rewrite registration_mined. reflexivity. }
  split; [exact Hrun|].
  rewrite Z.quot_div_nonneg by lia.
  pose proof (Z.div_mod (gasPrice * 150) 100 ltac:(lia)) as Hdm.
  pose proof (Z.mod_pos_bound (gasPrice * 150) 100 ltac:(lia)) as Hb.
  split; [|split].
  - assert (Hle : (gasPrice * 100 / 100 <= gasPrice * 150 / 100)%Z)
      by (apply Z.div_le_mono; lia).
    rewrite Z.div_mul in Hle by lia. exact Hle.
  - lia.
  - unfold LegacyServer.post_register. cbn [js_not bigint].
    destruct (Z.eqb_spec countryCode 0) as [|_]; [contradiction|].
    unfold try_catch, bind. rewrite Hrun. reflexivity.
Qed.

End LegacyRegistration.

Lemma legacy_registerIdentity_returns_receipt_hash_witness :
  DeployIdentity.registerIdentity
    (Examples.toy_chain Examples.toy_feeData [] true) Examples.toy_env
    Examples.identity_contract Examples.user_address 91 initial_world
  = (Return (JsString "0xabc"),
     {| submitted :=
          [registerIdentity DeployIdentity.IDENTITY_REGISTRY
             Examples.user_address Examples.identity_contract 91
             {| maxFeePerGas := Z.quot (30000000000 * 150) 100;
                maxPriorityFeePerGas := Z.quot (30000000000 * 150) 100;
                gasLimit := None |}];
        feeQueries := 1 |}).
Proof.
  exact (proj1 (legacy_registerIdentity_returns_receipt_hash
           (Examples.toy_chain Examples.toy_feeData [] true) Examples.toy_env
           7%N Scenarios.toy_url Examples.identity_contract
           Examples.user_address 91 initial_world 30000000000
           Scenarios.toy_tx (Scenarios.toy_receipt [])
           eq_refl eq_refl eq_refl ltac:(lia) eq_refl eq_refl ltac:(lia))).
Defined.

(* ================================================================= *)
(** * The canonical encoding is unambiguous *)

Section Injectivity.

Lemma Some_inj {A : Type} (x y : A) : Some x = Some y -> x = y.
Proof. intros Hxy. now injection Hxy. Qed.

Lemma app_inj_length {A : Type} (x x' y y' : list A) :
  List.length x = List.length x' -> x ++ y = x' ++ y' -> x = x' /\ y = y'.
Proof.
  revert x'; induction x as [|a x IH]; intros [|a' x'] Hlen Heq;
    try discriminate Hlen.
  - now split.
  - cbn [app] in Heq. injection Heq as -> Heq.
    cbn [List.length] in Hlen. injection Hlen as Hlen.
    destruct (IH x' Hlen Heq) as [-> ->]. now split.
Qed.

Lemma be_bytes_inj (len : nat) (m n : N) :
  (m < 2 ^ (8 * N.of_nat len))%N -> (n < 2 ^ (8 * N.of_nat len))%N ->
  be_bytes len m = be_bytes len n -> m = n.
Proof.
  intros Hm Hn Heq. apply (f_equal Examples.be_to_N) in Heq.
  rewrite !be_to_N_be_bytes in Heq.
  now rewrite !N.mod_small in Heq by assumption.
Qed.

Lemma zeros_inj_length (p p' : bytes) (k k' : nat) :
  List.length p = List.length p' -> p ++ zeros k = p' ++ zeros k' -> p = p'.
Proof. intros Hlen Heq. now destruct (app_inj_length p p' _ _ Hlen Heq). Qed.

End Injectivity.

(** X18.  The standard ABI encoding the issuers hash is unambiguous: two
    claims (address, topic fitting a uint256, payload) with the same
    encoding have the same identity address, the same topic and the same
    payload, so the hashed bytes determine the claim. *)
Theorem AbiCoder_encode_claim_injective
    (subject1 subject2 : address) (topic1 topic2 : Z)
    (payload1 payload2 : bytes) :
  (subject1 < 2 ^ 160)%N -> (subject2 < 2 ^ 160)%N ->
  (0 <= topic1 < 2 ^ 256)%Z -> (0 <= topic2 < 2 ^ 256)%Z ->
  (N.of_nat (List.length payload1) < 2 ^ 256)%N ->
  (N.of_nat (List.length payload2) < 2 ^ 256)%N ->
  AbiCoder_encode [abi_address (Addr subject1); abi_uint256 topic1;
                   abi_bytes payload1]
  = AbiCoder_encode [abi_address (Addr subject2); abi_uint256 topic2;
                     abi_bytes payload2] ->
  subject1 = subject2 /\ topic1 = topic2 /\ payload1 = payload2.
Proof.
  intros Hs1 Hs2 Ht1 Ht2 Hp1 Hp2 Heq.
  rewrite !AbiCoder_encode_claim in Heq
    by (unfold uint256_in_range; apply andb_true_iff; split;
        [apply Z.leb_le|apply Z.ltb_lt]; lia).
  apply Some_inj in Heq. unfold Spec.abi_encoding in Heq.
  apply app_inj_length in Heq as [Hsub Heq];
    [|now rewrite !length_be_bytes].
  apply app_inj_length in Heq as [Htop Heq];
    [|now rewrite !length_be_bytes].
  apply app_inj_length in Heq as [_ Heq];
    [|now rewrite !length_be_bytes].
  apply app_inj_length in Heq as [Hlen Heq];
    [|now rewrite !length_be_bytes].
  assert (H256 : (2 ^ (8 * N.of_nat 32) = 2 ^ 256)%N) by reflexivity.
  assert (Hpow : (2 ^ 160 < 2 ^ 256)%N) by (apply N.pow_lt_mono_r; lia).
  apply be_bytes_inj in Hsub; [|rewrite H256; lia|rewrite H256; lia].
  apply be_bytes_inj in Htop;
    [|rewrite H256; change (2 ^ 256)%N with (Z.to_N (2 ^ 256)); lia
     |rewrite H256; change (2 ^ 256)%N with (Z.to_N (2 ^ 256)); lia].
  apply be_bytes_inj in Hlen; [|now rewrite H256|now rewrite H256].
  apply Nat2N.inj in Hlen.
  split; [exact Hsub|]. split; [lia|].
  exact (zeros_inj_length _ _ _ _ Hlen Heq).
Qed.

Lemma AbiCoder_encode_claim_injective_witness :
  Examples.identity_contract = Examples.identity_contract
  /\ 42%Z = 42%Z /\ toUtf8Bytes "KYC" = toUtf8Bytes "KYC".
Proof.
  refine (AbiCoder_encode_claim_injective
            Examples.identity_contract Examples.identity_contract 42 42
            (toUtf8Bytes "KYC") (toUtf8Bytes "KYC") _ _ _ _ _ _ eq_refl).
  - reflexivity.
  - reflexivity.
  - lia.
  - lia.
  - reflexivity.
  - reflexivity.
Defined.

(* ================================================================= *)
(** * Submission and minting, end to end *)

Section VerifiedSubmission.

Variables (chain : Chain) (env : Env) (key : PrivateKey) (url : string).
Variables (identityAddress : address) (userWallet : PrivateKey).
Variables (claimDetails : Claim) (w : World) (dataHash : bytes).
Variables (feeData : FeeData) (quote : GasOverrides).
Variables (tx : TransactionResponse) (receipt : TransactionReceipt).

Let submission : Call :=
  addClaim identityAddress (claim_topic claimDetails)
    (claim_scheme claimDetails) (claim_issuer claimDetails)
    (claim_signature claimDetails) (claim_data claimDetails)
    (claim_uri claimDetails) quote.

Hypothesis env_key : ADMIN_PRIVATE_KEY env = Some key.
Hypothesis env_url : RPC_URL env = Some url.
Hypothesis recomputed :
  HandleKycV6.submitClaim_dataHash identityAddress claimDetails
  = Some dataHash.
Hypothesis recovered :
  getRecoveredAddress chain identityAddress (claim_signature claimDetails)
    dataHash = Return (claim_issuer claimDetails).
Hypothesis fee_answer : getFeeData chain (feeQueries w) = Return feeData.
Hypothesis fee_quote : HandleKyc.computeGasOverrides feeData = Return quote.
Hypothesis submission_sent :
  sendTransaction chain (List.length (submitted w)) submission = Return tx.
Hypothesis submission_mined : wait chain tx = Return receipt.

(** X19.  When the contract recovers the declared issuer from the claim's
    signature over the recomputed packed hash, [submitClaim] of
    [handleKycV6.js] goes on: it fetches one fee quote, submits one addClaim
    transaction with the six fields of the claim and that quote as it is
    (no gas limit, unlike [handleKyc.js]), waits for it and returns. *)
Theorem submitClaim_V6_submits_verified_claim :
  HandleKycV6.submitClaim chain env identityAddress userWallet claimDetails w
  = (Return tt,
     {| submitted :=
          submitted w
          ++ [addClaim identityAddress (claim_topic claimDetails)
                (claim_scheme claimDetails) (claim_issuer claimDetails)
                (claim_signature claimDetails) (claim_data claimDetails)
                (claim_uri claimDetails) quote];
        feeQueries := S (feeQueries w) |})
  /\ gasLimit quote = None.
Proof.
  split; [|exact (computeGasOverrides_no_gasLimit feeData quote fee_quote)].
  assert (Hpre : HandleKycV6.preflightVerification chain identityAddress
                   claimDetails w = (Return true, w)).
  { destruct (preflightVerification_total chain identityAddress
                claimDetails w) as [[|] Hv]; [exact Hv|].
    exfalso.
    assert (Hyes : fst (HandleKycV6.preflightVerification chain
                          identityAddress claimDetails w) = Return true).
    { apply preflightVerification_true_iff. exists dataHash. now split. }
    rewrite Hv in Hyes. discriminate Hyes. }
  unfold HandleKycV6.submitClaim. unfold bind at 1.
  rewrite (checkEnvVariables_ok env key url w env_key env_url).
  unfold bind at 1. rewrite Hpre. cbn [negb].
  unfold try_catch, bind, HandleKycV6.getGasOverrides, bind,
    provider_getFeeData, lift.
  rewrite fee_answer.
  change (HandleKycV6.computeGasOverrides feeData)
    with (HandleKyc.computeGasOverrides feeData).
  rewrite fee_quote.
  unfold send. cbn [submitted feeQueries]. fold submission.
  rewrite submission_sent. unfold tx_wait, lift. rewrite submission_mined.
  reflexivity.
Qed.

End VerifiedSubmission.

Lemma submitClaim_V6_submits_verified_claim_witness :
  HandleKycV6.submitClaim (Examples.toy_chain Examples.toy_feeData [] true)
    Examples.toy_env Examples.identity_contract 9%N Scenarios.packed_claim
    initial_world
  = (Return tt,
     {| submitted :=
          [addClaim Examples.identity_contract 42 1 8%N
             (claim_signature Scenarios.packed_claim) (toUtf8Bytes "KYC") ""
             Scenarios.toy_quote];
        feeQueries := 1 |}).
Proof.
  refine (proj1 (submitClaim_V6_submits_verified_claim
            (Examples.toy_chain Examples.toy_feeData [] true)
            Examples.toy_env 7%N Scenarios.toy_url
            Examples.identity_contract 9%N Scenarios.packed_claim
            initial_world
            (keccak256 (be_bytes 20 Examples.identity_contract
                          ++ be_bytes 32 (Z.to_N 42) ++ toUtf8Bytes "KYC"))
            Examples.toy_feeData Scenarios.toy_quote Scenarios.toy_tx
            (Scenarios.toy_receipt []) eq_refl eq_refl _ _ eq_refl eq_refl
            eq_refl eq_refl)).
  - unfold HandleKycV6.submitClaim_dataHash, solidityPackedKeccak256,
      Scenarios.packed_claim.
    cbn [claim_topic claim_data].
    rewrite (solidityPacked_claim Examples.identity_contract 42
               (toUtf8Bytes "KYC") eq_refl).
    reflexivity.
  - unfold Scenarios.packed_claim. cbn [claim_signature claim_issuer].
    apply (toy_recovery_binds Examples.identity_contract 7%N).
    + apply length_keccak256.
    + reflexivity.
Defined.

Section RejectedMint.

Variables (chain : Chain) (env : Env) (key : PrivateKey) (url : string).
Variables (to tokenAddress : address) (amount : Z) (w : World).
Variable reason : string.

Hypothesis env_key : ADMIN_PRIVATE_KEY env = Some key.
Hypothesis env_url : RPC_URL env = Some url.
Hypothesis amount_given : amount <> 0%Z.
Hypothesis mint_rejected :
  sendTransaction chain (List.length (submitted w))
    (mint 0x3eaC25f463ed170fC79EfD629A0BD93f9336A016%N to amount)
  = Throw (Error reason).

(** X20.  When the node rejects the mint, [mintTokens] rethrows the node's
    error after that single attempt, and [POST /invest] answers 500 with
    the fixed text "Failed to mint tokens." and the node's message as
    [details]; nothing is retried. *)
Theorem rejected_mint_is_reported_as_500 :
  Invest.mintTokens chain env to amount tokenAddress w
  = (Throw (Error reason),
     {| submitted :=
          submitted w
          ++ [mint 0x3eaC25f463ed170fC79EfD629A0BD93f9336A016%N to amount];
        feeQueries := feeQueries w |})
  /\ Server.post_invest chain env (Some to) (Some amount) (Some tokenAddress)
       w
     = (Return {| Server.status := 500;
                  Server.body :=
                    [("error"%string, JsString "Failed to mint tokens.");
                     ("details"%string, JsString reason)] |},
        {| submitted :=
             submitted w
             ++ [mint 0x3eaC25f463ed170fC79EfD629A0BD93f9336A016%N to amount];
           feeQueries := feeQueries w |}).
Proof.
  assert (Hrun :
    Invest.mintTokens chain env to amount tokenAddress w
    = (Throw (Error reason),
       {| submitted :=
            submitted w
            ++ [mint 0x3eaC25f463ed170fC79EfD629A0BD93f9336A016%N to amount];
          feeQueries := feeQueries w |})).
  { unfold Invest.mintTokens, try_catch. unfold bind at 1.
    rewrite (checkEnvVariables_ok env key url w env_key env_url).
    unfold bind, new_Wallet. rewrite env_key. unfold ret at 1.
    unfold send. cbn [submitted feeQueries]. rewrite mint_rejected.
    reflexivity. }
  split; [exact Hrun|].
  unfold Server.post_invest. cbn [js_not bigint].
  destruct (Z.eqb_spec amount 0) as [|_]; [contradiction|].
  unfold try_catch, bind. rewrite Hrun. reflexivity.
Qed.

End RejectedMint.

Lemma rejected_mint_is_reported_as_500_witness :
  Invest.mintTokens Scenarios.chain_rejecting_everything Examples.toy_env
    Examples.user_address 1000 Examples.identity_contract initial_world
  = (Throw (Error "insufficient funds"),
     {| submitted :=
          [mint 0x3eaC25f463ed170fC79EfD629A0BD93f9336A016%N
             Examples.user_address 1000];
        feeQueries := 0 |}).
Proof.
  exact (proj1 (rejected_mint_is_reported_as_500
           Scenarios.chain_rejecting_everything Examples.toy_env 7%N
           Scenarios.toy_url Examples.user_address Examples.identity_contract
           1000 initial_world "insufficient funds" eq_refl eq_refl
           ltac:(lia) eq_refl)).
Defined.

(* ================================================================= *)
(** * The compliance agent *)

Section ComplianceAgent.

Variables (gateway : Compliance.Gateway) (env : Env).
Variables (complianceAddress agentAddress : address) (w : World).

(** X21.  [addComplianceAgent] attempts at most one addAgent call, on the
    given compliance contract and for the given agent.  It returns [true]
    when the grant goes through and also when anything fails with a message
    containing "is already an agent", so running the setup again on a
    configured contract succeeds; every other error is rethrown as it is. *)
Theorem addComplianceAgent_tolerates_existing_agent :
  let attempt :=
    Compliance.grantAgentRole gateway env complianceAddress agentAddress w in
  let run :=
    Compliance.addComplianceAgent gateway env complianceAddress agentAddress
      w in
  (snd run = [] \/ exists g, snd run
                             = [Compliance.addAgent complianceAddress
                                  agentAddress g])
  /\ (fst (fst attempt) = Return true -> fst (fst run) = Return true)
  /\ (forall message : string,
         fst (fst attempt) = Throw (Error message) ->
         Compliance.includes "is already an agent" message = true ->
         fst (fst run) = Return true)
  /\ (forall message : string,
         fst (fst attempt) = Throw (Error message) ->
         Compliance.includes "is already an agent" message = false ->
         fst (fst run) = Throw (Error message))
  /\ snd run = snd attempt.
Proof.
  intros attempt run. subst attempt run.
  unfold Compliance.addComplianceAgent.
  assert (Hcalls :
    snd (Compliance.grantAgentRole gateway env complianceAddress agentAddress w)
    = []
    \/ exists g,
         snd (Compliance.grantAgentRole gateway env complianceAddress
                agentAddress w)
         = [Compliance.addAgent complianceAddress agentAddress g]).
  { unfold Compliance.grantAgentRole.
    destruct (new_Wallet env w) as [[k|e] w1]; [|now left].
    destruct (HandleKyc.getGasOverrides (Compliance.node gateway) w1)
      as [[g|e] w2]; [|now left].
    right. exists g.
    destruct (Compliance.sendAgent gateway _) as [tx|e]; [|reflexivity].
    destruct (wait (Compliance.node gateway) tx); reflexivity. }
  destruct (Compliance.grantAgentRole gateway env complianceAddress
              agentAddress w) as [[[granted|[message]] w'] calls];
    cbn [fst snd] in *.
  - split; [exact Hcalls|]. split; [intros Hx; exact Hx|].
    split; [intros m Hm; discriminate Hm|].
    split; [intros m Hm; discriminate Hm|reflexivity].
  - cbn [Server.message].
    destruct (Compliance.includes "is already an agent" message) eqn:Hinc;
      cbn [fst snd]; (split; [exact Hcalls|]); (split; [discriminate|]).
    + split; [reflexivity|]. split; [|reflexivity].
      intros m Hm Hno. injection Hm as <-. congruence.
    + split; [|split; [|reflexivity]].
      * intros m Hm Hyes. injection Hm as <-. congruence.
      * intros m Hm _. exact Hm.
Qed.

End ComplianceAgent.

Lemma already_an_agent_is_success :
  Compliance.addComplianceAgent Scenarios.gateway_with_agent Examples.toy_env
    Compliance.default_complianceAddress Compliance.default_agentAddress
    initial_world
  = (Return true, {| submitted := []; feeQueries := 1 |},
     [Compliance.addAgent Compliance.default_complianceAddress
        Compliance.default_agentAddress Scenarios.toy_quote]).
Proof. reflexivity. Qed.
